(** * Session bot: login state machine and range-download pipeline

    A shallow embedding of [src/main.py]: the command handlers [start],
    [login], [logout], the free-text handler [handle_message] with its
    login flow and its range-download loop, [parse_tg_link],
    [get_filename] and [progress_callback], and the startup routine
    [restore_sessions].

    The three module-level dictionaries and the Mongo collection are
    finite maps; every call the handlers make to the bot API, to the
    Telethon client or to the collection, and every dictionary update, is
    appended to a log, so that the order of effects can be stated.  The
    outcomes of the calls to the Telethon client and to the collection
    (connect, request a code, sign in, enumerate, download, upsert,
    delete) are read from a [platform] record, and each may raise; what
    startup meets (the cursor over the collection, the parsing of a stored
    session, the authorization check) is read from a [startup] record.  The
    calls to the bot API ([reply_text], [send_message], [send_document],
    [delete_message]) are taken to return normally.  A [str] is held as
    its UTF-8 bytes, and the character classes of Python (the whitespace
    that [str.strip] removes, the decimal digits that [\d] matches and
    [int] reads) are those of Unicode 14.0, as in CPython 3.11, read off
    the bytes. *)

From Stdlib Require Import ZArith List String Ascii Lia Bool DecimalString.
From Stdlib Require Import SpecFloat.
From Stdlib Require DecimalPos.
From stdpp Require Import gmap strings list sorting.

Local Open Scope Z_scope.

(** ** Python values used by the handlers *)

(** An exception object: its class name and [str(e)]. *)
Record pyexn := PyExn { exn_class : string; exn_str : string }.

Inductive result (A : Type) :=
| Ok (a : A)
| Raise (e : pyexn).
Arguments Ok {A} a.
Arguments Raise {A} e.

Definition ZeroDivisionError (msg : string) : pyexn := PyExn "ZeroDivisionError" msg.
Definition OverflowError (msg : string) : pyexn := PyExn "OverflowError" msg.
Definition ValueError (msg : string) : pyexn := PyExn "ValueError" msg.
Definition AttributeError (msg : string) : pyexn := PyExn "AttributeError" msg.

(** *** Strings *)

Definition newline : string := String (ascii_of_nat 10) EmptyString.

(** [str(n)] for an integer. *)
Definition str_of_Z (n : Z) : string :=
  match n with
  | Z0 => "0"
  | Zpos p => NilZero.string_of_uint (Pos.to_uint p)
  | Zneg p => String "-" (NilZero.string_of_uint (Pos.to_uint p))
  end.

(** A [str] is held as its UTF-8 bytes.  The code point at the head of a
    string, with the number of bytes that encode it: [None] at the end of
    the string and on bytes that are no UTF-8 (which no [str] has). *)
Definition byte (c : ascii) : Z := Z.of_nat (nat_of_ascii c).

Definition continuation (b : Z) : bool := (128 <=? b) && (b <=? 191).

Definition head_code_point (s : string) : option (Z * nat) :=
  match s with
  | EmptyString => None
  | String b0 s1 =>
      let x0 := byte b0 in
      if x0 <? 128 then Some (x0, 1%nat)
      else
        match s1 with
        | EmptyString => None
        | String b1 s2 =>
            let x1 := byte b1 in
            if (194 <=? x0) && (x0 <=? 223) then
              if continuation x1 then Some ((x0 - 192) * 64 + (x1 - 128), 2%nat) else None
            else
              match s2 with
              | EmptyString => None
              | String b2 s3 =>
                  let x2 := byte b2 in
                  if (224 <=? x0) && (x0 <=? 239) then
                    let cp := (x0 - 224) * 4096 + (x1 - 128) * 64 + (x2 - 128) in
                    if continuation x1 && continuation x2 && (2048 <=? cp)
                       && negb ((55296 <=? cp) && (cp <=? 57343))
                    then Some (cp, 3%nat) else None
                  else
                    match s3 with
                    | EmptyString => None
                    | String b3 _ =>
                        let x3 := byte b3 in
                        let cp := (x0 - 240) * 262144 + (x1 - 128) * 4096
                                  + (x2 - 128) * 64 + (x3 - 128) in
                        if (240 <=? x0) && (x0 <=? 244)
                           && continuation x1 && continuation x2 && continuation x3
                           && (65536 <=? cp) && (cp <=? 1114111)
                        then Some (cp, 4%nat) else None
                    end
              end
        end
  end.

(** The UTF-8 bytes of a code point. *)
Definition utf8 (cp : Z) : string :=
  let b (x : Z) := ascii_of_nat (Z.to_nat x) in
  if cp <? 128 then String (b cp) EmptyString
  else if cp <? 2048 then
    String (b (192 + cp / 64)) (String (b (128 + cp mod 64)) EmptyString)
  else if cp <? 65536 then
    String (b (224 + cp / 4096))
      (String (b (128 + cp / 64 mod 64)) (String (b (128 + cp mod 64)) EmptyString))
  else
    String (b (240 + cp / 262144))
      (String (b (128 + cp / 4096 mod 64))
         (String (b (128 + cp / 64 mod 64)) (String (b (128 + cp mod 64)) EmptyString))).

(** [str.isspace] on one character, the set [str.strip] removes: the
    ASCII whitespace and separators, NEL, the no-break space, and the
    space separators and line and paragraph separators above them. *)
Definition py_isspace (cp : Z) : bool :=
  ((9 <=? cp) && (cp <=? 13)) || ((28 <=? cp) && (cp <=? 32))
  || (cp =? 133) || (cp =? 160) || (cp =? 5760)
  || ((8192 <=? cp) && (cp <=? 8202))
  || (cp =? 8232) || (cp =? 8233) || (cp =? 8239) || (cp =? 8287) || (cp =? 12288).


(** The number of bytes of the whitespace character at the head of a
    string, 0 when there is none. *)
Definition whitespace_len (s : string) : nat :=
  match head_code_point s with
  | Some (cp, n) => if py_isspace cp then n else 0%nat
  | None => 0%nat
  end.

(** [s.lstrip()]; [skip] counts the bytes still to drop of a whitespace
    character already recognized. *)
Fixpoint lstrip_from (skip : nat) (s : string) : string :=
  match s with
  | EmptyString => EmptyString
  | String c s' =>
      match skip with
      | S k => lstrip_from k s'
      | O =>
          match whitespace_len (String c s') with
          | O => String c s'
          | S k => lstrip_from k s'
          end
      end
  end.

Definition lstrip (s : string) : string := lstrip_from 0 s.

(** [t] is one whitespace character. *)
Definition is_whitespace (t : string) : bool :=
  match head_code_point t with
  | Some (cp, n) => py_isspace cp && (n =? String.length t)%nat
  | None => false
  end.

(** [s.rstrip()]: what is left after the whitespace at the end is one
    more byte than what is left of the tail, unless that is a whitespace
    character. *)
Fixpoint rstrip (s : string) : string :=
  match s with
  | String c s' =>
      let r := rstrip s' in
      if is_whitespace (String c r) then EmptyString else String c r
  | EmptyString => EmptyString
  end.

(** [s.strip()] *)
Definition strip (s : string) : string := rstrip (lstrip s).

(** [s.split(sep)] for a one-character separator: never empty, one more
    piece than there are separators. *)
Fixpoint split (sep : ascii) (s : string) : list string :=
  match s with
  | EmptyString => [EmptyString]
  | String c s' =>
      if Ascii.eqb c sep then EmptyString :: split sep s'
      else match split sep s' with
           | piece :: rest => String c piece :: rest
           | [] => [String c EmptyString]
           end
  end.

(** [s.startswith(p)] *)
Definition startswith (p s : string) : bool := String.prefix p s.

(** The decimal digits of Unicode 14.0 (CPython 3.11) come in runs of ten
    consecutive code points, digit zero first: the zeros. *)
Definition decimal_zeros : list Z :=
  [48; 1632; 1776; 1984; 2406; 2534; 2662; 2790; 2918; 3046; 3174; 3302; 3430; 3558;
   3664; 3792; 3872; 4160; 4240; 6112; 6160; 6470; 6608; 6784; 6800; 6992; 7088; 7232;
   7248; 42528; 43216; 43264; 43472; 43504; 43600; 44016; 65296; 66720; 68912; 69734;
   69872; 69942; 70096; 70384; 70736; 70864; 71248; 71360; 71472; 71904; 72016; 72784;
   73040; 73120; 92768; 92864; 93008; 120782; 120792; 120802; 120812; 120822; 123200;
   123632; 125264; 130032].

(** The digit a character stands for, for the characters that [\d]
    matches in a [str] pattern and that [int] reads. *)
Definition decimal_value (cp : Z) : option Z :=
  match List.find (fun z => (z <=? cp) && (cp <=? z + 9)) decimal_zeros with
  | Some z => Some (cp - z)
  | None => None
  end.

(** The same on the one-byte characters, where the digits are 0 to 9. *)
Definition isdigit (c : ascii) : bool :=
  let n := nat_of_ascii c in (48 <=? n)%nat && (n <=? 57)%nat.

(** The digit at the head of a string and the bytes it takes. *)
Definition decimal_at (s : string) : option (Z * nat) :=
  match head_code_point s with
  | Some (cp, n) =>
      match decimal_value cp with
      | Some d => Some (d, n)
      | None => None
      end
  | None => None
  end.

(** The longest run of digits at the head of a string, as the digits they
    stand for, together with what follows it; [skip] as in
    [lstrip_from]. *)
Fixpoint span_digits_from (skip : nat) (s : string) : list Z * string :=
  match s with
  | EmptyString => ([], EmptyString)
  | String c s' =>
      match skip with
      | S k => span_digits_from k s'
      | O =>
          match decimal_at (String c s') with
          | Some (d, n) => let '(ds, r) := span_digits_from (Nat.pred n) s' in (d :: ds, r)
          | None => ([], String c s')
          end
      end
  end.

Definition span_digits (s : string) : list Z * string := span_digits_from 0 s.

(** [int(s)] on a string of decimal digits, most significant first.
    CPython refuses more than [sys.get_int_max_str_digits()] digits, 4300
    unless it is configured otherwise; leading zeros count. *)
Fixpoint int_of_digits_acc (acc : Z) (ds : list Z) : Z :=
  match ds with
  | d :: ds' => int_of_digits_acc (10 * acc + d) ds'
  | [] => acc
  end.

Definition int_max_str_digits : nat := 4300.

Definition int_of_digits (ds : list Z) : result Z :=
  if (int_max_str_digits <? length ds)%nat then
    Raise (ValueError
             ("Exceeds the limit (4300 digits) for integer string conversion: value has "
              ++ str_of_Z (Z.of_nat (length ds))
              ++ " digits; use sys.set_int_max_str_digits() to increase the limit"))
  else Ok (int_of_digits_acc 0 ds).

(** Removes a literal prefix, [None] when the string does not start with it. *)
Fixpoint strip_prefix (p s : string) : option string :=
  match p, s with
  | EmptyString, _ => Some s
  | String a p', String b s' => if Ascii.eqb a b then strip_prefix p' s' else None
  | String _ _, EmptyString => None
  end.

(** ** Binary64 arithmetic as Python performs it

    A Python [float] is an IEEE 754 binary64 number, carried here by the
    standard library's [spec_float].  Every operation returns the exact
    result rounded to nearest, ties to even. *)

Definition prec : Z := 53.
Definition emax : Z := 1024.

(** [floor (log2 (n / d))] for positive [n] and [d]. *)
Definition ratio_log2 (n d : Z) : Z :=
  let k := Z.log2 n - Z.log2 d in
  if d * 2 ^ Z.max 0 k <=? n * 2 ^ Z.max 0 (- k) then k else k - 1.

(** [n / d] rounded to the nearest integer, ties to even ([d] positive). *)
Definition rne_div (n d : Z) : Z :=
  let q := n / d in
  match 2 * (n mod d) ?= d with
  | Lt => q
  | Gt => q + 1
  | Eq => if Z.even q then q else q + 1
  end.

(** The binary64 number nearest to [n / d] ([n] not negative, [d]
    positive) with sign [s]: the exponent is that of the binade of
    [n / d], not below the subnormal exponent -1074
    ([binade_exponent]); the quotient is rounded to an integer mantissa
    at that exponent; a mantissa that rounds up to 2^53 moves to the next
    binade; a result of 2^1024 or more is an infinity. *)
Definition binade_exponent (n d : Z) : Z :=
  Z.max (ratio_log2 n d - (prec - 1)) (3 - emax - prec).

Definition round_ratio (s : bool) (n d : Z) : spec_float :=
  if n =? 0 then S754_zero s
  else
    let e := binade_exponent n d in
    let m := rne_div (n * 2 ^ Z.max 0 (- e)) (d * 2 ^ Z.max 0 e) in
    let '(m, e) := if m =? 2 ^ prec then (2 ^ (prec - 1), e + 1) else (m, e) in
    match m with
    | Zpos p => if e <=? emax - prec then S754_finite s p e else S754_infinity s
    | _ => S754_zero s
    end.

Definition is_infinity (x : spec_float) : bool :=
  match x with S754_infinity _ => true | _ => false end.

(** [float(a)] for an integer [a] ([PyLong_AsDouble]). *)
Definition float_of_int (a : Z) : result spec_float :=
  let x := round_ratio (a <? 0) (Z.abs a) 1 in
  if is_infinity x then Raise (OverflowError "int too large to convert to float")
  else Ok x.

(** [a / b] for two integers: the exact quotient, rounded once. *)
Definition int_truediv (a b : Z) : result spec_float :=
  if b =? 0 then Raise (ZeroDivisionError "division by zero")
  else
    let x := round_ratio (xorb (a <? 0) (b <? 0)) (Z.abs a) (Z.abs b) in
    if is_infinity x then Raise (OverflowError "integer division result too large for a float")
    else Ok x.

(** [x * y] for two floats; an overflow is an infinity, not an error. *)
Definition float_mul (x y : spec_float) : spec_float :=
  match x, y with
  | S754_finite sx mx ex, S754_finite sy my ey =>
      let e := ex + ey in
      round_ratio (xorb sx sy) (Zpos mx * Zpos my * 2 ^ Z.max 0 e) (2 ^ Z.max 0 (- e))
  | _, _ => SFmul prec emax x y
  end.

(** [x / y] for two floats. *)
Definition float_truediv (x y : spec_float) : result spec_float :=
  match x, y with
  | _, S754_zero _ => Raise (ZeroDivisionError "float division by zero")
  | S754_finite sx mx ex, S754_finite sy my ey =>
      let e := ex - ey in
      Ok (round_ratio (xorb sx sy) (Zpos mx * 2 ^ Z.max 0 e) (Zpos my * 2 ^ Z.max 0 (- e)))
  | _, _ => Ok (SFdiv prec emax x y)
  end.

(** [x > 0] *)
Definition float_gt_zero (x : spec_float) : bool := SFltb (S754_zero false) x.

(** [f"{x:.1f}"]: the decimal with one fractional digit nearest to the
    exact value of [x], ties to even. *)
Definition format_tenths (s : bool) (t : Z) : string :=
  ((if s then "-" else "") ++ str_of_Z (t / 10) ++ "." ++ str_of_Z (t mod 10))%string.

Definition tenths (m : positive) (e : Z) : Z :=
  rne_div (10 * Zpos m * 2 ^ Z.max 0 e) (2 ^ Z.max 0 (- e)).

Definition format_1f (x : spec_float) : string :=
  match x with
  | S754_nan => "nan"
  | S754_infinity s => if s then "-inf" else "inf"
  | S754_zero s => format_tenths s 0
  | S754_finite s m e => format_tenths s (tenths m e)
  end.

(** The magnitude of a float counted in units of 2^-1074, the spacing of
    the subnormal numbers: every finite binary64 number is a whole number
    of them. *)
Definition units (x : spec_float) : Z :=
  match x with
  | S754_finite _ m e => Zpos m * 2 ^ (e + 1074)
  | _ => 0
  end.

Definition is_finite (x : spec_float) : bool :=
  match x with
  | S754_finite _ _ e => (-1074 <=? e) && (e <=? 971)
  | S754_zero _ => true
  | _ => false
  end.


(** ** Data model *)

(** A Telethon client object, known by its identity. *)
Inductive client := Client (handle : nat).

Inductive DocumentAttribute :=
| DocumentAttributeFilename (file_name : string)
| DocumentAttributeOther.

(** The [document] of a [MessageMediaDocument], when it is not [None]: a
    [Document] with its attributes, or a [DocumentEmpty], which has
    none. *)
Inductive Document :=
| DocumentOf (attributes : list DocumentAttribute)
| DocumentEmpty.

(** [msg.media] when it is not [None].  Telethon declares the [document]
    of a [MessageMediaDocument] optional: it is [None] for media that has
    expired. *)
Inductive MessageMedia :=
| MessageMediaDocument (document : option Document)
| MessageMediaPhoto
| MessageMediaOther.

Record message := Message { msg_id : Z; media : option MessageMedia }.

(** The values stored in [USER_STATES]: the string ["AWAITING_PHONE"], the
    dictionary with keys [phone], [sent_code] and [client], or [None]. *)
Inductive user_state :=
| AWAITING_PHONE
| AWAITING_CODE (phone : string) (sent_code : string) (cl : client)
| STATE_NONE.

(** One progress report of a running download: the two arguments Telethon
    passes to the callback and the clock reading inside it (microseconds). *)
Record tick := Tick { tick_current : Z; tick_total : Z; tick_now : Z }.

(** What the handlers do to the outside and to the four tables, in the
    order they do it. *)
Inductive event :=
| reply_text (text : string)
| send_message (chat_id : Z) (text : string) (message_id : Z)
| edit_message_text (chat_id message_id : Z) (text : string)
| delete_message (chat_id message_id : Z)
| send_document (chat_id : Z) (document filename : string)
| client_connect (c : client)
| client_disconnect (c : client)
| client_send_code_request (c : client) (phone : string)
| client_sign_in (c : client) (phone code : string)
| client_iter_messages (c : client) (chat_id min_id max_id : option Z)
| client_download_media (c : client) (m : message)
| sessions_update_one (user_id : Z) (session : string)
| sessions_delete_one (user_id : Z)
| set_USER_STATES (user_id : Z) (st : user_state)
| set_ACTIVE_CLIENTS (user_id : Z) (c : client)
| del_ACTIVE_CLIENTS (user_id : Z)
| set_PROGRESS_MESSAGES (chat_id : Z) (message_id : option Z)
| del_PROGRESS_MESSAGES (chat_id : Z).

(** The outcomes of everything outside the process.  [None] in an
    [option pyexn] is a call that returned normally. *)
Record platform := Platform {
  connect : client -> option pyexn;
  send_code_request : client -> string -> result string;
  sign_in : client -> string -> string -> option pyexn;
  session_save : client -> string;
  (* client.iter_messages(chat_id, min_id=.., max_id=..), in the order the
     iterator yields *)
  iter_messages : client -> option Z -> option Z -> option Z -> result (list message);
  (* client.download_media: the progress reports made while it runs, then
     the local path or the error *)
  download_media : client -> message -> list tick * result string;
  (* sessions.update_one(.., upsert=True) and sessions.delete_one *)
  update_one : Z -> string -> option pyexn;
  delete_one : Z -> option pyexn;
  (* datetime.now() read by get_filename and by the loop for start_time *)
  naming_time : message -> Z;
  start_time : message -> Z;
  (* the text of datetime.timestamp() in an f-string *)
  timestamp_str : Z -> string;
  (* humanize.naturalsize on an int and on a float *)
  naturalsize_int : Z -> string;
  naturalsize_float : spec_float -> string
}.

(** The mutable state of the process and of the collection. *)
Record world := World {
  USER_STATES : gmap Z user_state;
  ACTIVE_CLIENTS : gmap Z client;
  PROGRESS_MESSAGES : gmap Z (option Z);
  sessions : gmap Z string;
  log : list event;
  (* the message_id the bot API gives to the next message it sends *)
  next_message_id : Z;
  (* the identity of the next client object constructed *)
  next_client : nat
}.

(** ** Handlers as state-and-exception computations *)

Definition M (A : Type) : Type := world -> result A * world.

Definition ret {A} (a : A) : M A := fun w => (Ok a, w).

Definition bind {A B} (c : M A) (k : A -> M B) : M B :=
  fun w => match c w with
           | (Ok a, w') => k a w'
           | (Raise e, w') => (Raise e, w')
           end.

#[export] Instance M_ret : MRet M := @ret.
#[export] Instance M_bind : MBind M := fun A B k c => bind c k.

Definition raise {A} (e : pyexn) : M A := fun w => (Raise e, w).

(** [try: body except Exception as e: handler e] *)
Definition try_except {A} (body : M A) (handler : pyexn -> M A) : M A :=
  fun w => match body w with
           | (Ok a, w') => (Ok a, w')
           | (Raise e, w') => handler e w'
           end.

(** The effect of one event on the tables. *)
Definition apply_event (e : event) (w : world) : world :=
  match e with
  | set_USER_STATES u st =>
      World (<[u := st]> (USER_STATES w)) (ACTIVE_CLIENTS w) (PROGRESS_MESSAGES w)
            (sessions w) (log w) (next_message_id w) (next_client w)
  | set_ACTIVE_CLIENTS u c =>
      World (USER_STATES w) (<[u := c]> (ACTIVE_CLIENTS w)) (PROGRESS_MESSAGES w)
            (sessions w) (log w) (next_message_id w) (next_client w)
  | del_ACTIVE_CLIENTS u =>
      World (USER_STATES w) (delete u (ACTIVE_CLIENTS w)) (PROGRESS_MESSAGES w)
            (sessions w) (log w) (next_message_id w) (next_client w)
  | set_PROGRESS_MESSAGES u o =>
      World (USER_STATES w) (ACTIVE_CLIENTS w) (<[u := o]> (PROGRESS_MESSAGES w))
            (sessions w) (log w) (next_message_id w) (next_client w)
  | del_PROGRESS_MESSAGES u =>
      World (USER_STATES w) (ACTIVE_CLIENTS w) (delete u (PROGRESS_MESSAGES w))
            (sessions w) (log w) (next_message_id w) (next_client w)
  | sessions_update_one u s =>
      World (USER_STATES w) (ACTIVE_CLIENTS w) (PROGRESS_MESSAGES w)
            (<[u := s]> (sessions w)) (log w) (next_message_id w) (next_client w)
  | sessions_delete_one u =>
      World (USER_STATES w) (ACTIVE_CLIENTS w) (PROGRESS_MESSAGES w)
            (delete u (sessions w)) (log w) (next_message_id w) (next_client w)
  | send_message _ _ _ =>
      World (USER_STATES w) (ACTIVE_CLIENTS w) (PROGRESS_MESSAGES w)
            (sessions w) (log w) (next_message_id w + 1) (next_client w)
  | _ => w
  end.

Definition record (e : event) (w : world) : world :=
  World (USER_STATES w) (ACTIVE_CLIENTS w) (PROGRESS_MESSAGES w)
        (sessions w) (log w ++ [e]) (next_message_id w) (next_client w).

(** Performs one event: its effect on the tables, and its entry in the log. *)
Definition emit (e : event) : M unit := fun w => (Ok tt, record e (apply_event e w)).

(** A call that leaves the process: logged, then it returns or raises. *)
Definition call (e : event) (outcome : option pyexn) : M unit :=
  emit e;;
  match outcome with
  | None => ret tt
  | Some x => raise x
  end.

Definition call_result {A} (e : event) (outcome : result A) : M A :=
  emit e;;
  match outcome with
  | Ok a => ret a
  | Raise x => raise x
  end.

(** A write to the collection: it happens, or the driver raises. *)
Definition store (e : event) (outcome : option pyexn) : M unit :=
  match outcome with
  | None => emit e
  | Some x => raise x
  end.

Definition get {A} (f : world -> A) : M A := fun w => (Ok (f w), w).

(** [TelegramClient(StringSession(), API_ID, API_HASH)]: a new object. *)
Definition new_client : M client :=
  fun w => (Ok (Client (next_client w)),
            World (USER_STATES w) (ACTIVE_CLIENTS w) (PROGRESS_MESSAGES w)
                  (sessions w) (log w) (next_message_id w) (S (next_client w))).

(** [USER_STATES.get(user_id)] *)
Definition USER_STATES_get (user_id : Z) : M user_state :=
  get (fun w => default STATE_NONE (USER_STATES w !! user_id)).

(** The tables after a sequence of events. *)
Definition replay (es : list event) (w : world) : world :=
  fold_left (fun w e => record e (apply_event e w)) es w.

(** Results alone, for the parts that touch no state. *)
#[export] Instance result_ret : MRet result := @Ok.
#[export] Instance result_bind : MBind result :=
  fun A B k r => match r with Ok a => k a | Raise e => Raise e end.

Definition lift {A} (r : result A) : M A := fun w => (r, w).

(** [for x in l: body x] *)
Fixpoint for_each {A} (l : list A) (body : A -> M unit) : M unit :=
  match l with
  | [] => ret tt
  | x :: l' => body x;; for_each l' body
  end.

(** ** The helpers of [main.py] *)

(** [parse_tg_link]: [re.match] anchors the pattern at the start of the
    link only; [\d+] takes the longest run of digits. *)
Definition parse_tg_link (link : string) : result (option Z * option Z) :=
  match strip_prefix "https://t.me/c/" link with
  | Some after_prefix =>
      match span_digits after_prefix with
      | (d1 :: ds1, String sep after_sep) =>
          if Ascii.eqb sep "/" then
            match span_digits after_sep with
            | (d2 :: ds2, _) =>
                chat_id ← int_of_digits (d1 :: ds1);
                message_id ← int_of_digits (d2 :: ds2);
                mret (Some chat_id, Some message_id)
            | _ => mret (None, None)
            end
          else mret (None, None)
      | _ => mret (None, None)
      end
  | None => mret (None, None)
  end.

Definition float_100 : spec_float := S754_finite false 7036874417766400 (-46).

Section Handlers.

Variable P : platform.
Variable ADMINS : list Z.

(** *** [progress_callback] *)

(** [progress = current / total * 100] *)
Definition progress (current total : Z) : result spec_float :=
  q ← int_truediv current total;
  mret (float_mul q float_100).

(** [elapsed.total_seconds()] for a timedelta of [elapsed] microseconds. *)
Definition total_seconds (elapsed : Z) : result spec_float :=
  int_truediv elapsed 1000000.

(** [speed = naturalsize(current / secs) + "/s" if secs > 0 else ""] *)
Definition speed (current elapsed : Z) : result string :=
  secs ← total_seconds elapsed;
  if float_gt_zero secs then
    secs' ← total_seconds elapsed;
    c ← float_of_int current;
    r ← float_truediv c secs';
    mret (naturalsize_float P r ++ "/s")%string
  else mret ""%string.

(** The text of the progress message, from the rendered percentage and
    the rendered speed. *)
Definition progress_text (percentage : string) (total : Z) (rate : string) : string :=
  ("📥 Downloading..." ++ newline
   ++ "Progress: " ++ percentage ++ "%" ++ newline
   ++ "Size: " ++ naturalsize_int P total ++ newline
   ++ "Speed: " ++ rate)%string.

Definition progress_message (current total start now : Z) : result string :=
  p ← progress current total;
  s ← speed current (now - start);
  mret (progress_text (format_1f p) total s).

(** A failing edit is swallowed by the source, so an edit leaves the
    same state whether it reaches the chat or not. *)
Definition progress_callback (current total chat_id start now : Z) : M unit :=
  text ← lift (progress_message current total start now);
  known ← get (fun w => PROGRESS_MESSAGES w !! chat_id);
  match known with
  | Some (Some message_id) => emit (edit_message_text chat_id message_id text)
  | _ =>
      message_id ← get next_message_id;
      emit (send_message chat_id text message_id);;
      emit (set_PROGRESS_MESSAGES chat_id (Some message_id))
  end.

(** *** [get_filename] *)

Fixpoint first_file_name (attributes : list DocumentAttribute) : option string :=
  match attributes with
  | DocumentAttributeFilename file_name :: _ => Some file_name
  | DocumentAttributeOther :: rest => first_file_name rest
  | [] => None
  end.

(** [media.document.attributes]: an [AttributeError] when the document
    is [None] or a [DocumentEmpty]. *)
Definition document_attributes (document : option Document)
  : result (list DocumentAttribute) :=
  match document with
  | Some (DocumentOf attributes) => Ok attributes
  | Some DocumentEmpty =>
      Raise (AttributeError "'DocumentEmpty' object has no attribute 'attributes'")
  | None => Raise (AttributeError "'NoneType' object has no attribute 'attributes'")
  end.

Definition get_filename (m : option MessageMedia) (now : Z) : result string :=
  match m with
  | Some (MessageMediaDocument document) =>
      attributes ← document_attributes document;
      match first_file_name attributes with
      | Some file_name => mret file_name
      | None => mret ("file_" ++ timestamp_str P now)%string
      end
  | Some MessageMediaPhoto => mret ("photo_" ++ timestamp_str P now ++ ".jpg")%string
  | _ => mret ("file_" ++ timestamp_str P now)%string
  end.

(** *** Commands *)

Definition is_admin (user_id : Z) : bool := bool_decide (user_id ∈ ADMINS).

Definition start (user_id : Z) : M unit :=
  if negb (is_admin user_id) then mret tt
  else emit (reply_text "🔑 Welcome! Use /login to start.").

Definition login (user_id : Z) : M unit :=
  if negb (is_admin user_id) then mret tt
  else
    emit (set_USER_STATES user_id AWAITING_PHONE);;
    emit (reply_text "📱 Please send your phone number (e.g., +1234567890):").

Definition logout (user_id : Z) : M unit :=
  active ← get (fun w => ACTIVE_CLIENTS w !! user_id);
  match active with
  | Some c => emit (client_disconnect c);; emit (del_ACTIVE_CLIENTS user_id)
  | None => mret tt
  end;;
  store (sessions_delete_one user_id) (delete_one P user_id);;
  emit (reply_text "🔒 Session terminated.").

(** *** The download loop *)

(** [client.download_media(msg.media, progress_callback=...)]: Telethon
    calls the callback after each chunk and awaits the task it returns,
    so the reports run in order inside the download and an exception of
    a report is an exception of the download. *)
Definition download (c : client) (msg : message) (user_id start : Z) : M string :=
  emit (client_download_media c msg);;
  for_each (download_media P c msg).1
    (fun t => progress_callback (tick_current t) (tick_total t) user_id start (tick_now t));;
  lift (download_media P c msg).2.

(** [if PROGRESS_MESSAGES.get(user_id):] is false for a missing key, for
    [None] and for the integer 0. *)
Definition dismiss_progress (user_id : Z) : M unit :=
  known ← get (fun w => PROGRESS_MESSAGES w !! user_id);
  match known with
  | Some (Some message_id) =>
      if message_id =? 0 then mret tt
      else emit (delete_message user_id message_id);;
           emit (del_PROGRESS_MESSAGES user_id)
  | _ => mret tt
  end.

(** The body of [for msg in reversed(messages)].  The file name is
    computed before the [try]. *)
Definition process_item (user_id : Z) (c : client) (msg : message) : M unit :=
  filename ← lift (get_filename (media msg) (naming_time P msg));
  let start := start_time P msg in
  emit (set_PROGRESS_MESSAGES user_id None);;
  try_except
    (file_path ← download c msg user_id start;
     dismiss_progress user_id;;
     emit (reply_text ("✅ Saved: " ++ filename));;
     emit (send_document user_id file_path filename))
    (fun e => emit (reply_text ("❌ Failed to download " ++ filename ++ ": " ++ exn_str e))).

(** [if msg.media] *)
Definition has_media (msg : message) : bool :=
  match media msg with Some _ => true | None => false end.

(** *** [handle_message] *)

Definition link_prefix : string := "https://t.me/c/".

Definition handle_links (user_id : Z) (text : string) : M unit :=
  let links := split (ascii_of_nat 10) (strip text) in
  if negb (length links =? 2)%nat then
    emit (reply_text "❌ Send exactly 2 message links (start and end).")
  else
    '(chat_id, start_id) ← lift (parse_tg_link (nth 0 links ""%string));
    '(_, end_id) ← lift (parse_tg_link (nth 1 links ""%string));
    active ← get (fun w => ACTIVE_CLIENTS w !! user_id);
    match active with
    | None => emit (reply_text "❌ Not logged in! Use /login first.")
    | Some c =>
        found ← call_result (client_iter_messages c chat_id start_id end_id)
                            (iter_messages P c chat_id start_id end_id);
        let messages := List.filter has_media found in
        for_each (rev messages) (process_item user_id c)
    end.

Definition handle_message (user_id : Z) (text : string) : M unit :=
  if negb (is_admin user_id) then mret tt
  else
    state ← USER_STATES_get user_id;
    match state with
    | AWAITING_PHONE =>
        c ← new_client;
        call (client_connect c) (connect P c);;
        sent_code ← call_result (client_send_code_request c text)
                                (send_code_request P c text);
        emit (set_USER_STATES user_id (AWAITING_CODE text sent_code c));;
        emit (reply_text "🔒 Enter the Telegram OTP you received:")
    | AWAITING_CODE phone _ c =>
        try_except
          (call (client_sign_in c phone text) (sign_in P c phone text);;
           let session_string := session_save P c in
           store (sessions_update_one user_id session_string)
                 (update_one P user_id session_string);;
           emit (set_ACTIVE_CLIENTS user_id c);;
           emit (reply_text "✅ Login successful!");;
           emit (set_USER_STATES user_id STATE_NONE))
          (fun e => emit (reply_text ("❌ Error: " ++ exn_str e)))
    | STATE_NONE =>
        if startswith link_prefix text then handle_links user_id text
        else mret tt
    end.

End Handlers.

(** ** Startup: [restore_sessions] *)

(** What startup meets outside the process, besides the platform. *)
Record startup := Startup {
  (* the documents the cursor of sessions.find() yields, as user_id and
     session, and the error with which it stops, if any *)
  find : list (Z * string) * option pyexn;
  (* StringSession(session_string): raises on a string that is no session *)
  string_session : string -> option pyexn;
  (* client.is_user_authorized() *)
  is_user_authorized : client -> result bool
}.

Section Restore.

Variable P : platform.
Variable St : startup.

(** The body of [async for doc in sessions.find()].  The handler of the
    [try] only prints, and the authorization check is a question to the
    client that leaves no entry in the log. *)
Definition restore_one (doc : Z * string) : M unit :=
  let '(user_id, session_string) := doc in
  try_except
    (lift (match string_session St session_string with
           | None => Ok tt
           | Some e => Raise e
           end);;
     c ← new_client;
     call (client_connect c) (connect P c);;
     authorized ← lift (is_user_authorized St c);
     if authorized : bool then emit (set_ACTIVE_CLIENTS user_id c) else mret tt)
    (fun _ => mret tt).

Definition restore_sessions : M unit :=
  for_each (find St).1 restore_one;;
  match (find St).2 with
  | None => mret tt
  | Some e => raise e
  end.

End Restore.

(** ** Reading a run *)

(** The tables are the same in both worlds (the log and the two counters
    apart). *)
Definition same_tables (w w' : world) : Prop :=
  USER_STATES w' = USER_STATES w /\ ACTIVE_CLIENTS w' = ACTIVE_CLIENTS w /\
  PROGRESS_MESSAGES w' = PROGRESS_MESSAGES w /\ sessions w' = sessions w.

(** The events a run added to the log of [w]. *)
Definition added (w w' : world) : list event := drop (length (log w)) (log w').

(** The texts sent with [update.message.reply_text], in order. *)
Definition replies (es : list event) : list string :=
  flat_map (fun e => match e with reply_text t => [t] | _ => [] end) es.

(** The files forwarded with [send_document]: chat, local path, filename. *)
Definition documents (es : list event) : list (Z * string * string) :=
  flat_map (fun e => match e with send_document u p f => [(u, p, f)] | _ => [] end) es.

(** The messages handed to [download_media], in order. *)
Definition downloads (es : list event) : list message :=
  flat_map (fun e => match e with client_download_media _ m => [m] | _ => [] end) es.

(** The enumerations asked of the client. *)
Definition enumerations (es : list event) : list (option Z * option Z * option Z) :=
  flat_map (fun e => match e with
                     | client_iter_messages _ c a b => [(c, a, b)]
                     | _ => []
                     end) es.

(** Every live connection has a persisted record. *)
Definition live_implies_persisted (w : world) : Prop :=
  forall u c, ACTIVE_CLIENTS w !! u = Some c -> is_Some (sessions w !! u).

(** One event keeps [live_implies_persisted] when a registration finds the
    user's record in the collection and a deletion finds no live
    connection of the user. *)
Definition keeps_persisted (e : event) (w : world) : Prop :=
  match e with
  | set_ACTIVE_CLIENTS u _ => is_Some (sessions w !! u)
  | sessions_delete_one u => ACTIVE_CLIENTS w !! u = None
  | _ => True
  end.

Fixpoint all_keep_persisted (es : list event) (w : world) : Prop :=
  match es with
  | [] => True
  | e :: es' => keeps_persisted e w /\ all_keep_persisted es' (record e (apply_event e w))
  end.

(** The error, if any, with which the progress reports of a download
    stop it: the first report whose text cannot be computed. *)
Fixpoint first_tick_error (P : platform) (start : Z) (ticks : list tick) : option pyexn :=
  match ticks with
  | [] => None
  | t :: ticks' =>
      match progress_message P (tick_current t) (tick_total t) start (tick_now t) with
      | Raise e => Some e
      | Ok _ => first_tick_error P start ticks'
      end
  end.

(** What [client.download_media] gives the loop for one message: the
    local path, or the exception it raises. *)
Definition download_outcome (P : platform) (c : client) (msg : message) : result string :=
  match first_tick_error P (start_time P msg) (download_media P c msg).1 with
  | Some e => Raise e
  | None => (download_media P c msg).2
  end.

Definition item_filename (P : platform) (msg : message) : result string :=
  get_filename P (media msg) (naming_time P msg).

(** The items of a batch that the loop reaches, each with its file name:
    those before the first item whose file name cannot be computed. *)
Fixpoint reached (P : platform) (msgs : list message) : list (message * string) :=
  match msgs with
  | [] => []
  | msg :: msgs' =>
      match item_filename P msg with
      | Ok filename => (msg, filename) :: reached P msgs'
      | Raise _ => []
      end
  end.

(** How the loop ends: normally, or with the exception of the first file
    name that cannot be computed. *)
Fixpoint batch_outcome (P : platform) (msgs : list message) : result unit :=
  match msgs with
  | [] => Ok tt
  | msg :: msgs' =>
      match item_filename P msg with
      | Ok _ => batch_outcome P msgs'
      | Raise e => Raise e
      end
  end.

(** The one reply the loop owes for an item it reaches. *)
Definition item_report (P : platform) (c : client) (item : message * string) : string :=
  match download_outcome P c item.1 with
  | Ok _ => ("✅ Saved: " ++ item.2)%string
  | Raise e => ("❌ Failed to download " ++ item.2 ++ ": " ++ exn_str e)%string
  end.

(** The file the loop owes for an item it reaches: none when its download
    raised. *)
Definition item_documents (P : platform) (u : Z) (c : client) (item : message * string)
  : list (Z * string * string) :=
  match download_outcome P c item.1 with
  | Ok file_path => [(u, file_path, item.2)]
  | Raise _ => []
  end.

(** The events of progress reporting. *)
Definition progress_event (e : event) : Prop :=
  match e with
  | send_message _ _ _ | edit_message_text _ _ _ | delete_message _ _
  | set_PROGRESS_MESSAGES _ _ | del_PROGRESS_MESSAGES _ => True
  | _ => False
  end.

(** What the turns of the loop for the items it reaches add to the log. *)
Record item_effects (P : platform) (u : Z) (c : client) (items : list (message * string))
    (es : list event) : Prop := {
  item_replies : replies es = map (item_report P c) items;
  item_docs : documents es = flat_map (item_documents P u c) items;
  item_downloads : downloads es = map fst items;
  item_enumerations : enumerations es = []
}.

Definition newest_first (l : list message) : Prop :=
  StronglySorted (fun a b => msg_id b < msg_id a) l.

Definition oldest_first (l : list message) : Prop :=
  StronglySorted (fun a b => msg_id a < msg_id b) l.

(** *** Relations between the start and the end of a run *)

(** A run keeps a relation between the world it starts in and the world
    it ends in, whether it returns or raises. *)
Definition preserves (R : world -> world -> Prop) {A} (c : M A) : Prop :=
  forall w, R w (c w).2.

(** Only the entries of user [u] may differ between the two worlds. *)
Definition only_user (u : Z) (w w' : world) : Prop :=
  forall u', u' <> u ->
    USER_STATES w' !! u' = USER_STATES w !! u' /\
    ACTIVE_CLIENTS w' !! u' = ACTIVE_CLIENTS w !! u' /\
    PROGRESS_MESSAGES w' !! u' = PROGRESS_MESSAGES w !! u' /\
    sessions w' !! u' = sessions w !! u'.

(** The key an event writes, if it writes a table. *)
Definition written_key (e : event) : option Z :=
  match e with
  | set_USER_STATES k _ | set_ACTIVE_CLIENTS k _ | del_ACTIVE_CLIENTS k
  | set_PROGRESS_MESSAGES k _ | del_PROGRESS_MESSAGES k
  | sessions_update_one k _ | sessions_delete_one k => Some k
  | _ => None
  end.

(** The run only added events that satisfy [Q] to the log. *)
Definition adds_only (Q : event -> Prop) (w w' : world) : Prop :=
  exists es, log w' = log w ++ es /\ Forall Q es.

(** Events that end a session: a disconnect, the removal of a live
    connection, the removal of a persisted record. *)
Definition ends_session (e : event) : Prop :=
  match e with
  | client_disconnect _ | del_ACTIVE_CLIENTS _ | sessions_delete_one _ => True
  | _ => False
  end.

(** No live connection and no persisted record is lost, and no event that
    ends a session was added. *)
Definition sessions_kept (w w' : world) : Prop :=
  (forall u, is_Some (ACTIVE_CLIENTS w !! u) -> is_Some (ACTIVE_CLIENTS w' !! u)) /\
  (forall u, is_Some (sessions w !! u) -> is_Some (sessions w' !! u)) /\
  adds_only (fun e => ~ ends_session e) w w'.

(** The live connections and the persisted records are the same in both
    worlds. *)
Definition same_sessions (w w' : world) : Prop :=
  ACTIVE_CLIENTS w' = ACTIVE_CLIENTS w /\ sessions w' = sessions w.

(** User [u] held a pending connection in [w], and in [w'] it has
    replaced the user's live connection, and its saved session the user's
    persisted record. *)
Definition login_completed (P : platform) (u : Z) (w w' : world) : Prop :=
  exists phone sent_code c,
    USER_STATES w !! u = Some (AWAITING_CODE phone sent_code c) /\
    ACTIVE_CLIENTS w' = <[u := c]> (ACTIVE_CLIENTS w) /\
    sessions w' = <[u := session_save P c]> (sessions w).

(** The login state, the live connections and the persisted records are
    the same in both worlds. *)
Definition same_login_tables (w w' : world) : Prop :=
  USER_STATES w' = USER_STATES w /\ ACTIVE_CLIENTS w' = ACTIVE_CLIENTS w /\
  sessions w' = sessions w.

(** A run keeps "every live connection has a persisted record". *)
Definition keeps_live_implies_persisted (w w' : world) : Prop :=
  live_implies_persisted w -> live_implies_persisted w'.

Definition session_terminated : event := reply_text "🔒 Session terminated.".

(** What [logout] does before it touches the collection. *)
Definition logout_disconnect (u : Z) (w : world) : list event :=
  match ACTIVE_CLIENTS w !! u with
  | Some c => [client_disconnect c; del_ACTIVE_CLIENTS u]
  | None => []
  end.

(** The three prompts of a login that goes through. *)
Definition login_prompts : list string :=
  ["📱 Please send your phone number (e.g., +1234567890):";
   "🔒 Enter the Telegram OTP you received:";
   "✅ Login successful!"]%string.

(** Events that read a chat or forward a file from it. *)
Definition fetches (e : event) : Prop :=
  match e with
  | client_iter_messages _ _ _ _ | client_download_media _ _ | send_document _ _ _ => True
  | _ => False
  end.

(** The run read no chat and forwarded no file. *)
Definition fetches_nothing (w w' : world) : Prop :=
  adds_only (fun e => ~ fetches e) w w'.

(** The texts of the progress reports of a download that reach the chat:
    those before the first report whose text cannot be computed. *)
Fixpoint tick_texts (P : platform) (start : Z) (ticks : list tick) : list string :=
  match ticks with
  | [] => []
  | t :: ticks' =>
      match progress_message P (tick_current t) (tick_total t) start (tick_now t) with
      | Ok text => text :: tick_texts P start ticks'
      | Raise _ => []
      end
  end.

(** The first report sends a message and records it, the later ones
    edit it. *)
Definition progress_reports (u message_id : Z) (texts : list string) : list event :=
  match texts with
  | [] => []
  | text :: texts' =>
      send_message u text message_id :: set_PROGRESS_MESSAGES u (Some message_id)
        :: map (edit_message_text u message_id) texts'
  end.

(** The bot messages sent, edited and deleted, by chat and message id. *)
Definition sent_messages (es : list event) : list (Z * Z) :=
  flat_map (fun e => match e with send_message u _ i => [(u, i)] | _ => [] end) es.

Definition edited_messages (es : list event) : list (Z * Z) :=
  flat_map (fun e => match e with edit_message_text u i _ => [(u, i)] | _ => [] end) es.

Definition deleted_messages (es : list event) : list (Z * Z) :=
  flat_map (fun e => match e with delete_message u i => [(u, i)] | _ => [] end) es.

(** What follows a number: the end of the string, or something that is no
    decimal digit of any script. *)
Definition no_leading_digit (s : string) : Prop := decimal_at s = None.

(** The digits of a decimal numeral, most significant first. *)
Fixpoint uint_digits (d : Decimal.uint) : list Z :=
  match d with
  | Decimal.Nil => []
  | Decimal.D0 d' => 0 :: uint_digits d'
  | Decimal.D1 d' => 1 :: uint_digits d'
  | Decimal.D2 d' => 2 :: uint_digits d'
  | Decimal.D3 d' => 3 :: uint_digits d'
  | Decimal.D4 d' => 4 :: uint_digits d'
  | Decimal.D5 d' => 5 :: uint_digits d'
  | Decimal.D6 d' => 6 :: uint_digits d'
  | Decimal.D7 d' => 7 :: uint_digits d'
  | Decimal.D8 d' => 8 :: uint_digits d'
  | Decimal.D9 d' => 9 :: uint_digits d'
  end.


(** The connection that restoring one document registers, if any, given
    the identity the next client object gets. *)
Definition restored (P : platform) (St : startup) (session_string : string) (next : nat)
  : option client :=
  match string_session St session_string with
  | Some _ => None
  | None =>
      match connect P (Client next) with
      | Some _ => None
      | None =>
          match is_user_authorized St (Client next) with
          | Ok true => Some (Client next)
          | _ => None
          end
      end
  end.

(** The run changed the live connections and nothing else of the tables. *)
Definition only_live_connections (w w' : world) : Prop :=
  USER_STATES w' = USER_STATES w /\ PROGRESS_MESSAGES w' = PROGRESS_MESSAGES w /\
  sessions w' = sessions w.

(** ** Worlds and platforms for the examples *)

Definition empty_world : world := World ∅ ∅ ∅ ∅ [] 1 0.

Definition document (i : Z) (name : string) : message :=
  Message i (Some (MessageMediaDocument (Some (DocumentOf [DocumentAttributeFilename name])))).

(** A message whose media has expired: Telethon delivers it as a
    [MessageMediaDocument] without document. *)
Definition expired (i : Z) : message := Message i (Some (MessageMediaDocument None)).

(** Telethon's [iter_messages] over a chat whose messages are listed
    newest first: it yields them in that order, and its documentation
    excludes the bounds themselves ("all the messages with a lower (older)
    ID or equal to [min_id] will be excluded", and likewise above
    [max_id]); a [max_id] of 0 is no upper bound. *)
Definition telethon_iter_messages (chat : list message) (min_id max_id : Z) : list message :=
  List.filter (fun m => (min_id <? msg_id m) && ((max_id =? 0) || (msg_id m <? max_id))) chat.

(** A platform on which everything succeeds, with one chat, and whose
    enumeration follows Telethon. *)
Definition telethon_platform (chat : list message) : platform := {|
  connect := fun _ => None;
  send_code_request := fun _ _ => Ok "code-hash"%string;
  sign_in := fun _ _ _ => None;
  session_save := fun c => match c with Client h => ("session-" ++ str_of_Z (Z.of_nat h))%string end;
  iter_messages := fun _ chat_id min_id max_id =>
    match chat_id, min_id, max_id with
    | Some _, Some a, Some b => Ok (telethon_iter_messages chat a b)
    | _, _, _ => Raise (PyExn "TypeError" "unsupported operand")
    end;
  download_media := fun _ m => ([], Ok ("downloads/" ++ str_of_Z (msg_id m))%string);
  update_one := fun _ _ => None;
  delete_one := fun _ => None;
  naming_time := fun _ => 0;
  start_time := fun _ => 0;
  timestamp_str := str_of_Z;
  naturalsize_int := fun n => (str_of_Z n ++ " Bytes")%string;
  naturalsize_float := fun x => (format_1f x ++ " Bytes")%string
|}.

Definition three_documents : list message :=
  [document 12 "c.bin"; document 11 "b.bin"; document 10 "a.bin"].

(** A platform on which the download of message 11 loses the connection
    after one progress report. *)
Definition connection_lost : pyexn := PyExn "ConnectionError" "Connection lost".

Definition flaky_platform : platform := {|
  connect := fun _ => None;
  send_code_request := fun _ _ => Ok "code-hash"%string;
  sign_in := fun _ _ _ => None;
  session_save := fun _ => "session"%string;
  iter_messages := fun _ _ _ _ => Ok three_documents;
  download_media := fun _ m =>
    if msg_id m =? 11 then ([Tick 100 1000 1000000], Raise connection_lost)
    else ([Tick 512000 1024000 2000000], Ok ("downloads/" ++ str_of_Z (msg_id m))%string);
  update_one := fun _ _ => None;
  delete_one := fun _ => None;
  naming_time := fun _ => 0;
  start_time := fun _ => 0;
  timestamp_str := str_of_Z;
  naturalsize_int := str_of_Z;
  naturalsize_float := format_1f
|}.

(** A platform that refuses every sign-in. *)
Definition wrong_code : pyexn :=
  PyExn "PhoneCodeInvalidError" "The phone code entered was invalid".

Definition refusing_platform : platform := {|
  connect := fun _ => None;
  send_code_request := fun _ _ => Ok "code-hash"%string;
  sign_in := fun _ _ _ => Some wrong_code;
  session_save := fun _ => "session"%string;
  iter_messages := fun _ _ _ _ => Ok [];
  download_media := fun _ _ => ([], Ok "file"%string);
  update_one := fun _ _ => None;
  delete_one := fun _ => None;
  naming_time := fun _ => 0;
  start_time := fun _ => 0;
  timestamp_str := str_of_Z;
  naturalsize_int := str_of_Z;
  naturalsize_float := format_1f
|}.

(** A platform that cannot be reached. *)
Definition unreachable : pyexn := PyExn "ConnectionError" "Connection to Telegram failed 5 time(s)".

Definition unreachable_platform : platform := {|
  connect := fun _ => Some unreachable;
  send_code_request := fun _ _ => Raise unreachable;
  sign_in := fun _ _ _ => Some unreachable;
  session_save := fun _ => "session"%string;
  iter_messages := fun _ _ _ _ => Raise unreachable;
  download_media := fun _ _ => ([], Raise unreachable);
  update_one := fun _ _ => None;
  delete_one := fun _ => None;
  naming_time := fun _ => 0;
  start_time := fun _ => 0;
  timestamp_str := str_of_Z;
  naturalsize_int := str_of_Z;
  naturalsize_float := format_1f
|}.

(** A platform whose iterator yields the oldest message first. *)
Definition oldest_first_platform : platform := {|
  connect := fun _ => None;
  send_code_request := fun _ _ => Ok "code-hash"%string;
  sign_in := fun _ _ _ => None;
  session_save := fun _ => "session"%string;
  iter_messages := fun _ _ _ _ => Ok (rev three_documents);
  download_media := fun _ m => ([], Ok ("downloads/" ++ str_of_Z (msg_id m))%string);
  update_one := fun _ _ => None;
  delete_one := fun _ => None;
  naming_time := fun _ => 0;
  start_time := fun _ => 0;
  timestamp_str := str_of_Z;
  naturalsize_int := str_of_Z;
  naturalsize_float := format_1f
|}.

(** A user who is no longer on the allow-list but whose session was
    restored at startup. *)
Definition world_with_restored_session : world :=
  World ∅ {[ 999 := Client 7 ]} ∅ {[ 999 := "session-7"%string ]} [] 1 8.

(** User 1 has sent /login. *)
Definition world_awaiting_phone : world :=
  World {[ 1 := AWAITING_PHONE ]} ∅ ∅ ∅ [] 1 0.

(** User 1 has sent a phone number and holds the pending connection. *)
Definition world_awaiting_code : world :=
  World {[ 1 := AWAITING_CODE "+1234567890" "code-hash" (Client 0) ]} ∅ ∅ ∅ [] 1 1.

(** User 1 is logged in and in no login step. *)
Definition world_logged_in : world :=
  World ∅ {[ 1 := Client 0 ]} ∅ {[ 1 := "session-0"%string ]} [] 1 1.

(** The two links name messages 10 and 12 of chat 5. *)
Definition range_10_12 : string :=
  ("https://t.me/c/5/10" ++ newline ++ "https://t.me/c/5/12")%string.

(** The two links name messages 9 and 13 of chat 5. *)
Definition range_9_13 : string :=
  ("https://t.me/c/5/9" ++ newline ++ "https://t.me/c/5/13")%string.

(** The second link names a message of another chat. *)
Definition range_across_chats : string :=
  ("https://t.me/c/5/10" ++ newline ++ "https://t.me/c/6/12")%string.

(** Operands for comparing the rounding with the standard library. *)
Definition sample_ratios : list (positive * positive) :=
  [(1, 3); (2, 3); (512000, 1024000); (1, 2000); (3, 2000); (1, 10);
   (9007199254740993, 1); (9007199254740995, 1); (18014398509481985, 2);
   (123456789, 1000000); (7, 1000000); (1, 2 ^ 1074); (1, 2 ^ 1075); (3, 2 ^ 1075);
   (3, 2 ^ 1076); (2 ^ 1024, 1); (2 ^ 1024 - 2 ^ 970, 1); (2 ^ 1024 - 2 ^ 970 - 1, 1)]%positive.

(** 256000.0 *)
Definition float_256000 : spec_float := S754_finite false 8796093022208000 (-35).

(** A platform whose collection refuses every write. *)
Definition store_down : pyexn := PyExn "ServerSelectionTimeoutError" "No servers found".

Definition failing_store_platform : platform := {|
  connect := fun _ => None;
  send_code_request := fun _ _ => Ok "code-hash"%string;
  sign_in := fun _ _ _ => None;
  session_save := fun _ => "session"%string;
  iter_messages := fun _ _ _ _ => Ok [];
  download_media := fun _ _ => ([], Ok "file"%string);
  update_one := fun _ _ => Some store_down;
  delete_one := fun _ => Some store_down;
  naming_time := fun _ => 0;
  start_time := fun _ => 0;
  timestamp_str := str_of_Z;
  naturalsize_int := str_of_Z;
  naturalsize_float := format_1f
|}.

(** A platform on which a download reports three times and succeeds. *)
Definition reporting_platform : platform := {|
  connect := fun _ => None;
  send_code_request := fun _ _ => Ok "code-hash"%string;
  sign_in := fun _ _ _ => None;
  session_save := fun _ => "session"%string;
  iter_messages := fun _ _ _ _ => Ok three_documents;
  download_media := fun _ m =>
    ([Tick 256000 1024000 1000000; Tick 512000 1024000 2000000; Tick 1024000 1024000 4000000],
     Ok ("downloads/" ++ str_of_Z (msg_id m))%string);
  update_one := fun _ _ => None;
  delete_one := fun _ => None;
  naming_time := fun _ => 0;
  start_time := fun _ => 0;
  timestamp_str := str_of_Z;
  naturalsize_int := str_of_Z;
  naturalsize_float := format_1f
|}.

(** A startup with three records: a valid session, a string that is no
    session, and a session that is no longer authorized. *)
Definition revoked (c : client) : bool :=
  match c with Client h => (h =? 1)%nat end.

Definition three_records : startup := {|
  find := ([(1, "session-1"); (2, "garbage"); (3, "session-3")]%string, None);
  string_session := fun s =>
    if String.eqb s "garbage" then Some (PyExn "ValueError" "Not a valid string") else None;
  is_user_authorized := fun c => Ok (negb (revoked c))
|}.

(** ** Running the monad *)

Lemma bind_ok {A B} (c : M A) (k : A -> M B) w a w' :
  c w = (Ok a, w') -> (c ≫= k) w = k a w'.
Proof. intros H. unfold mbind, M_bind, bind. now rewrite H. Qed.

Lemma bind_raise {A B} (c : M A) (k : A -> M B) w e w' :
  c w = (Raise e, w') -> (c ≫= k) w = (Raise e, w').
Proof. intros H. unfold mbind, M_bind, bind. now rewrite H. Qed.

Lemma emit_run e w : emit e w = (Ok tt, record e (apply_event e w)).
Proof. reflexivity. Qed.

Lemma added_app w w' es : log w' = log w ++ es -> added w w' = es.
Proof. intros H. unfold added. rewrite H. apply drop_app_length. Qed.

Ltac step :=
  unfold mbind, M_bind, bind, mret, M_ret, ret, raise, call, call_result, store,
    get, lift, emit, try_except, USER_STATES_get; simpl.

(** ** The allow-list *)

Lemma start_not_admin ADMINS u w :
  is_admin ADMINS u = false -> start ADMINS u w = (Ok tt, w).
Proof. intros H. unfold start. now rewrite H. Qed.

Lemma login_not_admin ADMINS u w :
  is_admin ADMINS u = false -> login ADMINS u w = (Ok tt, w).
Proof. intros H. unfold login. now rewrite H. Qed.

Lemma handle_message_not_admin P ADMINS u text w :
  is_admin ADMINS u = false -> handle_message P ADMINS u text w = (Ok tt, w).
Proof. intros H. unfold handle_message. now rewrite H. Qed.

(** C4: [logout] has no allow-list guard.  For the allow-list [[1]] and
    user 999, [start], [login] and [handle_message] leave the world as it
    is, but [logout] disconnects and unregisters the user's connection,
    deletes the persisted record and replies to the user. *)
Theorem logout_ignores_allow_list :
  is_admin [1] 999 = false /\
  start [1] 999 world_with_restored_session = (Ok tt, world_with_restored_session) /\
  login [1] 999 world_with_restored_session = (Ok tt, world_with_restored_session) /\
  handle_message (telethon_platform []) [1] 999 "hello" world_with_restored_session
    = (Ok tt, world_with_restored_session) /\
  logout (telethon_platform []) 999 world_with_restored_session
    = (Ok tt, World ∅ ∅ ∅ ∅
                [client_disconnect (Client 7); del_ACTIVE_CLIENTS 999;
                 sessions_delete_one 999; reply_text "🔒 Session terminated."] 1 8).
Proof.
  assert (H : is_admin [1] 999 = false) by reflexivity.
  split; [exact H|].
  split; [now apply start_not_admin|].
  split; [now apply login_not_admin|].
  split; [now apply handle_message_not_admin|].
  unfold logout, world_with_restored_session. step.
  rewrite lookup_singleton_eq. simpl.
  unfold record, apply_event; simpl.
  now rewrite !delete_singleton_eq.
Qed.

(** ** The login flow *)

Lemma USER_STATES_get_run u w st :
  USER_STATES w !! u = Some st -> USER_STATES_get u w = (Ok st, w).
Proof. intros H. unfold USER_STATES_get, get. now rewrite H. Qed.

(** C5, as the spec states it, fails: after a refused sign-in the login
    state of user 1 is still the pending dictionary, not [None]. *)
Lemma sign_in_failure_keeps_pending_state :
  is_admin [1] 1 = true /\
  USER_STATES world_awaiting_code !! 1 = Some (AWAITING_CODE "+1234567890" "code-hash" (Client 0)) /\
  sign_in refusing_platform (Client 0) "+1234567890" "00000" = Some wrong_code /\
  USER_STATES (handle_message refusing_platform [1] 1 "00000" world_awaiting_code).2 !! 1
    = Some (AWAITING_CODE "+1234567890" "code-hash" (Client 0)) /\
  (USER_STATES_get 1 (handle_message refusing_platform [1] 1 "00000" world_awaiting_code).2).1
    <> Ok STATE_NONE.
Proof.
  repeat split; try reflexivity.
  intros H. vm_compute in H. discriminate H.
Qed.

(** C5, amended: when the sign-in with the submitted code raises, the
    handler returns normally, no table changes (the login state stays the
    pending dictionary, so the next text is read as a code again), and
    the only things done are the sign-in call and one reply carrying the
    platform's error text. *)
Theorem sign_in_failure_surfaced (P : platform) (ADMINS : list Z) (u : Z) (otp : string)
    (w : world) (phone sent_code : string) (c : client) (e : pyexn) :
  is_admin ADMINS u = true ->
  USER_STATES w !! u = Some (AWAITING_CODE phone sent_code c) ->
  sign_in P c phone otp = Some e ->
  exists w',
    handle_message P ADMINS u otp w = (Ok tt, w') /\
    same_tables w w' /\
    USER_STATES w' !! u = Some (AWAITING_CODE phone sent_code c) /\
    added w w' = [client_sign_in c phone otp; reply_text ("❌ Error: " ++ exn_str e)].
Proof.
  intros Ha Hst Hs.
  eexists. split.
  - unfold handle_message. rewrite Ha. simpl.
    erewrite bind_ok by (apply USER_STATES_get_run; exact Hst).
    step. rewrite Hs. simpl. reflexivity.
  - split; [repeat split|split; [exact Hst|]].
    apply added_app. simpl. now rewrite <- app_assoc.
Qed.

Lemma sign_in_failure_surfaced_witness :
  exists w',
    handle_message refusing_platform [1] 1 "00000" world_awaiting_code = (Ok tt, w') /\
    same_tables world_awaiting_code w' /\
    USER_STATES w' !! 1 = Some (AWAITING_CODE "+1234567890" "code-hash" (Client 0)) /\
    added world_awaiting_code w'
      = [client_sign_in (Client 0) "+1234567890" "00000";
         reply_text ("❌ Error: " ++ exn_str wrong_code)].
Proof.
  apply (sign_in_failure_surfaced refusing_platform [1] 1 "00000" world_awaiting_code
           "+1234567890" "code-hash" (Client 0) wrong_code); reflexivity.
Defined.

(** C6, as the spec states it, fails: when the platform cannot be reached
    the handler raises the ConnectionError, but the login state of user 1
    is still ["AWAITING_PHONE"] and nothing was sent to the user. *)
Lemma unreachable_platform_keeps_awaiting_phone :
  is_admin [1] 1 = true /\
  USER_STATES world_awaiting_phone !! 1 = Some AWAITING_PHONE /\
  (handle_message unreachable_platform [1] 1 "+1234567890" world_awaiting_phone).1
    = Raise unreachable /\
  USER_STATES (handle_message unreachable_platform [1] 1 "+1234567890" world_awaiting_phone).2 !! 1
    = Some AWAITING_PHONE /\
  log (handle_message unreachable_platform [1] 1 "+1234567890" world_awaiting_phone).2
    = [client_connect (Client 0)].
Proof. repeat split; reflexivity. Qed.

(** C6, amended: when opening the connection raises, or the connection
    opens and requesting the code raises, the handler raises that same
    error to its caller (a ConnectionError when the platform is
    unreachable) and no table changes: the login state stays
    ["AWAITING_PHONE"]. *)
Theorem begin_login_failure_propagates (P : platform) (ADMINS : list Z) (u : Z)
    (phone : string) (w : world) (e : pyexn) :
  is_admin ADMINS u = true ->
  USER_STATES w !! u = Some AWAITING_PHONE ->
  connect P (Client (next_client w)) = Some e \/
  (connect P (Client (next_client w)) = None /\
   send_code_request P (Client (next_client w)) phone = Raise e) ->
  exists w',
    handle_message P ADMINS u phone w = (Raise e, w') /\
    same_tables w w' /\
    USER_STATES w' !! u = Some AWAITING_PHONE.
Proof.
  intros Ha Hst Hfail.
  unfold handle_message. rewrite Ha. simpl.
  erewrite bind_ok by (apply USER_STATES_get_run; exact Hst).
  step. unfold new_client.
  destruct Hfail as [Hc | [Hc Hs]]; rewrite Hc; simpl.
  - eexists. split; [reflexivity|]. split; [repeat split|exact Hst].
  - rewrite Hs. simpl.
    eexists. split; [reflexivity|]. split; [repeat split|exact Hst].
Qed.

Lemma begin_login_failure_propagates_witness :
  exists w',
    handle_message unreachable_platform [1] 1 "+1234567890" world_awaiting_phone
      = (Raise unreachable, w') /\
    same_tables world_awaiting_phone w' /\
    USER_STATES w' !! 1 = Some AWAITING_PHONE.
Proof.
  apply (begin_login_failure_propagates unreachable_platform [1] 1 "+1234567890"
           world_awaiting_phone unreachable); [reflexivity | reflexivity | left; reflexivity].
Defined.

Lemma live_implies_persisted_step e w :
  live_implies_persisted w -> keeps_persisted e w ->
  live_implies_persisted (record e (apply_event e w)).
Proof.
  unfold live_implies_persisted. intros Hw He u c.
  destruct e; simpl in *; try apply Hw.
  - (* sessions_update_one *)
    intros H. destruct (decide (user_id = u)) as [->|Hne].
    + rewrite lookup_insert_eq. eauto.
    + rewrite lookup_insert_ne by done. eapply Hw, H.
  - (* sessions_delete_one *)
    intros H. destruct (decide (user_id = u)) as [->|Hne].
    + congruence.
    + rewrite lookup_delete_ne by done. eapply Hw, H.
  - (* set_ACTIVE_CLIENTS *)
    destruct (decide (user_id = u)) as [->|Hne].
    + intros _. exact He.
    + rewrite lookup_insert_ne by done. apply Hw.
  - (* del_ACTIVE_CLIENTS *)
    destruct (decide (user_id = u)) as [->|Hne].
    + rewrite lookup_delete_eq. discriminate.
    + rewrite lookup_delete_ne by done. apply Hw.
Qed.

Lemma live_implies_persisted_prefix es : forall w es1 es2,
  live_implies_persisted w -> all_keep_persisted es w -> es = es1 ++ es2 ->
  live_implies_persisted (replay es1 w).
Proof.
  induction es as [|e es IH]; intros w es1 es2 Hw Hall Heq.
  - destruct es1; [exact Hw|discriminate].
  - destruct es1 as [|e1 es1]; [exact Hw|].
    simpl in Heq. injection Heq as <- Heq. destruct Hall as [He Hall].
    change (replay (e :: es1) w) with (replay es1 (record e (apply_event e w))).
    eapply IH; eauto using live_implies_persisted_step.
Qed.

(** C8: in the step that handles the submitted code, whatever the
    platform and the collection answer, the handler returns normally and
    every state it passes through keeps "live implies persisted"; the
    registration of the connection in [ACTIVE_CLIENTS] is always preceded
    by the upsert of that connection's saved session; and when the sign-in
    and the upsert succeed the step is exactly: sign in, upsert, register,
    reply, clear the login state. *)
Theorem persisted_before_live (P : platform) (ADMINS : list Z) (u : Z) (otp : string)
    (w : world) (phone sent_code : string) (c : client) :
  is_admin ADMINS u = true ->
  USER_STATES w !! u = Some (AWAITING_CODE phone sent_code c) ->
  live_implies_persisted w ->
  exists es,
    handle_message P ADMINS u otp w = (Ok tt, replay es w) /\
    (forall es1 es2, es = es1 ++ es2 -> live_implies_persisted (replay es1 w)) /\
    (forall es1 es2, es = es1 ++ set_ACTIVE_CLIENTS u c :: es2 ->
       In (sessions_update_one u (session_save P c)) es1) /\
    (sign_in P c phone otp = None -> update_one P u (session_save P c) = None ->
       es = [client_sign_in c phone otp;
             sessions_update_one u (session_save P c);
             set_ACTIVE_CLIENTS u c;
             reply_text "✅ Login successful!";
             set_USER_STATES u STATE_NONE] /\
       ACTIVE_CLIENTS (replay es w) !! u = Some c /\
       sessions (replay es w) !! u = Some (session_save P c)).
Proof.
  intros Ha Hst Hw.
  unfold handle_message. rewrite Ha. simpl.
  erewrite bind_ok by (apply USER_STATES_get_run; exact Hst).
  step.
  destruct (sign_in P c phone otp) as [e|] eqn:Hs; simpl.
  - exists [client_sign_in c phone otp; reply_text ("❌ Error: " ++ exn_str e)].
    split; [reflexivity|]. split; [|split].
    + intros es1 es2 Heq. eapply live_implies_persisted_prefix; eauto. simpl. tauto.
    + intros es1 es2 Heq.
      destruct es1 as [|? [|? [|? ?]]]; simpl in Heq; discriminate Heq.
    + discriminate.
  - destruct (update_one P u (session_save P c)) as [e|] eqn:Hu; simpl.
    + exists [client_sign_in c phone otp; reply_text ("❌ Error: " ++ exn_str e)].
      split; [reflexivity|]. split; [|split].
      * intros es1 es2 Heq. eapply live_implies_persisted_prefix; eauto. simpl. tauto.
      * intros es1 es2 Heq.
        destruct es1 as [|? [|? [|? ?]]]; simpl in Heq; discriminate Heq.
      * discriminate.
    + exists [client_sign_in c phone otp;
              sessions_update_one u (session_save P c);
              set_ACTIVE_CLIENTS u c;
              reply_text "✅ Login successful!";
              set_USER_STATES u STATE_NONE].
      split; [reflexivity|]. split; [|split].
      * intros es1 es2 Heq. eapply live_implies_persisted_prefix; eauto.
        simpl. rewrite lookup_insert_eq. eauto 10.
      * intros es1 es2 Heq.
        destruct es1 as [|e1 [|e2 [|e3 [|e4 [|e5 [|e6 es1]]]]]]; simpl in Heq;
          try discriminate Heq.
        injection Heq as <- <- _. simpl. tauto.
      * intros _ _. split; [reflexivity|]. simpl.
        now rewrite !lookup_insert_eq.
Qed.

Lemma persisted_before_live_witness :
  exists es,
    handle_message (telethon_platform []) [1] 1 "12345" world_awaiting_code
      = (Ok tt, replay es world_awaiting_code) /\
    (forall es1 es2, es = es1 ++ es2 ->
       live_implies_persisted (replay es1 world_awaiting_code)) /\
    (forall es1 es2, es = es1 ++ set_ACTIVE_CLIENTS 1 (Client 0) :: es2 ->
       In (sessions_update_one 1 (session_save (telethon_platform []) (Client 0))) es1) /\
    (sign_in (telethon_platform []) (Client 0) "+1234567890" "12345" = None ->
     update_one (telethon_platform []) 1 (session_save (telethon_platform []) (Client 0)) = None ->
       es = [client_sign_in (Client 0) "+1234567890" "12345";
             sessions_update_one 1 (session_save (telethon_platform []) (Client 0));
             set_ACTIVE_CLIENTS 1 (Client 0);
             reply_text "✅ Login successful!";
             set_USER_STATES 1 STATE_NONE] /\
       ACTIVE_CLIENTS (replay es world_awaiting_code) !! 1 = Some (Client 0) /\
       sessions (replay es world_awaiting_code) !! 1
         = Some (session_save (telethon_platform []) (Client 0))).
Proof.
  apply (persisted_before_live (telethon_platform []) [1] 1 "12345" world_awaiting_code
           "+1234567890" "code-hash" (Client 0)); [reflexivity | reflexivity |].
  intros u c H. vm_compute in H. discriminate H.
Defined.

(** ** The download loop *)

Lemma progress_events_silent es :
  Forall progress_event es ->
  replies es = [] /\ documents es = [] /\ downloads es = [] /\ enumerations es = [].
Proof.
  induction 1 as [|e es He _ IH]; [easy|].
  destruct IH as (H1 & H2 & H3 & H4).
  unfold replies, documents, downloads, enumerations in *.
  destruct e; simpl in *; try contradiction; auto.
Qed.

Lemma progress_callback_run P current total u start now w :
  exists w' es,
    progress_callback P current total u start now w
      = (match progress_message P current total start now with
         | Ok _ => Ok tt
         | Raise e => Raise e
         end, w') /\
    log w' = log w ++ es /\ Forall progress_event es.
Proof.
  unfold progress_callback. step.
  destruct (progress_message P current total start now) as [text|e]; simpl.
  - destruct (PROGRESS_MESSAGES w !! u) as [[message_id|]|]; simpl;
      eexists; eexists; (split; [reflexivity|]); simpl;
      rewrite <- ?app_assoc; simpl; (split; [reflexivity|]);
      repeat constructor.
  - exists w, []. rewrite app_nil_r. repeat split. constructor.
Qed.

Lemma progress_reports_run P u start ticks : forall w,
  exists w' es,
    for_each ticks (fun t => progress_callback P (tick_current t) (tick_total t) u start
                               (tick_now t)) w
      = (match first_tick_error P start ticks with
         | None => Ok tt
         | Some e => Raise e
         end, w') /\
    log w' = log w ++ es /\ Forall progress_event es.
Proof.
  induction ticks as [|t ticks IH]; intros w.
  - exists w, []. rewrite app_nil_r. repeat split. constructor.
  - simpl.
    destruct (progress_callback_run P (tick_current t) (tick_total t) u start (tick_now t) w)
      as (w1 & es1 & Hrun & Hlog & Hes).
    destruct (progress_message P (tick_current t) (tick_total t) start (tick_now t)) as [text|e].
    + erewrite bind_ok by exact Hrun.
      destruct (IH w1) as (w2 & es2 & Hrun2 & Hlog2 & Hes2).
      exists w2, (es1 ++ es2). split; [exact Hrun2|]. split.
      * rewrite Hlog2, Hlog. now rewrite app_assoc.
      * now apply Forall_app.
    + erewrite bind_raise by exact Hrun.
      exists w1, es1. auto.
Qed.

Lemma download_run P c msg u w :
  exists w' es,
    download P c msg u (start_time P msg) w = (download_outcome P c msg, w') /\
    log w' = log w ++ client_download_media c msg :: es /\ Forall progress_event es.
Proof.
  unfold download, download_outcome.
  erewrite bind_ok by apply emit_run.
  destruct (progress_reports_run P u (start_time P msg) (download_media P c msg).1
              (record (client_download_media c msg)
                 (apply_event (client_download_media c msg) w)))
    as (w1 & es & Hrun & Hlog & Hes).
  destruct (first_tick_error P (start_time P msg) (download_media P c msg).1) as [e|].
  - erewrite bind_raise by exact Hrun.
    exists w1, es. split; [reflexivity|]. split; [|exact Hes].
    rewrite Hlog. simpl. now rewrite <- app_assoc.
  - erewrite bind_ok by exact Hrun.
    exists w1, es. split; [reflexivity|]. split; [|exact Hes].
    rewrite Hlog. simpl. now rewrite <- app_assoc.
Qed.

Lemma dismiss_progress_run u w :
  exists w' es,
    dismiss_progress u w = (Ok tt, w') /\ log w' = log w ++ es /\ Forall progress_event es.
Proof.
  unfold dismiss_progress. step.
  destruct (PROGRESS_MESSAGES w !! u) as [[message_id|]|]; simpl.
  - destruct (message_id =? 0); simpl.
    + exists w, []. rewrite app_nil_r. repeat split. constructor.
    + eexists; eexists. split; [reflexivity|]. simpl. rewrite <- app_assoc. simpl.
      split; [reflexivity|]. repeat constructor.
  - exists w, []. rewrite app_nil_r. repeat split. constructor.
  - exists w, []. rewrite app_nil_r. repeat split. constructor.
Qed.

Lemma item_effects_app P u c l1 l2 es1 es2 :
  item_effects P u c l1 es1 -> item_effects P u c l2 es2 ->
  item_effects P u c (l1 ++ l2) (es1 ++ es2).
Proof.
  intros [A1 B1 C1 D1] [A2 B2 C2 D2].
  split; unfold replies, documents, downloads, enumerations in *;
    rewrite flat_map_app.
  - rewrite A1, A2. symmetry. apply map_app.
  - rewrite B1, B2. symmetry. apply flat_map_app.
  - rewrite C1, C2. symmetry. apply map_app.
  - now rewrite D1, D2.
Qed.

(** One turn of the loop: it raises before it has done anything when the
    file name cannot be computed, and otherwise returns normally whatever
    the download does. *)
Lemma process_item_run P u c msg w :
  match item_filename P msg with
  | Ok filename =>
      exists w' es,
        process_item P u c msg w = (Ok tt, w') /\
        log w' = log w ++ es /\ item_effects P u c [(msg, filename)] es
  | Raise e => process_item P u c msg w = (Raise e, w)
  end.
Proof.
  unfold process_item. fold (item_filename P msg).
  destruct (item_filename P msg) as [filename|e0]; [|reflexivity].
  erewrite bind_ok by reflexivity.
  erewrite bind_ok by apply emit_run.
  set (w0 := record _ _).
  destruct (download_run P c msg u w0) as (w1 & es1 & Hrun & Hlog1 & Hes1).
  destruct (progress_events_silent _ Hes1) as (R1 & D1 & L1 & E1).
  unfold try_except.
  destruct (download_outcome P c msg) as [file_path|e] eqn:Hout.
  - erewrite bind_ok by exact Hrun.
    destruct (dismiss_progress_run u w1) as (w2 & es2 & Hrun2 & Hlog2 & Hes2).
    destruct (progress_events_silent _ Hes2) as (R2 & D2 & L2 & E2).
    erewrite bind_ok by exact Hrun2.
    step.
    eexists; eexists. split; [reflexivity|]. simpl.
    rewrite Hlog2, Hlog1. subst w0. simpl.
    rewrite <- !app_assoc. simpl. split; [reflexivity|].
    split; unfold replies, documents, downloads, enumerations, item_report, item_documents in *;
      simpl; rewrite !flat_map_app; rewrite ?Hout; simpl;
      rewrite ?R1, ?R2, ?D1, ?D2, ?L1, ?L2, ?E1, ?E2; reflexivity.
  - erewrite bind_raise by exact Hrun.
    step.
    eexists; eexists. split; [reflexivity|]. simpl.
    rewrite Hlog1. subst w0. simpl.
    rewrite <- !app_assoc. simpl. split; [reflexivity|].
    split; unfold replies, documents, downloads, enumerations, item_report, item_documents in *;
      simpl; rewrite !flat_map_app; rewrite ?Hout; simpl;
      rewrite ?R1, ?D1, ?L1, ?E1; reflexivity.
Qed.

(** The loop: the turns of the items it reaches, then the exception of
    the first file name that cannot be computed, if there is one. *)
Lemma batch_run P u c msgs : forall w,
  exists w' es,
    for_each msgs (process_item P u c) w = (batch_outcome P msgs, w') /\
    log w' = log w ++ es /\ item_effects P u c (reached P msgs) es.
Proof.
  induction msgs as [|msg msgs IH]; intros w.
  - exists w, []. rewrite app_nil_r. repeat split.
  - pose proof (process_item_run P u c msg w) as H1.
    cbn [for_each reached batch_outcome].
    destruct (item_filename P msg) as [filename|e].
    + destruct H1 as (w1 & es1 & Hrun1 & Hlog1 & Heff1).
      destruct (IH w1) as (w2 & es2 & Hrun2 & Hlog2 & Heff2).
      exists w2, (es1 ++ es2). erewrite bind_ok by exact Hrun1.
      split; [exact Hrun2|]. split.
      * rewrite Hlog2, Hlog1. now rewrite app_assoc.
      * apply (item_effects_app P u c [(msg, filename)] (reached P msgs)); assumption.
    + exists w, []. erewrite bind_raise by exact H1.
      rewrite app_nil_r. repeat split.
Qed.

Lemma reached_all P msgs :
  Forall (fun msg => exists filename, item_filename P msg = Ok filename) msgs ->
  batch_outcome P msgs = Ok tt /\ map fst (reached P msgs) = msgs.
Proof.
  induction 1 as [|msg msgs [filename Hf] _ [IH1 IH2]]; [easy|].
  simpl. rewrite Hf. simpl. now rewrite IH1, IH2.
Qed.

Lemma reached_prefix P msgs : exists rest, msgs = map fst (reached P msgs) ++ rest.
Proof.
  induction msgs as [|msg msgs [rest IH]]; [now exists []|].
  simpl. destruct (item_filename P msg); [|now eexists].
  exists rest. simpl. now rewrite <- IH.
Qed.

(** C1: what a download job over a batch does.  It takes the items in
    batch order.  An item whose download raises gets its failure notice,
    with the file name and the error text, and the job goes on: a failing
    download never ends it.  But the file name of an item is computed
    before the [try]: at the first item whose file name cannot be
    computed the job raises, with no notice for that item and without
    reaching the items after it.  So on a batch of three whose second
    item is expired media, between two documents that download well, the
    job raises [AttributeError] after it has delivered the first item:
    the second gets no failure notice and the third is never
    downloaded. *)
Theorem filename_failure_aborts_batch :
  (forall (P : platform) (u : Z) (c : client) (batch : list message) (w : world),
     exists w',
       for_each batch (process_item P u c) w = (batch_outcome P batch, w') /\
       replies (added w w') = map (item_report P c) (reached P batch) /\
       documents (added w w') = flat_map (item_documents P u c) (reached P batch) /\
       downloads (added w w') = map fst (reached P batch)) /\
  (for_each [document 10 "a.bin"; expired 11; document 12 "c.bin"]
     (process_item (telethon_platform []) 1 (Client 0)) world_logged_in).1
    = Raise (AttributeError "'NoneType' object has no attribute 'attributes'") /\
  replies (log (for_each [document 10 "a.bin"; expired 11; document 12 "c.bin"]
                  (process_item (telethon_platform []) 1 (Client 0)) world_logged_in).2)
    = ["✅ Saved: a.bin"]%string /\
  downloads (log (for_each [document 10 "a.bin"; expired 11; document 12 "c.bin"]
                    (process_item (telethon_platform []) 1 (Client 0)) world_logged_in).2)
    = [document 10 "a.bin"].
Proof.
  split; [|split; [|split]]; [|vm_compute; reflexivity..].
  intros P u c batch w.
  destruct (batch_run P u c batch w) as (w' & es & Hrun & Hlog & [A B C _]).
  exists w'. rewrite (added_app _ _ _ Hlog). auto.
Qed.

(** A failing download is isolated.  Item 2 of 3 fails in transport:
    items 1 and 3 are delivered and one failure notice names item 2. *)
Example second_of_three_fails :
  (for_each (rev three_documents) (process_item flaky_platform 1 (Client 0))
     world_logged_in).1 = Ok tt /\
  replies (log (for_each (rev three_documents) (process_item flaky_platform 1 (Client 0))
                  world_logged_in).2)
    = ["✅ Saved: a.bin"; "❌ Failed to download b.bin: Connection lost";
       "✅ Saved: c.bin"]%string /\
  documents (log (for_each (rev three_documents) (process_item flaky_platform 1 (Client 0))
                    world_logged_in).2)
    = [(1, "downloads/10", "a.bin"); (1, "downloads/12", "c.bin")]%string.
Proof. repeat split; vm_compute; reflexivity. Qed.

(** ** Link requests *)

Lemma handle_message_links P ADMINS u text w :
  is_admin ADMINS u = true ->
  default STATE_NONE (USER_STATES w !! u) = STATE_NONE ->
  startswith link_prefix text = true ->
  handle_message P ADMINS u text w = handle_links P u text w.
Proof.
  intros Ha Hst Hp. unfold handle_message. rewrite Ha. simpl.
  unfold USER_STATES_get. step. rewrite Hst, Hp. reflexivity.
Qed.

Lemma handle_links_rejects P u text w :
  length (split (ascii_of_nat 10) (strip text)) <> 2%nat ->
  handle_links P u text w
    = (Ok tt, record (reply_text "❌ Send exactly 2 message links (start and end).") w).
Proof.
  intros H. unfold handle_links.
  destruct (Nat.eqb_spec (length (split (ascii_of_nat 10) (strip text))) 2) as [E|E];
    [contradiction|]. reflexivity.
Qed.

Lemma handle_links_parses P u text w l0 l1 :
  split (ascii_of_nat 10) (strip text) = [l0; l1] ->
  handle_links P u text w
    = ('(chat_id, start_id) ← lift (parse_tg_link l0);
       '(_, end_id) ← lift (parse_tg_link l1);
       active ← get (fun w => ACTIVE_CLIENTS w !! u);
       match active with
       | None => emit (reply_text "❌ Not logged in! Use /login first.")
       | Some c =>
           found ← call_result (client_iter_messages c chat_id start_id end_id)
                               (iter_messages P c chat_id start_id end_id);
           for_each (rev (List.filter has_media found)) (process_item P u c)
       end) w.
Proof. intros Hs. unfold handle_links. rewrite Hs. reflexivity. Qed.

Lemma handle_links_enumerates P u text w l0 l1 c chat_id start_id chat_id' end_id :
  split (ascii_of_nat 10) (strip text) = [l0; l1] ->
  parse_tg_link l0 = Ok (chat_id, start_id) ->
  parse_tg_link l1 = Ok (chat_id', end_id) ->
  ACTIVE_CLIENTS w !! u = Some c ->
  handle_links P u text w
    = (found ← call_result (client_iter_messages c chat_id start_id end_id)
                           (iter_messages P c chat_id start_id end_id);
       for_each (rev (List.filter has_media found)) (process_item P u c)) w.
Proof.
  intros Hs H0 H1 Hc. rewrite (handle_links_parses P u text w l0 l1 Hs), H0, H1.
  step. rewrite Hc. reflexivity.
Qed.

Lemma handle_links_not_logged_in P u text w l0 l1 p0 p1 :
  split (ascii_of_nat 10) (strip text) = [l0; l1] ->
  parse_tg_link l0 = Ok p0 ->
  parse_tg_link l1 = Ok p1 ->
  ACTIVE_CLIENTS w !! u = None ->
  handle_links P u text w
    = (Ok tt, record (reply_text "❌ Not logged in! Use /login first.") w).
Proof.
  intros Hs H0 H1 Hc. rewrite (handle_links_parses P u text w l0 l1 Hs), H0, H1.
  destruct p0, p1. step. rewrite Hc. reflexivity.
Qed.

Lemma handle_links_parse_raises P u text w l0 l1 e :
  split (ascii_of_nat 10) (strip text) = [l0; l1] ->
  parse_tg_link l0 = Raise e \/
  (exists p0, parse_tg_link l0 = Ok p0) /\ parse_tg_link l1 = Raise e ->
  handle_links P u text w = (Raise e, w).
Proof.
  intros Hs H. rewrite (handle_links_parses P u text w l0 l1 Hs).
  destruct H as [H0|[[[a b] H0] H1]]; rewrite H0; [reflexivity|].
  step. rewrite H1. reflexivity.
Qed.

Lemma handle_links_accepts P u text w l0 l1 c chat_id start_id chat_id' end_id found :
  split (ascii_of_nat 10) (strip text) = [l0; l1] ->
  parse_tg_link l0 = Ok (chat_id, start_id) ->
  parse_tg_link l1 = Ok (chat_id', end_id) ->
  ACTIVE_CLIENTS w !! u = Some c ->
  iter_messages P c chat_id start_id end_id = Ok found ->
  exists w' es,
    handle_links P u text w = (batch_outcome P (rev (List.filter has_media found)), w') /\
    log w' = log w ++ client_iter_messages c chat_id start_id end_id :: es /\
    item_effects P u c (reached P (rev (List.filter has_media found))) es.
Proof.
  intros Hs H0 H1 Hc Hi.
  rewrite (handle_links_enumerates P u text w l0 l1 c _ _ _ _ Hs H0 H1 Hc).
  unfold call_result. step. rewrite Hi. simpl.
  match goal with |- context [for_each _ _ ?w0] =>
    destruct (batch_run P u c (rev (List.filter has_media found)) w0)
      as (w' & es & Hrun & Hlog & Heff)
  end.
  exists w', es. split; [exact Hrun|]. split; [|exact Heff].
  rewrite Hlog. simpl. now rewrite <- app_assoc.
Qed.

Lemma newest_first_filter (f : message -> bool) l :
  newest_first l -> newest_first (List.filter f l).
Proof.
  unfold newest_first. induction 1 as [|a l Hl IH Ha]; simpl; [constructor|].
  destruct (f a); [|exact IH].
  constructor; [exact IH|].
  rewrite List.Forall_forall in *. intros x Hx. apply Ha.
  apply filter_In in Hx. tauto.
Qed.

Lemma newest_first_rev l : newest_first l -> oldest_first (rev l).
Proof.
  unfold newest_first, oldest_first. induction 1 as [|a l Hl IH Ha]; simpl; [constructor|].
  apply StronglySorted_app. split; [|split; [exact IH|repeat constructor]].
  intros x1 x2 H1 H2. apply list_elem_of_In in H1, H2.
  destruct H2 as [<-|[]]. rewrite List.Forall_forall in Ha. apply Ha.
  now apply in_rev.
Qed.

Lemma oldest_first_prefix l rest : oldest_first (l ++ rest) -> oldest_first l.
Proof. unfold oldest_first. apply StronglySorted_app_1_l. Qed.

(** C2, as the spec states it, fails: on a platform that enumerates
    oldest first the three documents of the range are downloaded and
    forwarded newest first. *)
Lemma oldest_first_enumeration_delivered_newest_first :
  iter_messages oldest_first_platform (Client 0) (Some 5) (Some 10) (Some 12)
    = Ok [document 10 "a.bin"; document 11 "b.bin"; document 12 "c.bin"] /\
  downloads (log (handle_message oldest_first_platform [1] 1 range_10_12 world_logged_in).2)
    = [document 12 "c.bin"; document 11 "b.bin"; document 10 "a.bin"] /\
  documents (log (handle_message oldest_first_platform [1] 1 range_10_12 world_logged_in).2)
    = [(1, "downloads/12", "c.bin"); (1, "downloads/11", "b.bin");
       (1, "downloads/10", "a.bin")]%string /\
  ~ oldest_first
      (downloads (log (handle_message oldest_first_platform [1] 1 range_10_12 world_logged_in).2)).
Proof.
  assert (H : downloads (log (handle_message oldest_first_platform [1] 1 range_10_12
                                world_logged_in).2)
              = [document 12 "c.bin"; document 11 "b.bin"; document 10 "a.bin"])
    by (vm_compute; reflexivity).
  split; [reflexivity|]. split; [exact H|]. split; [vm_compute; reflexivity|].
  rewrite H. intros Hs. inversion Hs as [|? ? _ Hall]; subst.
  inversion Hall as [|? ? Hlt _]; subst. simpl in Hlt. lia.
Qed.

(** C2, amended: an accepted request takes the matched media messages in
    the reverse of the order in which the platform's iterator yields
    them.  What it downloads is always a prefix of that reversed list, so
    when the iterator yields newest first (message IDs strictly
    decreasing) the downloads are oldest first, IDs strictly increasing;
    and when the file name of every matched message can be computed, the
    handler returns normally and has downloaded the whole reversed list,
    and forwarded the file of every download that returned, in that
    order. *)
Theorem delivery_reverses_enumeration (P : platform) (ADMINS : list Z) (u : Z)
    (text l0 l1 : string) (w : world) (c : client) (chat_id start_id chat_id' end_id : option Z)
    (found : list message) :
  is_admin ADMINS u = true ->
  default STATE_NONE (USER_STATES w !! u) = STATE_NONE ->
  startswith link_prefix text = true ->
  split (ascii_of_nat 10) (strip text) = [l0; l1] ->
  parse_tg_link l0 = Ok (chat_id, start_id) ->
  parse_tg_link l1 = Ok (chat_id', end_id) ->
  ACTIVE_CLIENTS w !! u = Some c ->
  iter_messages P c chat_id start_id end_id = Ok found ->
  exists w',
    handle_message P ADMINS u text w
      = (batch_outcome P (rev (List.filter has_media found)), w') /\
    (exists rest, rev (List.filter has_media found) = downloads (added w w') ++ rest) /\
    documents (added w w')
      = flat_map (item_documents P u c) (reached P (rev (List.filter has_media found))) /\
    (newest_first found -> oldest_first (downloads (added w w'))) /\
    (Forall (fun msg => exists filename, item_filename P msg = Ok filename)
       (List.filter has_media found) ->
     batch_outcome P (rev (List.filter has_media found)) = Ok tt /\
     downloads (added w w') = rev (List.filter has_media found)).
Proof.
  intros Ha Hst Hp Hs H0 H1 Hc Hi.
  rewrite (handle_message_links P ADMINS u text w Ha Hst Hp).
  destruct (handle_links_accepts P u text w l0 l1 c _ _ _ _ found Hs H0 H1 Hc Hi)
    as (w' & es & Hrun & Hlog & [A B C D]).
  exists w'. split; [exact Hrun|].
  rewrite (added_app _ _ _ Hlog).
  change (?e :: es) with ([e] ++ es).
  unfold downloads, documents in *. rewrite !flat_map_app. simpl.
  rewrite B, C.
  destruct (reached_prefix P (rev (List.filter has_media found))) as [rest Hrest].
  split; [now exists rest|]. split; [reflexivity|]. split.
  - intros Hn. apply (oldest_first_prefix _ rest). rewrite <- Hrest.
    now apply newest_first_rev, newest_first_filter.
  - intros Hall.
    destruct (reached_all P (rev (List.filter has_media found))) as [E1 E2].
    { apply List.Forall_forall. intros m Hm. apply in_rev in Hm.
      rewrite List.Forall_forall in Hall. now apply Hall. }
    now rewrite E2.
Qed.

Lemma delivery_reverses_enumeration_witness :
  exists w',
    handle_message (telethon_platform three_documents) [1] 1 range_9_13 world_logged_in
      = (batch_outcome (telethon_platform three_documents)
           (rev (List.filter has_media three_documents)), w') /\
    (exists rest, rev (List.filter has_media three_documents)
                  = downloads (added world_logged_in w') ++ rest) /\
    documents (added world_logged_in w')
      = flat_map (item_documents (telethon_platform three_documents) 1 (Client 0))
          (reached (telethon_platform three_documents)
             (rev (List.filter has_media three_documents))) /\
    (newest_first three_documents -> oldest_first (downloads (added world_logged_in w'))) /\
    (Forall (fun msg => exists filename,
               item_filename (telethon_platform three_documents) msg = Ok filename)
       (List.filter has_media three_documents) ->
     batch_outcome (telethon_platform three_documents)
       (rev (List.filter has_media three_documents)) = Ok tt /\
     downloads (added world_logged_in w') = rev (List.filter has_media three_documents)).
Proof.
  apply (delivery_reverses_enumeration (telethon_platform three_documents) [1] 1 range_9_13
           "https://t.me/c/5/9" "https://t.me/c/5/13" world_logged_in (Client 0)
           (Some 5) (Some 9) (Some 5) (Some 13) three_documents); reflexivity.
Defined.

(** The iterator yields 12, 11, 10; they are delivered 10, 11, 12. *)
Example three_documents_delivered_oldest_first :
  iter_messages (telethon_platform three_documents) (Client 0) (Some 5) (Some 9) (Some 13)
    = Ok [document 12 "c.bin"; document 11 "b.bin"; document 10 "a.bin"] /\
  documents
    (log (handle_message (telethon_platform three_documents) [1] 1 range_9_13
            world_logged_in).2)
    = [(1, "downloads/10", "a.bin"); (1, "downloads/11", "b.bin");
       (1, "downloads/12", "c.bin")]%string.
Proof. split; vm_compute; reflexivity. Qed.

Lemma telethon_bounds_exclusive chat min_id max_id m :
  In m (telethon_iter_messages chat min_id max_id) ->
  min_id < msg_id m /\ (max_id = 0 \/ msg_id m < max_id).
Proof.
  unfold telethon_iter_messages. rewrite filter_In. intros [_ H].
  apply andb_prop in H as [H1 H2]. apply orb_prop in H2. lia.
Qed.

(** C3: with Telethon's iterator the two linked messages themselves are
    not selected.  Chat 5 holds documents 10, 11 and 12, all inside
    [10, 12]; for the links to 10 and 12 the handler asks for
    [min_id=10, max_id=12] and downloads document 11 only. *)
Theorem range_bounds_not_downloaded :
  List.filter (fun m => has_media m && (10 <=? msg_id m) && (msg_id m <=? 12)) three_documents
    = [document 12 "c.bin"; document 11 "b.bin"; document 10 "a.bin"] /\
  enumerations
    (log (handle_message (telethon_platform three_documents) [1] 1 range_10_12
            world_logged_in).2)
    = [(Some 5, Some 10, Some 12)] /\
  downloads
    (log (handle_message (telethon_platform three_documents) [1] 1 range_10_12
            world_logged_in).2)
    = [document 11 "b.bin"] /\
  documents
    (log (handle_message (telethon_platform three_documents) [1] 1 range_10_12
            world_logged_in).2)
    = [(1, "downloads/11", "b.bin")]%string.
Proof. repeat split; vm_compute; reflexivity. Qed.

(** C7, as the spec states it, fails: two links into different chats are
    accepted; the chat of the second link is not looked at. *)
Lemma links_into_two_chats_accepted :
  split (ascii_of_nat 10) (strip range_across_chats)
    = ["https://t.me/c/5/10"; "https://t.me/c/6/12"]%string /\
  parse_tg_link "https://t.me/c/5/10" = Ok (Some 5, Some 10) /\
  parse_tg_link "https://t.me/c/6/12" = Ok (Some 6, Some 12) /\
  enumerations
    (log (handle_message (telethon_platform three_documents) [1] 1 range_across_chats
            world_logged_in).2)
    = [(Some 5, Some 10, Some 12)] /\
  replies
    (log (handle_message (telethon_platform three_documents) [1] 1 range_across_chats
            world_logged_in).2)
    = ["✅ Saved: b.bin"]%string /\
  documents
    (log (handle_message (telethon_platform three_documents) [1] 1 range_across_chats
            world_logged_in).2)
    = [(1, "downloads/11", "b.bin")]%string.
Proof. repeat split; vm_compute; reflexivity. Qed.

(** With a live connection and two lines whose ids can be read, one
    enumeration is started, and it comes first. *)
Lemma handle_links_enumeration P u text w l0 l1 c chat_id start_id chat_id' end_id :
  split (ascii_of_nat 10) (strip text) = [l0; l1] ->
  parse_tg_link l0 = Ok (chat_id, start_id) ->
  parse_tg_link l1 = Ok (chat_id', end_id) ->
  ACTIVE_CLIENTS w !! u = Some c ->
  exists r w' es,
    handle_links P u text w = (r, w') /\
    log w' = log w ++ client_iter_messages c chat_id start_id end_id :: es /\
    enumerations (added w w') = [(chat_id, start_id, end_id)].
Proof.
  intros Hs H0 H1 Hc.
  destruct (iter_messages P c chat_id start_id end_id) as [found|e] eqn:Hi.
  - destruct (handle_links_accepts P u text w l0 l1 c _ _ _ _ found Hs H0 H1 Hc Hi)
      as (w' & es & Hrun & Hlog & [A B C D]).
    eexists _, w', es. split; [exact Hrun|]. split; [exact Hlog|].
    rewrite (added_app _ _ _ Hlog). unfold enumerations in *. simpl. now rewrite D.
  - rewrite (handle_links_enumerates P u text w l0 l1 c _ _ _ _ Hs H0 H1 Hc).
    unfold call_result. step. rewrite Hi. simpl.
    eexists _, _, []. split; [reflexivity|]. split; [reflexivity|].
    unfold added. simpl. rewrite drop_app_length. reflexivity.
Qed.

Lemma split_two {A} (l : list A) : length l = 2%nat -> exists a b, l = [a; b].
Proof. destruct l as [|a [|b [|]]]; try discriminate. eauto. Qed.

(** The reply that turns a request down is sent for no other reason than
    the number of lines. *)
Lemma two_lines_not_turned_down P u text w :
  length (split (ascii_of_nat 10) (strip text)) = 2%nat ->
  handle_links P u text w
    <> (Ok tt, record (reply_text "❌ Send exactly 2 message links (start and end).") w).
Proof.
  intros Hl Heq. destruct (split_two _ Hl) as (l0 & l1 & Hs).
  destruct (parse_tg_link l0) as [[chat_id start_id]|e] eqn:H0.
  2: { rewrite (handle_links_parse_raises P u text w l0 l1 e Hs) in Heq by auto.
       discriminate Heq. }
  destruct (parse_tg_link l1) as [[chat_id' end_id]|e] eqn:H1.
  2: { rewrite (handle_links_parse_raises P u text w l0 l1 e Hs) in Heq by eauto.
       discriminate Heq. }
  destruct (ACTIVE_CLIENTS w !! u) as [c|] eqn:Hc.
  - destruct (handle_links_enumeration P u text w l0 l1 c _ _ _ _ Hs H0 H1 Hc)
      as (r & w' & es & Hrun & Hlog & _).
    rewrite Hrun in Heq. injection Heq as _ ->. simpl in Hlog.
    apply app_inv_head in Hlog. discriminate Hlog.
  - rewrite (handle_links_not_logged_in P u text w l0 l1 _ _ Hs H0 H1 Hc) in Heq.
    injection Heq as Heq. apply app_inv_head in Heq. discriminate Heq.
Qed.

(** C7, amended: a link request (an allowed user in no login step, a
    text that starts with the link prefix) is turned down exactly on the
    number of lines of its stripped text.  The handler replies that
    exactly two links are needed, and does nothing else, exactly when the
    stripped text does not split into two lines; it then enumerates and
    downloads nothing.  With two lines the request is never turned down
    that way: a user without live connection is told to log in, and with
    a live connection one enumeration is started with the chat and the
    message ID read from the first line and the message ID read from the
    second, whatever chat the second link names (and with [None] for
    what a line that does not match the link pattern gives). *)
Theorem two_lines_decide_acceptance (P : platform) (ADMINS : list Z) (u : Z) (text : string)
    (w : world) :
  is_admin ADMINS u = true ->
  default STATE_NONE (USER_STATES w !! u) = STATE_NONE ->
  startswith link_prefix text = true ->
  (handle_message P ADMINS u text w
     = (Ok tt, record (reply_text "❌ Send exactly 2 message links (start and end).") w)
   <-> length (split (ascii_of_nat 10) (strip text)) <> 2%nat) /\
  (length (split (ascii_of_nat 10) (strip text)) <> 2%nat ->
   enumerations (added w (handle_message P ADMINS u text w).2) = [] /\
   downloads (added w (handle_message P ADMINS u text w).2) = []) /\
  (forall l0 l1 p0 p1,
     split (ascii_of_nat 10) (strip text) = [l0; l1] ->
     parse_tg_link l0 = Ok p0 -> parse_tg_link l1 = Ok p1 ->
     ACTIVE_CLIENTS w !! u = None ->
     handle_message P ADMINS u text w
       = (Ok tt, record (reply_text "❌ Not logged in! Use /login first.") w)) /\
  (forall l0 l1 c chat_id start_id chat_id' end_id,
     split (ascii_of_nat 10) (strip text) = [l0; l1] ->
     parse_tg_link l0 = Ok (chat_id, start_id) ->
     parse_tg_link l1 = Ok (chat_id', end_id) ->
     ACTIVE_CLIENTS w !! u = Some c ->
     exists r w',
       handle_message P ADMINS u text w = (r, w') /\
       enumerations (added w w') = [(chat_id, start_id, end_id)]).
Proof.
  intros Ha Hst Hp.
  rewrite (handle_message_links P ADMINS u text w Ha Hst Hp).
  split; [|split; [|split]].
  - split.
    + intros Heq Hl. now apply (two_lines_not_turned_down P u text w Hl).
    + apply handle_links_rejects.
  - intros Hl. rewrite (handle_links_rejects P u text w Hl).
    unfold added. simpl. rewrite drop_app_length. split; reflexivity.
  - intros l0 l1 p0 p1. apply handle_links_not_logged_in.
  - intros l0 l1 c chat_id start_id chat_id' end_id Hs H0 H1 Hc.
    destruct (handle_links_enumeration P u text w l0 l1 c _ _ _ _ Hs H0 H1 Hc)
      as (r & w' & es & Hrun & _ & He).
    eauto.
Qed.

Lemma two_lines_decide_acceptance_witness :
  (handle_message (telethon_platform three_documents) [1] 1 range_across_chats world_logged_in
     = (Ok tt, record (reply_text "❌ Send exactly 2 message links (start and end).")
                 world_logged_in)
   <-> length (split (ascii_of_nat 10) (strip range_across_chats)) <> 2%nat) /\
  (length (split (ascii_of_nat 10) (strip range_across_chats)) <> 2%nat ->
   enumerations
     (added world_logged_in
        (handle_message (telethon_platform three_documents) [1] 1 range_across_chats
           world_logged_in).2) = [] /\
   downloads
     (added world_logged_in
        (handle_message (telethon_platform three_documents) [1] 1 range_across_chats
           world_logged_in).2) = []) /\
  (forall l0 l1 p0 p1,
     split (ascii_of_nat 10) (strip range_across_chats) = [l0; l1] ->
     parse_tg_link l0 = Ok p0 -> parse_tg_link l1 = Ok p1 ->
     ACTIVE_CLIENTS world_logged_in !! 1 = None ->
     handle_message (telethon_platform three_documents) [1] 1 range_across_chats
       world_logged_in
       = (Ok tt, record (reply_text "❌ Not logged in! Use /login first.") world_logged_in)) /\
  (forall l0 l1 c chat_id start_id chat_id' end_id,
     split (ascii_of_nat 10) (strip range_across_chats) = [l0; l1] ->
     parse_tg_link l0 = Ok (chat_id, start_id) ->
     parse_tg_link l1 = Ok (chat_id', end_id) ->
     ACTIVE_CLIENTS world_logged_in !! 1 = Some c ->
     exists r w',
       handle_message (telethon_platform three_documents) [1] 1 range_across_chats
         world_logged_in = (r, w') /\
       enumerations (added world_logged_in w') = [(chat_id, start_id, end_id)]).
Proof.
  apply (two_lines_decide_acceptance (telethon_platform three_documents) [1] 1
           range_across_chats world_logged_in); reflexivity.
Defined.

(** Whitespace outside ASCII: a no-break space after the links is
    stripped, as [str.strip] does, so that two links followed by a line
    break and a no-break space are two lines, and one link followed by
    them is one. *)
Example no_break_space_is_stripped :
  split (ascii_of_nat 10) (strip (range_10_12 ++ newline ++ utf8 160))
    = ["https://t.me/c/5/10"; "https://t.me/c/5/12"]%string /\
  split (ascii_of_nat 10) (strip ("https://t.me/c/5/10" ++ newline ++ utf8 160))
    = ["https://t.me/c/5/10"]%string /\
  enumerations
    (log (handle_message (telethon_platform three_documents) [1] 1
            (range_10_12 ++ newline ++ utf8 160) world_logged_in).2)
    = [(Some 5, Some 10, Some 12)] /\
  replies
    (log (handle_message (telethon_platform three_documents) [1] 1
            ("https://t.me/c/5/10" ++ newline ++ utf8 160) world_logged_in).2)
    = ["❌ Send exactly 2 message links (start and end)."]%string.
Proof. repeat split; vm_compute; reflexivity. Qed.

(** ** Binary64 rounding *)

Lemma rne_div_spec n d : 0 < d -> Z.abs (2 * (rne_div n d * d - n)) <= d.
Proof.
  intros Hd. unfold rne_div.
  pose proof (Z.div_mod n d ltac:(lia)) as E.
  pose proof (Z.mod_pos_bound n d Hd) as B.
  destruct (Z.compare_spec (2 * (n mod d)) d) as [C|C|C];
    [destruct (Z.even (n / d))| |]; nia.
Qed.

Lemma rne_div_nonneg n d : 0 <= n -> 0 < d -> 0 <= rne_div n d.
Proof.
  intros Hn Hd. unfold rne_div.
  pose proof (Z.div_pos n d Hn Hd).
  destruct (2 * (n mod d) ?= d); [destruct (Z.even (n / d))| |]; lia.
Qed.

Lemma pow2_max_pos k : 0 < 2 ^ Z.max 0 k.
Proof. apply Z.pow_pos_nonneg; lia. Qed.

Lemma ratio_log2_spec n d :
  0 < n -> 0 < d ->
  d * 2 ^ Z.max 0 (ratio_log2 n d) <= n * 2 ^ Z.max 0 (- ratio_log2 n d) /\
  n * 2 ^ Z.max 0 (- (ratio_log2 n d + 1)) < d * 2 ^ Z.max 0 (ratio_log2 n d + 1).
Proof.
  intros Hn Hd. unfold ratio_log2.
  pose proof (Z.log2_spec n Hn) as [An Bn].
  pose proof (Z.log2_spec d Hd) as [Ad Bd].
  pose proof (Z.log2_nonneg n) as Nn. pose proof (Z.log2_nonneg d) as Nd.
  set (a := Z.log2 n) in *. set (b := Z.log2 d) in *.
  rewrite Z.pow_succ_r in Bn, Bd by assumption.
  destruct (Z.leb_spec (d * 2 ^ Z.max 0 (a - b)) (n * 2 ^ Z.max 0 (- (a - b)))) as [C|C].
  - split; [exact C|].
    destruct (Z.le_gt_cases 0 (a - b + 1)) as [K|K].
    + rewrite (Z.max_l 0 (- (a - b + 1))), (Z.max_r 0 (a - b + 1)) by lia.
      replace (a - b + 1) with (Z.succ (a - b)) by lia.
      destruct (Z.eq_dec (a - b) (-1)) as [E|E].
      * rewrite E. simpl. replace a with (b - 1) in * by lia.
        assert (2 ^ b = 2 * 2 ^ (b - 1)) by (rewrite <- Z.pow_succ_r by lia; f_equal; lia).
        lia.
      * rewrite Z.pow_succ_r by lia.
        replace a with (b + (a - b)) in Bn by lia. rewrite Z.pow_add_r in Bn by lia.
        pose proof (pow2_max_pos (a - b)). rewrite Z.max_r in H by lia. nia.
    + rewrite (Z.max_r 0 (- (a - b + 1))), (Z.max_l 0 (a - b + 1)) by lia.
      replace b with (a + 1 + (- (a - b + 1))) in Ad by lia.
      rewrite Z.pow_add_r, Z.pow_add_r in Ad by lia.
      pose proof (pow2_max_pos (- (a - b + 1))). rewrite Z.max_r in H by lia.
      change (2 ^ 1) with 2 in Ad. nia.
  - replace (a - b - 1 + 1) with (a - b) by lia. split; [|lia].
    destruct (Z.le_gt_cases 1 (a - b)) as [K|K].
    + rewrite (Z.max_r 0 (a - b - 1)), (Z.max_l 0 (- (a - b - 1))) by lia.
      replace a with (b + 1 + (a - b - 1)) in An by lia.
      rewrite Z.pow_add_r, Z.pow_add_r in An by lia. change (2 ^ 1) with 2 in An.
      pose proof (pow2_max_pos (a - b - 1)). rewrite Z.max_r in H by lia. nia.
    + rewrite (Z.max_l 0 (a - b - 1)), (Z.max_r 0 (- (a - b - 1))) by lia.
      replace b with (a + (b - a)) in Bd by lia. rewrite Z.pow_add_r in Bd by lia.
      replace (- (a - b - 1)) with (Z.succ (b - a)) by lia.
      rewrite Z.pow_succ_r by lia.
      pose proof (pow2_max_pos (b - a)). rewrite Z.max_r in H by lia. nia.
Qed.

Lemma binade_exponent_eq n d :
  binade_exponent n d = Z.max (ratio_log2 n d - 52) (-1074).
Proof. reflexivity. Qed.

Lemma round_ratio_unfold s n d :
  0 < n ->
  round_ratio s n d =
    let e := binade_exponent n d in
    let m := rne_div (n * 2 ^ Z.max 0 (- e)) (d * 2 ^ Z.max 0 e) in
    if m =? 2 ^ 53 then
      if e + 1 <=? 971 then S754_finite s (2 ^ 52) (e + 1) else S754_infinity s
    else match m with
         | Zpos p => if e <=? 971 then S754_finite s p e else S754_infinity s
         | _ => S754_zero s
         end.
Proof.
  intros Hn. unfold round_ratio.
  destruct (Z.eqb_spec n 0) as [E|E]; [lia|].
  change (emax - prec) with 971. change (2 ^ prec) with (2 ^ 53).
  cbv zeta.
  destruct (_ =? 2 ^ 53); reflexivity.
Qed.

Lemma round_ratio_spec s n d :
  0 < n -> 0 < d -> ratio_log2 n d <= 1022 ->
  is_finite (round_ratio s n d) = true /\
  Z.abs (2 * (units (round_ratio s n d) * d - n * 2 ^ 1074))
    <= 2 ^ (binade_exponent n d + 1074) * d.
Proof.
  intros Hn Hd HL. rewrite round_ratio_unfold by assumption. cbv zeta.
  set (e := binade_exponent n d).
  assert (He : -1074 <= e <= 970) by (unfold e; rewrite binade_exponent_eq; lia).
  set (D := d * 2 ^ Z.max 0 e). set (N := n * 2 ^ Z.max 0 (- e)).
  assert (HD : 0 < D) by (unfold D; pose proof (pow2_max_pos e); nia).
  assert (HN : 0 <= N) by (unfold N; pose proof (pow2_max_pos (- e)); nia).
  pose proof (rne_div_spec N D HD) as R.
  pose proof (rne_div_nonneg N D HN HD) as Rn.
  set (m := rne_div N D) in *.
  set (F := 2 ^ (1074 - Z.max 0 (- e))).
  assert (HF : 0 < F) by (unfold F; apply Z.pow_pos_nonneg; lia).
  assert (EDF : D * F = 2 ^ (e + 1074) * d).
  { unfold D, F. rewrite <- Z.mul_assoc, <- Z.pow_add_r by lia.
    replace (Z.max 0 e + (1074 - Z.max 0 (- e))) with (e + 1074) by lia. ring. }
  assert (ENF : N * F = n * 2 ^ 1074).
  { unfold N, F. rewrite <- Z.mul_assoc, <- Z.pow_add_r by lia.
    replace (Z.max 0 (- e) + (1074 - Z.max 0 (- e))) with 1074 by lia. reflexivity. }
  assert (Hu : units (if m =? 2 ^ 53
                      then if e + 1 <=? 971 then S754_finite s (2 ^ 52) (e + 1)
                           else S754_infinity s
                      else match m with
                           | Zpos p => if e <=? 971 then S754_finite s p e else S754_infinity s
                           | _ => S754_zero s
                           end) = m * 2 ^ (e + 1074) /\
               is_finite (if m =? 2 ^ 53
                      then if e + 1 <=? 971 then S754_finite s (2 ^ 52) (e + 1)
                           else S754_infinity s
                      else match m with
                           | Zpos p => if e <=? 971 then S754_finite s p e else S754_infinity s
                           | _ => S754_zero s
                           end) = true).
  { destruct (Z.eqb_spec m (2 ^ 53)) as [E|E].
    - destruct (Z.leb_spec (e + 1) 971); [|lia]. simpl units.
      rewrite E. replace (e + 1 + 1074) with (Z.succ (e + 1074)) by lia.
      rewrite Z.pow_succ_r by lia. split; [|simpl; lia].
      change (Z.pos (2 ^ 52)) with (2 ^ 52). change (2 ^ 53) with (2 * 2 ^ 52). ring.
    - destruct m as [|p|p]; [split; [simpl; ring|reflexivity]| |lia].
      destruct (Z.leb_spec e 971); [|lia]. split; [reflexivity|simpl; lia]. }
  destruct Hu as [-> ->]. split; [reflexivity|].
  rewrite <- EDF.
  replace (2 * (m * 2 ^ (e + 1074) * d - n * 2 ^ 1074)) with (F * (2 * (m * D - N))).
  - rewrite Z.abs_mul, (Z.abs_eq F) by lia. nia.
  - rewrite <- ENF. replace (m * 2 ^ (e + 1074) * d) with (m * (2 ^ (e + 1074) * d)) by ring.
    rewrite <- EDF. ring.
Qed.

Lemma ratio_log2_upper n d a :
  0 < n -> 0 < d -> 0 <= a -> n < d * 2 ^ (a + 1) -> ratio_log2 n d <= a.
Proof.
  intros Hn Hd Ha H. destruct (ratio_log2_spec n d Hn Hd) as [S1 _].
  destruct (Z.le_gt_cases (ratio_log2 n d) a) as [|C]; [assumption|exfalso].
  rewrite Z.max_r, Z.max_l, Z.mul_1_r in S1 by lia.
  assert (2 ^ (a + 1) <= 2 ^ ratio_log2 n d) by (apply Z.pow_le_mono_r; lia).
  nia.
Qed.

Lemma ratio_log2_fits n d : 0 < n < 2 ^ 1023 -> 0 < d -> ratio_log2 n d <= 1022.
Proof.
  intros Hn Hd. apply ratio_log2_upper; [lia|lia|lia|].
  change (1022 + 1) with 1023. nia.
Qed.

Lemma is_finite_not_infinity x : is_finite x = true -> is_infinity x = false.
Proof. destruct x; simpl; congruence. Qed.

(** Within the range of a double, the two conversions from integers do
    not raise. *)
Lemma round_ratio_finite s n d :
  0 <= n < 2 ^ 1023 -> 0 < d -> is_finite (round_ratio s n d) = true.
Proof.
  intros Hn Hd. destruct (Z.eq_dec n 0) as [->|E]; [reflexivity|].
  apply round_ratio_spec; try lia. apply ratio_log2_fits; lia.
Qed.

Lemma int_truediv_ok a b :
  Z.abs a < 2 ^ 1023 -> b <> 0 ->
  int_truediv a b = Ok (round_ratio (xorb (a <? 0) (b <? 0)) (Z.abs a) (Z.abs b)) /\
  is_finite (round_ratio (xorb (a <? 0) (b <? 0)) (Z.abs a) (Z.abs b)) = true.
Proof.
  intros Ha Hb. unfold int_truediv.
  destruct (Z.eqb_spec b 0) as [E|E]; [contradiction|].
  assert (F : is_finite (round_ratio (xorb (a <? 0) (b <? 0)) (Z.abs a) (Z.abs b)) = true)
    by (apply round_ratio_finite; lia).
  now rewrite (is_finite_not_infinity _ F).
Qed.

Lemma float_of_int_ok a :
  Z.abs a < 2 ^ 1023 ->
  float_of_int a = Ok (round_ratio (a <? 0) (Z.abs a) 1) /\
  is_finite (round_ratio (a <? 0) (Z.abs a) 1) = true.
Proof.
  intros Ha. unfold float_of_int.
  assert (F : is_finite (round_ratio (a <? 0) (Z.abs a) 1) = true)
    by (apply round_ratio_finite; lia).
  now rewrite (is_finite_not_infinity _ F).
Qed.

Lemma round_ratio_sign s n d :
  match round_ratio s n d with
  | S754_zero s' | S754_infinity s' | S754_finite s' _ _ => s' = s
  | S754_nan => False
  end.
Proof.
  unfold round_ratio. destruct (n =? 0); [reflexivity|].
  destruct (_ =? 2 ^ prec).
  - simpl. destruct (_ <=? _); reflexivity.
  - destruct (rne_div _ _); try reflexivity. destruct (_ <=? _); reflexivity.
Qed.

Lemma round_ratio_positive n d :
  0 < n -> 0 < d -> ratio_log2 n d <= 1022 -> d < 2 ^ 1074 ->
  0 < units (round_ratio false n d).
Proof.
  intros Hn Hd HL Hsmall.
  destruct (round_ratio_spec false n d Hn Hd HL) as [_ B].
  destruct (ratio_log2_spec n d Hn Hd) as [S1 _].
  rewrite binade_exponent_eq in B.
  assert (P1074 : 0 < 2 ^ 1074) by (apply Z.pow_pos_nonneg; lia).
  destruct (Z.le_gt_cases (-1074) (ratio_log2 n d - 52)) as [C|C].
  - rewrite Z.max_l in B by lia.
    set (L := ratio_log2 n d) in *.
    assert (E : 2 ^ (L + 1074) = 2 ^ 52 * 2 ^ (L - 52 + 1074)).
    { rewrite <- Z.pow_add_r by lia. f_equal. lia. }
    assert (U : 0 < 2 ^ (L - 52 + 1074)) by (apply Z.pow_pos_nonneg; lia).
    assert (K : 2 ^ (L + 1074) * d <= n * 2 ^ 1074).
    { destruct (Z.le_gt_cases 0 L) as [G|G].
      - rewrite Z.max_r, Z.max_l, Z.mul_1_r in S1 by lia.
        rewrite Z.pow_add_r by lia. nia.
      - rewrite Z.max_l, Z.max_r, Z.mul_1_r in S1 by lia.
        replace 1074 with (- L + (L + 1074)) at 2 by lia.
        rewrite (Z.pow_add_r 2 (- L) (L + 1074)) by lia.
        assert (0 < 2 ^ (L + 1074)) by (apply Z.pow_pos_nonneg; lia).
        change (2 ^ 0) with 1 in S1. rewrite ?Z.mul_1_r in S1.
        rewrite Z.mul_assoc, (Z.mul_comm _ d). apply Z.mul_le_mono_nonneg_r; lia. }
    change (2 ^ 52) with 4503599627370496 in E. rewrite E in K.
    assert (0 < 2 ^ (L - 52 + 1074) * d) by nia.
    destruct (Z.le_gt_cases (units (round_ratio false n d)) 0) as [G|G]; [exfalso|exact G].
    assert (units (round_ratio false n d) * d <= 0) by nia. lia.
  - rewrite Z.max_r in B by lia. change (2 ^ (-1074 + 1074)) with 1 in B.
    destruct (Z.le_gt_cases (units (round_ratio false n d)) 0) as [G|G]; [exfalso|exact G].
    assert (units (round_ratio false n d) * d <= 0) by nia. nia.
Qed.

Lemma float_gt_zero_units s n d :
  float_gt_zero (round_ratio s n d) = true -> s = false.
Proof.
  pose proof (round_ratio_sign s n d) as H.
  unfold float_gt_zero, SFltb, SFcompare.
  destruct (round_ratio s n d) as [s'|s'| |s' m e]; try contradiction; subst s';
    destruct s; simpl; congruence.
Qed.

Lemma float_gt_zero_positive x :
  is_finite x = true -> float_gt_zero x = true -> exists m e, x = S754_finite false m e.
Proof.
  unfold float_gt_zero, SFltb, SFcompare.
  destruct x as [s|s| |s m e]; simpl; try discriminate.
  destruct s; [discriminate|]. eauto.
Qed.

Lemma units_float_gt_zero n d :
  0 < units (round_ratio false n d) -> float_gt_zero (round_ratio false n d) = true.
Proof.
  pose proof (round_ratio_sign false n d) as H.
  destruct (round_ratio false n d) as [s'|s'| |s' m e]; simpl; try lia; try contradiction.
  subst s'. reflexivity.
Qed.

Lemma binade_ulp_bound n d :
  0 < n -> 0 < d ->
  2 ^ (binade_exponent n d + 1074) * 2 ^ 52 * d <= Z.max (n * 2 ^ 1074) (2 ^ 52 * d).
Proof.
  intros Hn Hd. destruct (ratio_log2_spec n d Hn Hd) as [S1 _].
  rewrite binade_exponent_eq. set (L := ratio_log2 n d) in *.
  destruct (Z.le_gt_cases (-1074) (L - 52)) as [C|C].
  - rewrite Z.max_l by lia. etransitivity; [|apply Z.le_max_l].
    rewrite <- Z.pow_add_r by lia. replace (L - 52 + 1074 + 52) with (L + 1074) by lia.
    destruct (Z.le_gt_cases 0 L) as [G|G].
    + rewrite Z.max_r, Z.max_l in S1 by lia. change (2 ^ 0) with 1 in S1.
      rewrite Z.mul_1_r in S1. rewrite Z.pow_add_r by lia.
      transitivity (d * 2 ^ L * 2 ^ 1074); [apply Z.eq_le_incl; ring|].
      apply Z.mul_le_mono_nonneg_r; [apply Z.pow_nonneg; lia|exact S1].
    + rewrite Z.max_l, Z.max_r in S1 by lia. change (2 ^ 0) with 1 in S1.
      rewrite Z.mul_1_r in S1.
      replace 1074 with (- L + (L + 1074)) at 2 by lia.
      rewrite (Z.pow_add_r 2 (- L) (L + 1074)) by lia.
      transitivity (d * 2 ^ (L + 1074)); [apply Z.eq_le_incl; ring|].
      rewrite Z.mul_assoc.
      apply Z.mul_le_mono_nonneg_r; [apply Z.pow_nonneg; lia|exact S1].
  - rewrite Z.max_r by lia. change (2 ^ (-1074 + 1074)) with 1.
    rewrite Z.mul_1_l. apply Z.le_max_r.
Qed.

Lemma total_seconds_sign elapsed :
  Z.abs elapsed < 2 ^ 1023 ->
  exists secs,
    total_seconds elapsed = Ok secs /\ is_finite secs = true /\
    (float_gt_zero secs = true <-> 0 < elapsed).
Proof.
  intros He. unfold total_seconds.
  destruct (int_truediv_ok elapsed 1000000 He ltac:(lia)) as [-> F].
  eexists. split; [reflexivity|]. split; [exact F|].
  change (1000000 <? 0) with false. rewrite xorb_false_r.
  change (Z.abs 1000000) with 1000000 in *.
  split.
  - intros G. pose proof (float_gt_zero_units _ _ _ G) as S.
    apply Z.ltb_ge in S. destruct (Z.eq_dec elapsed 0) as [->|]; [discriminate G|lia].
  - intros G. destruct (Z.ltb_spec elapsed 0); [lia|].
    apply units_float_gt_zero. rewrite Z.abs_eq in * by lia.
    apply round_ratio_positive; [lia|lia|apply ratio_log2_fits; lia|lia].
Qed.

Section Speed.

Variable P : platform.

Lemma speed_guarded current elapsed :
  Z.abs elapsed < 2 ^ 1023 -> elapsed <= 0 -> speed P current elapsed = Ok ""%string.
Proof.
  intros He Hle. destruct (total_seconds_sign elapsed He) as (secs & Hs & _ & G).
  unfold speed. rewrite Hs. simpl.
  destruct (float_gt_zero secs); [|reflexivity].
  assert (0 < elapsed) by now apply G. lia.
Qed.

Lemma speed_rate current elapsed :
  Z.abs elapsed < 2 ^ 1023 -> Z.abs current < 2 ^ 1023 -> 0 < elapsed ->
  exists secs c r,
    total_seconds elapsed = Ok secs /\ float_of_int current = Ok c /\
    float_truediv c secs = Ok r /\
    speed P current elapsed = Ok (naturalsize_float P r ++ "/s")%string.
Proof.
  intros He Hc Hpos. destruct (total_seconds_sign elapsed He) as (secs & Hs & F & G).
  destruct (float_of_int_ok current Hc) as [Hf _].
  assert (Hg : float_gt_zero secs = true) by now apply G.
  destruct (float_gt_zero_positive secs F Hg) as (m & e & ->).
  assert (exists r, float_truediv (round_ratio (current <? 0) (Z.abs current) 1)
                      (S754_finite false m e) = Ok r) as [r Hr].
  { unfold float_truediv. destruct (round_ratio _ _ _); eauto. }
  exists (S754_finite false m e), (round_ratio (current <? 0) (Z.abs current) 1), r.
  repeat split; try assumption.
  unfold speed. rewrite Hs. simpl. rewrite Hf. simpl. rewrite Hr. reflexivity.
Qed.

Lemma speed_never_divides_by_zero current elapsed e :
  speed P current elapsed = Raise e -> exn_class e = "OverflowError"%string.
Proof.
  unfold speed.
  destruct (total_seconds elapsed) as [secs|e0] eqn:Hs; simpl.
  - destruct (float_gt_zero secs) eqn:G; [|discriminate].
    destruct (float_of_int current) as [c|e1] eqn:Hc; simpl.
    + destruct (float_truediv c secs) as [r|e2] eqn:Hd; simpl; [discriminate|].
      exfalso. unfold float_truediv in Hd.
      destruct c, secs; try discriminate Hd; discriminate G.
    + intros H. injection H as <-. unfold float_of_int in Hc.
      destruct (is_infinity _); inversion Hc. reflexivity.
  - intros H. injection H as <-. unfold total_seconds, int_truediv in Hs.
    change (1000000 =? 0) with false in Hs. cbv iota in Hs.
    destruct (is_infinity _); inversion Hs. reflexivity.
Qed.

End Speed.

Lemma tenths_spec m e :
  -1074 <= e ->
  Z.abs (2 * (tenths m e * 2 ^ 1074 - 10 * (Zpos m * 2 ^ (e + 1074)))) <= 2 ^ 1074.
Proof.
  intros He. unfold tenths.
  set (D := 2 ^ Z.max 0 (- e)). set (N := 10 * Zpos m * 2 ^ Z.max 0 e).
  assert (HD : 0 < D) by apply pow2_max_pos.
  pose proof (rne_div_spec N D HD) as R. set (d := rne_div N D) in *.
  set (F := 2 ^ (1074 - Z.max 0 (- e))).
  assert (HF : 0 < F) by (apply Z.pow_pos_nonneg; lia).
  assert (EDF : D * F = 2 ^ 1074).
  { unfold D, F. rewrite <- Z.pow_add_r by lia. f_equal. lia. }
  assert (ENF : N * F = 10 * (Zpos m * 2 ^ (e + 1074))).
  { unfold N, F. rewrite <- !Z.mul_assoc, <- Z.pow_add_r by lia.
    replace (Z.max 0 e + (1074 - Z.max 0 (- e))) with (e + 1074) by lia. reflexivity. }
  rewrite <- ENF, <- EDF.
  replace (2 * (d * (D * F) - N * F)) with (F * (2 * (d * D - N))) by ring.
  rewrite Z.abs_mul, (Z.abs_eq F) by lia. nia.
Qed.

Lemma float_mul_100_spec s m e :
  -1074 <= e -> Zpos m * 2 ^ (e + 1074) < 2 ^ 2074 ->
  exists u,
    is_finite (float_mul (S754_finite s m e) float_100) = true /\
    Z.abs (2 * (units (float_mul (S754_finite s m e) float_100)
                - 100 * (Zpos m * 2 ^ (e + 1074)))) <= u /\
    u * 2 ^ 52 <= Z.max (100 * (Zpos m * 2 ^ (e + 1074))) (2 ^ 52).
Proof.
  intros He Hx. unfold float_mul, float_100.
  set (E := e + -46).
  set (n := Zpos m * 7036874417766400 * 2 ^ Z.max 0 E).
  set (d := 2 ^ Z.max 0 (- E)).
  set (N := Zpos m * 2 ^ (e + 1074)) in *.
  assert (HW : 0 < 2 ^ 1074) by (apply Z.pow_pos_nonneg; lia).
  assert (Hd : 0 < d) by apply pow2_max_pos.
  assert (Hn : 0 < n) by (unfold n; pose proof (pow2_max_pos E); nia).
  assert (K : n * 2 ^ 1074 = 100 * N * d).
  { unfold n, N, d. change 7036874417766400 with (100 * 2 ^ 46).
    transitivity (100 * Zpos m * (2 ^ 46 * 2 ^ Z.max 0 E * 2 ^ 1074)); [ring|].
    transitivity (100 * Zpos m * (2 ^ (e + 1074) * 2 ^ Z.max 0 (- E))); [|ring].
    f_equal. rewrite <- !Z.pow_add_r by lia. f_equal. lia. }
  assert (HL : ratio_log2 n d <= 1022).
  { apply ratio_log2_upper; [lia|lia|lia|].
    change (1022 + 1) with 1023.
    apply (Z.mul_lt_mono_pos_r (2 ^ 1074)); [exact HW|]. rewrite K.
    assert (100 * N < 2 ^ 1023 * 2 ^ 1074).
    { rewrite <- Z.pow_add_r by lia. change (1023 + 1074) with (23 + 2074).
      rewrite Z.pow_add_r by lia. change (2 ^ 23) with 8388608. lia. }
    replace (d * 2 ^ 1023 * 2 ^ 1074) with (2 ^ 1023 * 2 ^ 1074 * d) by ring.
    apply Z.mul_lt_mono_pos_r; assumption. }
  destruct (round_ratio_spec (xorb s false) n d Hn Hd HL) as [F B].
  pose proof (binade_ulp_bound n d Hn Hd) as U.
  set (u := 2 ^ (binade_exponent n d + 1074)) in *.
  set (p := round_ratio (xorb s false) n d) in *.
  exists u. split; [exact F|].
  rewrite K in B, U. split.
  - replace (2 * (units p * d - 100 * N * d)) with (d * (2 * (units p - 100 * N))) in B by ring.
    rewrite Z.abs_mul, (Z.abs_eq d), (Z.mul_comm u d) in B by lia.
    apply Z.mul_le_mono_pos_l in B; assumption.
  - replace (100 * N * d) with (d * (100 * N)) in U by ring.
    rewrite (Z.mul_comm (2 ^ 52) d), Z.mul_max_distr_nonneg_l in U by lia.
    replace (u * 2 ^ 52 * d) with (d * (u * 2 ^ 52)) in U by ring.
    apply Z.mul_le_mono_pos_l in U; assumption.
Qed.

Lemma cancel_scale X c t W K :
  0 < W -> 0 < K -> 2010 * c < K ->
  K * (X * W) <= W * (K * t + 2010 * c) -> X <= t.
Proof.
  intros HW HK Hs H.
  assert (H1 : K * X <= K * t + 2010 * c).
  { apply (Z.mul_le_mono_pos_r _ _ W); [exact HW|].
    replace (K * X * W) with (K * (X * W)) by ring.
    replace ((K * t + 2010 * c) * W) with (W * (K * t + 2010 * c)) by ring. exact H. }
  assert (H2 : K * (X - t) < K * 1) by lia.
  apply Z.mul_lt_mono_pos_l in H2; lia.
Qed.

Lemma tenth_chain c t d N1 N2 u1 u2 W :
  2 ^ 41 * 2 ^ 52 <= W -> 1 <= c <= 2 ^ 41 -> 1 <= t <= 2 ^ 41 ->
  0 <= u1 -> 0 <= u2 ->
  Z.abs (2 * (N1 * t - c * W)) <= u1 * t ->
  u1 * 2 ^ 52 * t <= c * W ->
  Z.abs (2 * (N2 - 100 * N1)) <= u2 ->
  u2 * 2 ^ 52 <= Z.max (100 * N1) (2 ^ 52) ->
  Z.abs (2 * (d * W - 10 * N2)) <= W ->
  Z.abs (2 * (d * t - 1000 * c)) <= t.
Proof.
  change (2 ^ 52) with 4503599627370496. change (2 ^ 41) with 2199023255552.
  intros HKW Hc Ht Hu1 Hu2 A U1 B U2 C.
  apply Z.abs_le in A, B, C. apply Z.abs_le.
  set (K := 4503599627370496) in *.
  assert (HK : 50 <= K) by (unfold K; lia).
  assert (HW : 0 < W) by lia.
  assert (Hut : 0 <= u1 * t) by (apply Z.mul_nonneg_nonneg; lia).
  assert (V1 : K * (u1 * t) <= c * W) by lia.
  assert (V50 : 50 * (u1 * t) <= c * W).
  { apply Z.le_trans with (K * (u1 * t)); [|exact V1].
    apply Z.mul_le_mono_nonneg_r; lia. }
  assert (M2 : 100 * (N1 * t) <= 101 * (c * W)) by lia.
  assert (KtW : K * t <= c * W).
  { apply Z.le_trans with W; [lia|]. 
    replace W with (1 * W) at 1 by ring. apply Z.mul_le_mono_nonneg_r; lia. }
  assert (V2 : t * (u2 * K) <= 101 * (c * W)).
  { apply Z.le_trans with (t * Z.max (100 * N1) K).
    - apply Z.mul_le_mono_nonneg_l; lia.
    - rewrite <- Z.mul_max_distr_nonneg_l by lia. lia. }
  assert (Ct : - (t * W) <= t * (2 * (d * W - 10 * N2)) <= t * W).
  { split; [rewrite <- Z.mul_opp_r|]; apply Z.mul_le_mono_nonneg_l; lia. }
  assert (Bt : - (t * u2) <= t * (2 * (N2 - 100 * N1)) <= t * u2).
  { split; [rewrite <- Z.mul_opp_r|]; apply Z.mul_le_mono_nonneg_l; lia. }
  assert (S : - (t * W + 10 * (t * u2) + 1000 * (u1 * t))
              <= 2 * (d * t - 1000 * c) * W
              <= t * W + 10 * (t * u2) + 1000 * (u1 * t)) by lia.
  assert (SK : - (W * (K * t + 2010 * c)) <= K * (2 * (d * t - 1000 * c) * W)
               <= W * (K * t + 2010 * c)).
  { assert (E1 : K * (t * W + 10 * (t * u2) + 1000 * (u1 * t))
                 = K * t * W + 10 * (t * (u2 * K)) + 1000 * (K * (u1 * t))) by ring.
    assert (E2 : W * (K * t + 2010 * c) = K * t * W + 2010 * (c * W)) by ring.
    assert (G : K * (t * W + 10 * (t * u2) + 1000 * (u1 * t)) <= W * (K * t + 2010 * c))
      by lia.
    destruct S as [S1 S2].
    apply (Z.mul_le_mono_nonneg_l _ _ K) in S1; [|lia].
    apply (Z.mul_le_mono_nonneg_l _ _ K) in S2; [|lia].
    rewrite Z.mul_opp_r in S1. lia. }
  split.
  - assert (- (2 * (d * t - 1000 * c)) <= t); [|lia].
    apply (cancel_scale _ c t W K); unfold K in *; lia.
  - apply (cancel_scale _ c t W K); unfold K in *; lia.
Qed.

Lemma finite_shape x :
  is_finite x = true -> 0 < units x ->
  exists s m e, x = S754_finite s m e /\ -1074 <= e <= 971.
Proof.
  destruct x as [s|s| |s m e]; simpl; try lia; try discriminate.
  intros H _. exists s, m, e. split; [reflexivity|lia].
Qed.

Lemma format_1f_tenths x :
  is_finite x = true ->
  match x with S754_zero s | S754_finite s _ _ => s = false | _ => True end ->
  exists d, format_1f x = format_tenths false d /\
            Z.abs (2 * (d * 2 ^ 1074 - 10 * units x)) <= 2 ^ 1074.
Proof.
  assert (HW : 0 < 2 ^ 1074) by (apply Z.pow_pos_nonneg; lia).
  destruct x as [s|s| |s m e]; simpl; try discriminate.
  - intros _ ->. exists 0. split; [reflexivity|]. simpl (Z.abs _). lia.
  - intros H ->. exists (tenths m e). split; [reflexivity|].
    apply tenths_spec. lia.
Qed.

Lemma float_mul_100_sign s m e :
  match float_mul (S754_finite s m e) float_100 with
  | S754_zero s' | S754_finite s' _ _ => s' = s
  | _ => True
  end.
Proof.
  unfold float_mul, float_100.
  pose proof (round_ratio_sign (xorb s false)
                (Zpos m * 7036874417766400 * 2 ^ Z.max 0 (e + -46))
                (2 ^ Z.max 0 (- (e + -46)))) as H.
  rewrite xorb_false_r in *. destruct (round_ratio _ _ _); auto.
Qed.

(** For byte counts of at most [2^41] (2 TiB) the rendered percentage is
    a correct rounding of the exact percentage to one decimal place. *)
Lemma percentage_nearest_tenth current total :
  0 <= current <= 2 ^ 41 -> 0 < total <= 2 ^ 41 ->
  exists p d,
    progress current total = Ok p /\
    format_1f p = format_tenths false d /\
    Z.abs (2 * (d * total - 1000 * current)) <= total.
Proof.
  intros Hc Ht.
  assert (HW : 0 < 2 ^ 1074) by (apply Z.pow_pos_nonneg; lia).
  assert (H41 : 2 ^ 41 * 2 ^ 52 <= 2 ^ 1074).
  { rewrite <- Z.pow_add_r by lia. apply Z.pow_le_mono_r; lia. }
  assert (H1000 : 2 ^ 2074 = 2 ^ 1000 * 2 ^ 1074) by (rewrite <- Z.pow_add_r by lia; reflexivity).
  assert (P1000 : 2 ^ 43 <= 2 ^ 1000) by (apply Z.pow_le_mono_r; lia).
  assert (P1023 : 2 ^ 42 <= 2 ^ 1023) by (apply Z.pow_le_mono_r; lia).
  change (2 ^ 41) with 2199023255552 in *. change (2 ^ 52) with 4503599627370496 in H41.
  change (2 ^ 42) with 4398046511104 in P1023. change (2 ^ 43) with 8796093022208 in P1000.
  unfold progress.
  destruct (Z.eq_dec current 0) as [->|Hne].
  { exists (S754_zero false), 0. unfold int_truediv.
    destruct (Z.eqb_spec total 0); [lia|]. destruct (Z.ltb_spec total 0); [lia|].
    split; [reflexivity|]. split; [reflexivity|]. simpl (Z.abs _). lia. }
  assert (Hcb : Z.abs current < 2 ^ 1023) by (rewrite Z.abs_eq; lia).
  destruct (int_truediv_ok current total Hcb ltac:(lia)) as [-> F1].
  destruct (Z.ltb_spec current 0); [lia|]. destruct (Z.ltb_spec total 0); [lia|].
  rewrite !Z.abs_eq in * by lia. simpl xorb in *. simpl.
  assert (HL : ratio_log2 current total <= 1022) by (apply ratio_log2_fits; lia).
  destruct (round_ratio_spec false current total ltac:(lia) ltac:(lia) HL) as [_ A].
  pose proof (binade_ulp_bound current total ltac:(lia) ltac:(lia)) as U1.
  pose proof (round_ratio_positive current total ltac:(lia) ltac:(lia) HL ltac:(lia)) as Pos1.
  pose proof (round_ratio_sign false current total) as Sg1.
  set (q := round_ratio false current total) in *.
  set (u1 := 2 ^ (binade_exponent current total + 1074)) in *.
  assert (Hu1 : 0 <= u1) by (apply Z.pow_nonneg; lia).
  assert (HcW : 2 ^ 1074 <= current * 2 ^ 1074).
  { replace (2 ^ 1074) with (1 * 2 ^ 1074) at 1 by ring.
    apply Z.mul_le_mono_nonneg_r; lia. }
  rewrite Z.max_l in U1 by (change (2 ^ 52) with 4503599627370496; lia).
  destruct (finite_shape q F1 Pos1) as (s & m & e & Eq & He).
  rewrite Eq in Sg1. subst s. rewrite Eq in *. simpl units in *.
  set (N1 := Zpos m * 2 ^ (e + 1074)) in *.
  assert (HN1 : N1 < 2 ^ 2074).
  { apply Z.abs_le in A. rewrite H1000.
    assert (Hut : 0 <= u1 * total) by (apply Z.mul_nonneg_nonneg; lia).
    assert (u1 * total <= current * 2 ^ 1074).
    { change (2 ^ 52) with 4503599627370496 in U1. lia. }
    assert (N1 <= N1 * total).
    { replace N1 with (N1 * 1) at 1 by ring. apply Z.mul_le_mono_nonneg_l; lia. }
    assert (current * 2 ^ 1074 <= 2199023255552 * 2 ^ 1074)
      by (apply Z.mul_le_mono_nonneg_r; lia).
    assert (8796093022208 * 2 ^ 1074 <= 2 ^ 1000 * 2 ^ 1074)
      by (apply Z.mul_le_mono_nonneg_r; lia).
    lia. }
  destruct (float_mul_100_spec false m e ltac:(lia) HN1) as (u2 & F2 & B & U2).
  pose proof (float_mul_100_sign false m e) as Sg2.
  fold N1 in B, U2.
  destruct (format_1f_tenths (float_mul (S754_finite false m e) float_100) F2) as (d & Hd & C).
  { destruct (float_mul _ _); auto. }
  exists (float_mul (S754_finite false m e) float_100), d.
  split; [reflexivity|]. split; [exact Hd|].
  set (N2 := units (float_mul (S754_finite false m e) float_100)) in *.
  assert (Hu2 : 0 <= u2) by (pose proof (Z.abs_nonneg (2 * (N2 - 100 * N1))); lia).
  apply (tenth_chain current total d N1 N2 u1 u2 (2 ^ 1074)); try assumption;
    change (2 ^ 41) with 2199023255552; lia.
Qed.

(** ** The progress report *)

(** The rounding above agrees with the standard library's binary64
    operations on sample operands: quotients of integers (among them
    ties, subnormal results and an overflow), products and quotients of
    floats, and conversions of integers. *)
Example round_ratio_matches_SFdiv :
  map (fun ab => round_ratio false (Zpos ab.1) (Zpos ab.2)) sample_ratios
  = map (fun ab => SFdiv prec emax (S754_finite false ab.1 0) (S754_finite false ab.2 0))
        sample_ratios.
Proof. vm_compute. reflexivity. Qed.

Example float_mul_matches_SFmul :
  map (fun ab => float_mul (round_ratio false (Zpos ab.1) (Zpos ab.2)) float_100) sample_ratios
  = map (fun ab => SFmul prec emax (round_ratio false (Zpos ab.1) (Zpos ab.2)) float_100)
        sample_ratios.
Proof. vm_compute. reflexivity. Qed.

Example float_truediv_matches_SFdiv :
  map (fun ab => float_truediv (round_ratio false (Zpos ab.1) 1)
                   (round_ratio false (Zpos ab.2) 1000000)) sample_ratios
  = map (fun ab => Ok (SFdiv prec emax (round_ratio false (Zpos ab.1) 1)
                         (round_ratio false (Zpos ab.2) 1000000))) sample_ratios.
Proof. vm_compute. reflexivity. Qed.

Example float_of_int_matches_binary_normalize :
  map (fun ab => round_ratio false (Zpos ab.1) 1) sample_ratios
  = map (fun ab => binary_normalize prec emax (Zpos ab.1) 0 false) sample_ratios.
Proof. vm_compute. reflexivity. Qed.

Example float_100_is_100 : float_of_int 100 = Ok float_100.
Proof. vm_compute. reflexivity. Qed.

Example float_256000_is_256000 : float_of_int 256000 = Ok float_256000.
Proof. vm_compute. reflexivity. Qed.

Lemma progress_ok current total :
  Z.abs current < 2 ^ 1023 -> total <> 0 ->
  exists p, progress current total = Ok p.
Proof.
  intros Hc Ht. unfold progress.
  destruct (int_truediv_ok current total Hc Ht) as [-> _]. simpl. eauto.
Qed.

Lemma progress_zero_total current :
  progress current 0 = Raise (ZeroDivisionError "division by zero").
Proof. reflexivity. Qed.

(** C9: for a report with a positive total, all quantities within the
    range of a double, the text of the progress message is computed, from
    the percentage [current / total * 100] printed with one decimal and
    from the rate.  For byte counts of at most [2^41] (2 TiB) the printed
    percentage [d / 10] is a nearest one-decimal number to the exact
    percentage: it differs from [100 * current / total] by at most 1/20.
    The rate is empty when no time has elapsed (or the clock went back),
    and otherwise is [naturalsize] of the float [current / seconds]
    followed by ["/s"].  In particular 512000 of 1024000 bytes after 2
    seconds print [50.0%] and the rate of 256000.0 bytes per second. *)
Theorem progress_rendering :
  (forall (P : platform) (current total start now : Z),
     0 < total < 2 ^ 1023 -> Z.abs current < 2 ^ 1023 -> Z.abs (now - start) < 2 ^ 1023 ->
     exists p s,
       progress current total = Ok p /\
       progress_message P current total start now
         = Ok (progress_text P (format_1f p) total s) /\
       (0 <= current <= 2 ^ 41 -> total <= 2 ^ 41 ->
        exists d, format_1f p = format_tenths false d /\
                  Z.abs (2 * (d * total - 1000 * current)) <= total) /\
       (now - start <= 0 -> s = ""%string) /\
       (0 < now - start ->
        exists secs c r,
          total_seconds (now - start) = Ok secs /\ float_of_int current = Ok c /\
          float_truediv c secs = Ok r /\
          s = (naturalsize_float P r ++ "/s")%string)) /\
  (forall (P : platform) (start : Z),
     progress_message P 512000 1024000 start (start + 2000000)
       = Ok (progress_text P "50.0" 1024000 (naturalsize_float P float_256000 ++ "/s"))).
Proof.
  split.
  - intros P current total start now Ht Hc He.
    destruct (progress_ok current total Hc ltac:(lia)) as [p Hp].
    assert (Hs : exists s, speed P current (now - start) = Ok s /\
                   (now - start <= 0 -> s = ""%string) /\
                   (0 < now - start ->
                    exists secs c r,
                      total_seconds (now - start) = Ok secs /\ float_of_int current = Ok c /\
                      float_truediv c secs = Ok r /\
                      s = (naturalsize_float P r ++ "/s")%string)).
    { destruct (Z.le_gt_cases (now - start) 0) as [G|G].
      - exists ""%string. split; [now apply speed_guarded|]. split; [reflexivity|lia].
      - destruct (speed_rate P current (now - start) He Hc G) as (secs & c & r & A & B & C & D).
        exists (naturalsize_float P r ++ "/s")%string. split; [exact D|].
        split; [lia|]. intros _. exists secs, c, r. auto. }
    destruct Hs as (s & Hs & S0 & S1).
    exists p, s. split; [exact Hp|]. split.
    + unfold progress_message. rewrite Hp, Hs. reflexivity.
    + split; [|split; assumption].
      intros Hle H41.
      destruct (percentage_nearest_tenth current total Hle ltac:(lia)) as (p' & d & Hp' & Hd & B).
      rewrite Hp in Hp'. injection Hp' as <-. eauto.
  - intros P start. unfold progress_message.
    replace (start + 2000000 - start) with 2000000 by lia.
    vm_compute. reflexivity.
Qed.

Lemma progress_rendering_witness :
  exists p s,
    progress 3 2000 = Ok p /\
    progress_message (telethon_platform []) 3 2000 0 1500000
      = Ok (progress_text (telethon_platform []) (format_1f p) 2000 s) /\
    (0 <= 3 <= 2 ^ 41 -> 2000 <= 2 ^ 41 ->
     exists d, format_1f p = format_tenths false d /\
               Z.abs (2 * (d * 2000 - 1000 * 3)) <= 2000) /\
    (1500000 - 0 <= 0 -> s = ""%string) /\
    (0 < 1500000 - 0 ->
     exists secs c r,
       total_seconds (1500000 - 0) = Ok secs /\ float_of_int 3 = Ok c /\
       float_truediv c secs = Ok r /\
       s = (naturalsize_float (telethon_platform []) r ++ "/s")%string).
Proof.
  apply (proj1 progress_rendering (telethon_platform []) 3 2000 0 1500000).
  - split; vm_compute; reflexivity.
  - vm_compute. reflexivity.
  - vm_compute. reflexivity.
Defined.

(** C10: the percentage divides by [total] with no guard.  With
    [total = 0] the division raises ZeroDivisionError, and so does the
    whole callback, before it touches anything; for byte counts a
    percentage exists only when [total > 0], and then it does (within the
    range of a double).  The division by the elapsed seconds is guarded:
    when no time has elapsed the rate is empty and nothing is divided, and
    the rate never raises ZeroDivisionError. *)
Theorem progress_division_unguarded :
  (forall current, progress current 0 = Raise (ZeroDivisionError "division by zero")) /\
  (forall P current chat_id start now w,
     progress_callback P current 0 chat_id start now w
       = (Raise (ZeroDivisionError "division by zero"), w)) /\
  (forall current total,
     0 <= total -> (exists p, progress current total = Ok p) -> 0 < total) /\
  (forall current total,
     0 < total -> Z.abs current < 2 ^ 1023 -> exists p, progress current total = Ok p) /\
  (forall P current elapsed,
     Z.abs elapsed < 2 ^ 1023 -> elapsed <= 0 -> speed P current elapsed = Ok ""%string) /\
  (forall P current elapsed e,
     speed P current elapsed = Raise e -> exn_class e = "OverflowError"%string).
Proof.
  split; [exact progress_zero_total|].
  split; [reflexivity|].
  split.
  { intros current total Ht [p Hp]. destruct (Z.eq_dec total 0) as [->|]; [|lia].
    rewrite progress_zero_total in Hp. discriminate Hp. }
  split; [intros; apply progress_ok; lia|].
  split; [exact speed_guarded|exact speed_never_divides_by_zero].
Qed.

Lemma progress_division_unguarded_witness :
  progress 512000 0 = Raise (ZeroDivisionError "division by zero") /\
  progress_callback (telethon_platform []) 512000 0 1 0 2000000 empty_world
    = (Raise (ZeroDivisionError "division by zero"), empty_world) /\
  0 < 1024000 /\
  (exists p, progress 512000 1024000 = Ok p) /\
  speed (telethon_platform []) 512000 0 = Ok ""%string.
Proof.
  destruct progress_division_unguarded as (H1 & H2 & H3 & H4 & H5 & _).
  split; [apply H1|]. split; [apply H2|].
  assert (Hp : exists p, progress 512000 1024000 = Ok p).
  { apply H4; [lia|]. vm_compute. reflexivity. }
  split; [apply (H3 512000 1024000); [lia|exact Hp]|].
  split; [exact Hp|].
  apply H5; [|lia]. vm_compute. reflexivity.
Defined.

(** ** What a run keeps *)

Section Preserves.

Context (R : world -> world -> Prop) `{!PreOrder R}.

Lemma preserves_ret {A} (a : A) : preserves R (mret a : M A).
Proof. intros w. simpl. reflexivity. Qed.

Lemma preserves_raise {A} e : preserves R (raise e : M A).
Proof. intros w. simpl. reflexivity. Qed.

Lemma preserves_get {A} (f : world -> A) : preserves R (get f).
Proof. intros w. simpl. reflexivity. Qed.

Lemma preserves_lift {A} (r : result A) : preserves R (lift r).
Proof. intros w. simpl. reflexivity. Qed.

Lemma preserves_bind {A B} (c : M A) (k : A -> M B) :
  preserves R c -> (forall a, preserves R (k a)) -> preserves R (c ≫= k).
Proof.
  intros Hc Hk w. unfold mbind, M_bind, bind. specialize (Hc w).
  destruct (c w) as [[a|e] w1]; simpl in *; [|exact Hc].
  etransitivity; [exact Hc|apply Hk].
Qed.

Lemma preserves_try_except {A} (body : M A) (handler : pyexn -> M A) :
  preserves R body -> (forall e, preserves R (handler e)) ->
  preserves R (try_except body handler).
Proof.
  intros Hb Hh w. unfold try_except. specialize (Hb w).
  destruct (body w) as [[a|e] w1]; simpl in *; [exact Hb|].
  etransitivity; [exact Hb|apply Hh].
Qed.

Lemma preserves_for_each {A} (l : list A) (body : A -> M unit) :
  (forall x, preserves R (body x)) -> preserves R (for_each l body).
Proof.
  intros Hb. induction l as [|x l IH]; simpl.
  - apply (preserves_ret tt).
  - apply preserves_bind; auto.
Qed.

Lemma preserves_emit e :
  (forall w, R w (record e (apply_event e w))) -> preserves R (emit e).
Proof. intros H w. apply H. Qed.

Lemma preserves_call e o :
  (forall w, R w (record e (apply_event e w))) -> preserves R (call e o).
Proof.
  intros H. unfold call. apply preserves_bind; [now apply preserves_emit|].
  intros _. destruct o; [apply preserves_raise|apply (preserves_ret tt)].
Qed.

Lemma preserves_call_result {A} e (o : result A) :
  (forall w, R w (record e (apply_event e w))) -> preserves R (call_result e o).
Proof.
  intros H. unfold call_result. apply preserves_bind; [now apply preserves_emit|].
  intros _. destruct o; [apply preserves_ret|apply preserves_raise].
Qed.

Lemma preserves_store e o :
  (forall w, R w (record e (apply_event e w))) -> preserves R (store e o).
Proof.
  intros H. unfold store. destruct o; [apply preserves_raise|now apply preserves_emit].
Qed.

End Preserves.

#[export] Instance only_user_preorder u : PreOrder (only_user u).
Proof.
  split.
  - intros w u' _. auto.
  - intros w1 w2 w3 H12 H23 u' Hu.
    destruct (H12 u' Hu) as (A1 & B1 & C1 & D1).
    destruct (H23 u' Hu) as (A2 & B2 & C2 & D2).
    repeat split; congruence.
Qed.


Lemma only_user_event u e w :
  written_key e = None \/ written_key e = Some u ->
  only_user u w (record e (apply_event e w)).
Proof.
  intros H u' Hu.
  destruct e; simpl in *; auto;
    destruct H as [H|H]; try discriminate H; injection H as ->;
    rewrite ?lookup_insert_ne, ?lookup_delete_ne by congruence; auto.
Qed.

Ltac preserve_step solve_event :=
  lazymatch goal with
  | |- preserves _ (mret _) => apply preserves_ret; typeclasses eauto
  | |- preserves _ (ret _) => apply preserves_ret; typeclasses eauto
  | |- preserves _ (raise _) => apply preserves_raise; typeclasses eauto
  | |- preserves _ (get _) => apply preserves_get; typeclasses eauto
  | |- preserves _ (lift _) => apply preserves_lift; typeclasses eauto
  | |- preserves _ (emit _) => apply preserves_emit; intros; solve_event
  | |- preserves _ (call _ _) =>
      apply preserves_call; [typeclasses eauto|intros; solve_event]
  | |- preserves _ (call_result _ _) =>
      apply preserves_call_result; [typeclasses eauto|intros; solve_event]
  | |- preserves _ (store _ _) =>
      apply preserves_store; [typeclasses eauto|intros; solve_event]
  | |- preserves _ (for_each _ _) =>
      apply preserves_for_each; [typeclasses eauto|intros]
  | |- preserves _ (try_except _ _) =>
      apply preserves_try_except; [typeclasses eauto| |intros]
  | |- preserves _ (mbind _ _) => apply preserves_bind; [typeclasses eauto| |intros]
  | |- preserves _ (if ?x then _ else _) => destruct x
  | |- preserves _ (match ?x with _ => _ end) => destruct x
  | |- preserves _ (let '(_, _) := ?x in _) => destruct x
  end.

Ltac preserve solve_event := repeat (preserve_step solve_event).

Ltac only_user_event_tac := apply only_user_event; simpl; auto.

Lemma new_client_only_user u : preserves (only_user u) new_client.
Proof. intros w u' _. simpl. auto. Qed.

Lemma progress_callback_only_user P u current total start now :
  preserves (only_user u) (progress_callback P current total u start now).
Proof. unfold progress_callback. preserve only_user_event_tac. Qed.

Lemma process_item_only_user P u c msg :
  preserves (only_user u) (process_item P u c msg).
Proof.
  unfold process_item, download, dismiss_progress.
  preserve only_user_event_tac. apply progress_callback_only_user.
Qed.

(** X1: a handler run for user [u] changes no entry of another user in any
    of the four tables, whatever the platform answers and whether the
    handler returns or raises. *)
Theorem handlers_touch_only_their_user :
  forall (P : platform) (ADMINS : list Z) (u : Z) (text : string),
    preserves (only_user u) (start ADMINS u) /\
    preserves (only_user u) (login ADMINS u) /\
    preserves (only_user u) (logout P u) /\
    preserves (only_user u) (handle_message P ADMINS u text).
Proof.
  intros P ADMINS u text. split; [|split; [|split]].
  - unfold start. preserve only_user_event_tac.
  - unfold login. preserve only_user_event_tac.
  - unfold logout. preserve only_user_event_tac.
  - unfold handle_message, handle_links, USER_STATES_get.
    preserve only_user_event_tac.
    + apply new_client_only_user.
    + apply process_item_only_user.
Qed.

#[export] Instance adds_only_preorder Q : PreOrder (adds_only Q).
Proof.
  split.
  - intros w. exists []. split; [now rewrite app_nil_r|constructor].
  - intros w1 w2 w3 (es1 & H1 & F1) (es2 & H2 & F2).
    exists (es1 ++ es2). split; [rewrite H2, H1; now rewrite app_assoc|].
    now apply Forall_app.
Qed.

#[export] Instance sessions_kept_preorder : PreOrder sessions_kept.
Proof.
  split.
  - intros w. split; [auto|split; [auto|reflexivity]].
  - intros w1 w2 w3 (A1 & B1 & C1) (A2 & B2 & C2).
    split; [auto|split; [auto|etransitivity; eauto]].
Qed.

#[export] Instance same_login_tables_preorder : PreOrder same_login_tables.
Proof.
  split.
  - intros w. repeat split.
  - intros w1 w2 w3 (A1 & B1 & C1) (A2 & B2 & C2). repeat split; congruence.
Qed.

Lemma adds_only_event (Q : event -> Prop) e w :
  Q e -> adds_only Q w (record e (apply_event e w)).
Proof.
  intros H. exists [e]. split; [|now repeat constructor].
  destruct e; reflexivity.
Qed.

Lemma sessions_kept_event e w :
  ~ ends_session e -> sessions_kept w (record e (apply_event e w)).
Proof.
  intros H. split; [|split; [|now apply adds_only_event]].
  - intros u Hu. destruct e; simpl in *; auto.
    + destruct (decide (user_id = u)) as [->|Hne];
        [rewrite lookup_insert_eq; eauto|now rewrite lookup_insert_ne].
    + tauto.
  - intros u Hu. destruct e; simpl in *; auto.
    + destruct (decide (user_id = u)) as [->|Hne];
        [rewrite lookup_insert_eq; eauto|now rewrite lookup_insert_ne].
    + tauto.
Qed.

Lemma same_login_tables_event e w :
  progress_event e \/ written_key e = None ->
  same_login_tables w (record e (apply_event e w)).
Proof.
  intros H. destruct e; simpl in *; try (repeat split; fail);
    destruct H as [[]|H]; discriminate H.
Qed.

Ltac sessions_kept_event_tac := apply sessions_kept_event; simpl; tauto.
Ltac same_login_tables_event_tac := apply same_login_tables_event; simpl; tauto.

Lemma new_client_sessions_kept : preserves sessions_kept new_client.
Proof.
  intros w. split; [auto|split; [auto|]]. exists []. simpl.
  split; [now rewrite app_nil_r|constructor].
Qed.

Lemma progress_callback_sessions_kept P u current total start now :
  preserves sessions_kept (progress_callback P current total u start now).
Proof. unfold progress_callback. preserve sessions_kept_event_tac. Qed.

Lemma process_item_sessions_kept P u c msg :
  preserves sessions_kept (process_item P u c msg).
Proof.
  unfold process_item, download, dismiss_progress.
  preserve sessions_kept_event_tac. apply progress_callback_sessions_kept.
Qed.

(** [start], [login] and [handle_message] leave every user who has a live
    connection or a persisted record with one, and add no event that ends
    a session. *)
Lemma messages_keep_sessions :
  forall (P : platform) (ADMINS : list Z) (u : Z) (text : string),
    preserves sessions_kept (start ADMINS u) /\
    preserves sessions_kept (login ADMINS u) /\
    preserves sessions_kept (handle_message P ADMINS u text).
Proof.
  intros P ADMINS u text. split; [|split].
  - unfold start. preserve sessions_kept_event_tac.
  - unfold login. preserve sessions_kept_event_tac.
  - unfold handle_message, handle_links, USER_STATES_get.
    preserve sessions_kept_event_tac.
    + apply new_client_sessions_kept.
    + apply process_item_sessions_kept.
Qed.

Lemma progress_callback_same_login_tables P u current total start now :
  preserves same_login_tables (progress_callback P current total u start now).
Proof. unfold progress_callback. preserve same_login_tables_event_tac. Qed.

Lemma process_item_same_login_tables P u c msg :
  preserves same_login_tables (process_item P u c msg).
Proof.
  unfold process_item, download, dismiss_progress.
  preserve same_login_tables_event_tac. apply progress_callback_same_login_tables.
Qed.

Lemma handle_links_same_login_tables P u text :
  preserves same_login_tables (handle_links P u text).
Proof.
  unfold handle_links. preserve same_login_tables_event_tac.
  apply process_item_same_login_tables.
Qed.

#[export] Instance keeps_live_implies_persisted_preorder :
  PreOrder keeps_live_implies_persisted.
Proof. split; unfold keeps_live_implies_persisted; [intros w; auto|intros w1 w2 w3; auto]. Qed.

Lemma keeps_live_implies_persisted_event e w :
  keeps_persisted e w -> keeps_live_implies_persisted w (record e (apply_event e w)).
Proof. intros H Hw. now apply live_implies_persisted_step. Qed.

Ltac keeps_lip_event_tac := apply keeps_live_implies_persisted_event; exact I.

Lemma new_client_keeps_lip : preserves keeps_live_implies_persisted new_client.
Proof. intros w H. exact H. Qed.

Lemma progress_callback_keeps_lip P u current total start now :
  preserves keeps_live_implies_persisted (progress_callback P current total u start now).
Proof. unfold progress_callback. preserve keeps_lip_event_tac. Qed.

Lemma process_item_keeps_lip P u c msg :
  preserves keeps_live_implies_persisted (process_item P u c msg).
Proof.
  unfold process_item, download, dismiss_progress.
  preserve keeps_lip_event_tac. apply progress_callback_keeps_lip.
Qed.

Lemma handle_links_keeps_lip P u text :
  preserves keeps_live_implies_persisted (handle_links P u text).
Proof.
  unfold handle_links. preserve keeps_lip_event_tac. apply process_item_keeps_lip.
Qed.

(** The whole of [logout], by the answer of the collection. *)
Lemma logout_run P u w :
  logout P u w =
    match delete_one P u with
    | None => (Ok tt, replay (logout_disconnect u w
                               ++ [sessions_delete_one u; session_terminated]) w)
    | Some e => (Raise e, replay (logout_disconnect u w) w)
    end.
Proof.
  unfold logout, logout_disconnect. step.
  destruct (ACTIVE_CLIENTS w !! u) as [c|]; simpl;
    destruct (delete_one P u) as [e|]; reflexivity.
Qed.

Lemma logout_keeps_lip P u :
  preserves keeps_live_implies_persisted (logout P u).
Proof.
  intros w Hw. rewrite logout_run.
  assert (Hall : all_keep_persisted
                   (logout_disconnect u w ++ [sessions_delete_one u; session_terminated]) w).
  { unfold logout_disconnect. destruct (ACTIVE_CLIENTS w !! u) as [c|] eqn:Hc; simpl.
    - rewrite lookup_delete_eq. tauto.
    - tauto. }
  destruct (delete_one P u) as [e|]; simpl.
  - eapply live_implies_persisted_prefix; eauto.
  - eapply live_implies_persisted_prefix with (es2 := []); eauto.
    now rewrite app_nil_r.
Qed.

(** The step that handles the submitted code, as a sequence of events each
    of which keeps "live implies persisted". *)
Lemma code_step_run P ADMINS u otp w phone sent_code c :
  is_admin ADMINS u = true ->
  USER_STATES w !! u = Some (AWAITING_CODE phone sent_code c) ->
  exists es,
    handle_message P ADMINS u otp w = (Ok tt, replay es w) /\
    all_keep_persisted es w /\
    (sign_in P c phone otp = None -> update_one P u (session_save P c) = None ->
     es = [client_sign_in c phone otp;
           sessions_update_one u (session_save P c);
           set_ACTIVE_CLIENTS u c;
           reply_text "✅ Login successful!";
           set_USER_STATES u STATE_NONE]).
Proof.
  intros Ha Hst. unfold handle_message. rewrite Ha. simpl.
  erewrite bind_ok by (apply USER_STATES_get_run; exact Hst).
  step.
  destruct (sign_in P c phone otp) as [e|] eqn:Hs; simpl.
  - exists [client_sign_in c phone otp; reply_text ("❌ Error: " ++ exn_str e)].
    split; [reflexivity|]. split; [simpl; tauto|discriminate].
  - destruct (update_one P u (session_save P c)) as [e|] eqn:Hu; simpl.
    + exists [client_sign_in c phone otp; reply_text ("❌ Error: " ++ exn_str e)].
      split; [reflexivity|]. split; [simpl; tauto|discriminate].
    + exists [client_sign_in c phone otp;
              sessions_update_one u (session_save P c);
              set_ACTIVE_CLIENTS u c;
              reply_text "✅ Login successful!";
              set_USER_STATES u STATE_NONE].
      split; [reflexivity|]. split; [|reflexivity].
      simpl. rewrite lookup_insert_eq. eauto 10.
Qed.

Lemma handle_message_keeps_lip P ADMINS u text :
  preserves keeps_live_implies_persisted (handle_message P ADMINS u text).
Proof.
  intros w Hw.
  destruct (is_admin ADMINS u) eqn:Ha;
    [|now rewrite handle_message_not_admin].
  destruct (USER_STATES w !! u) as [[|phone sent_code c|]|] eqn:Hst.
  - unfold handle_message. rewrite Ha. simpl.
    erewrite bind_ok by (apply USER_STATES_get_run; exact Hst).
    revert w Hw Hst. 
    match goal with |- forall w, _ -> _ -> live_implies_persisted (?c w).2 =>
      assert (Hp : preserves keeps_live_implies_persisted c)
    end.
    { preserve keeps_lip_event_tac. apply new_client_keeps_lip. }
    intros w Hw _. now apply Hp.
  - destruct (code_step_run P ADMINS u text w phone sent_code c Ha Hst) as (es & -> & Hall & _).
    simpl. eapply live_implies_persisted_prefix with (es2 := []); eauto.
    now rewrite app_nil_r.
  - unfold handle_message. rewrite Ha. simpl.
    erewrite bind_ok by (apply USER_STATES_get_run; exact Hst).
    destruct (startswith link_prefix text); [|exact Hw].
    now apply handle_links_keeps_lip.
  - unfold handle_message, USER_STATES_get. rewrite Ha. step. rewrite Hst. simpl.
    destruct (startswith link_prefix text); [|exact Hw].
    now apply handle_links_keeps_lip.
Qed.

(** X3: every command and message handler keeps the invariant that each
    live connection has a persisted record, from any world that has it,
    whatever the platform and the collection answer and whether the
    handler returns or raises. *)
Theorem handlers_keep_live_implies_persisted
    (P : platform) (ADMINS : list Z) (u : Z) (text : string) (w : world) :
  live_implies_persisted w ->
  live_implies_persisted (start ADMINS u w).2 /\
  live_implies_persisted (login ADMINS u w).2 /\
  live_implies_persisted (logout P u w).2 /\
  live_implies_persisted (handle_message P ADMINS u text w).2.
Proof.
  intros Hw. split; [|split; [|split]].
  - revert w Hw. change (preserves keeps_live_implies_persisted (start ADMINS u)).
    unfold start. preserve keeps_lip_event_tac.
  - revert w Hw. change (preserves keeps_live_implies_persisted (login ADMINS u)).
    unfold login. preserve keeps_lip_event_tac.
  - now apply logout_keeps_lip.
  - now apply handle_message_keeps_lip.
Qed.

Lemma handlers_keep_live_implies_persisted_witness :
  live_implies_persisted (start [1] 1 world_logged_in).2 /\
  live_implies_persisted (login [1] 1 world_logged_in).2 /\
  live_implies_persisted (logout (telethon_platform three_documents) 1 world_logged_in).2 /\
  live_implies_persisted
    (handle_message (telethon_platform three_documents) [1] 1 range_10_12 world_logged_in).2.
Proof.
  apply (handlers_keep_live_implies_persisted (telethon_platform three_documents) [1] 1
           range_10_12 world_logged_in).
  intros u c H. simpl in H. apply lookup_singleton_Some in H as [<- _].
  simpl. rewrite lookup_singleton_eq. eauto.
Defined.

(** ** Logging out and logging in *)

Lemma logout_disconnect_tables u w :
  USER_STATES (replay (logout_disconnect u w) w) = USER_STATES w /\
  ACTIVE_CLIENTS (replay (logout_disconnect u w) w) = delete u (ACTIVE_CLIENTS w) /\
  PROGRESS_MESSAGES (replay (logout_disconnect u w) w) = PROGRESS_MESSAGES w /\
  sessions (replay (logout_disconnect u w) w) = sessions w /\
  log (replay (logout_disconnect u w) w) = log w ++ logout_disconnect u w.
Proof.
  unfold logout_disconnect.
  destruct (ACTIVE_CLIENTS w !! u) as [c|] eqn:Hc; simpl.
  - rewrite <- app_assoc. repeat split.
  - rewrite delete_id, app_nil_r by exact Hc. repeat split.
Qed.

(** X4: [logout] is idempotent.  When the collection accepts the delete,
    the user is left with no live connection and no persisted record; a
    second /logout returns normally as well, changes no table, and only
    issues the delete again and repeats the reply. *)
Theorem logout_twice (P : platform) (u : Z) (w : world) :
  delete_one P u = None ->
  exists w1 w2,
    logout P u w = (Ok tt, w1) /\
    ACTIVE_CLIENTS w1 !! u = None /\ sessions w1 !! u = None /\
    logout P u w1 = (Ok tt, w2) /\
    same_tables w1 w2 /\
    added w1 w2 = [sessions_delete_one u; session_terminated].
Proof.
  intros Hd.
  destruct (logout_disconnect_tables u w) as (A & B & C & D & L).
  assert (E1 : logout P u w
               = (Ok tt, replay (logout_disconnect u w
                                   ++ [sessions_delete_one u; session_terminated]) w))
    by (rewrite logout_run, Hd; reflexivity).
  set (w1 := replay (logout_disconnect u w ++ [sessions_delete_one u; session_terminated]) w)
    in *.
  assert (HA : ACTIVE_CLIENTS w1 !! u = None).
  { unfold w1, replay. rewrite fold_left_app. simpl. fold (replay (logout_disconnect u w) w).
    rewrite B. apply lookup_delete_eq. }
  assert (HS : sessions w1 !! u = None).
  { unfold w1, replay. rewrite fold_left_app. simpl. apply lookup_delete_eq. }
  exists w1, (replay [sessions_delete_one u; session_terminated] w1).
  split; [exact E1|]. split; [exact HA|]. split; [exact HS|].
  split.
  { rewrite logout_run, Hd. unfold logout_disconnect. now rewrite HA. }
  split.
  - simpl. repeat split. simpl. now apply delete_id.
  - apply added_app. simpl. now rewrite <- app_assoc.
Qed.

Lemma logout_twice_witness :
  exists w1 w2,
    logout (telethon_platform []) 999 world_with_restored_session = (Ok tt, w1) /\
    ACTIVE_CLIENTS w1 !! 999 = None /\ sessions w1 !! 999 = None /\
    logout (telethon_platform []) 999 w1 = (Ok tt, w2) /\
    same_tables w1 w2 /\
    added w1 w2 = [sessions_delete_one 999; session_terminated].
Proof.
  apply (logout_twice (telethon_platform []) 999 world_with_restored_session). reflexivity.
Defined.

(** X5: when the collection refuses the delete, [logout] raises that error
    after it has disconnected and unregistered the live connection: the
    user is told nothing, no longer has a live connection, and the
    persisted record is still there. *)
Theorem logout_store_failure (P : platform) (u : Z) (w : world) (e : pyexn) :
  delete_one P u = Some e ->
  exists w1,
    logout P u w = (Raise e, w1) /\
    ACTIVE_CLIENTS w1 !! u = None /\
    sessions w1 = sessions w /\
    USER_STATES w1 = USER_STATES w /\
    added w w1 = logout_disconnect u w /\
    replies (added w w1) = [].
Proof.
  intros Hd.
  destruct (logout_disconnect_tables u w) as (A & B & C & D & L).
  exists (replay (logout_disconnect u w) w).
  split; [rewrite logout_run, Hd; reflexivity|].
  split; [rewrite B; apply lookup_delete_eq|].
  split; [exact D|]. split; [exact A|].
  rewrite (added_app _ _ _ L). split; [reflexivity|].
  unfold logout_disconnect. destruct (ACTIVE_CLIENTS w !! u); reflexivity.
Qed.

Lemma logout_store_failure_witness :
  exists w1,
    logout failing_store_platform 999 world_with_restored_session = (Raise store_down, w1) /\
    ACTIVE_CLIENTS w1 !! 999 = None /\
    sessions w1 = sessions world_with_restored_session /\
    USER_STATES w1 = USER_STATES world_with_restored_session /\
    added world_with_restored_session w1 = logout_disconnect 999 world_with_restored_session /\
    replies (added world_with_restored_session w1) = [].
Proof.
  apply (logout_store_failure failing_store_platform 999 world_with_restored_session store_down).
  reflexivity.
Defined.

Lemma logout_user_states P u w : USER_STATES (logout P u w).2 = USER_STATES w.
Proof.
  destruct (logout_disconnect_tables u w) as (A & _).
  rewrite logout_run. destruct (delete_one P u); simpl; [exact A|].
  unfold replay. rewrite fold_left_app. simpl. exact A.
Qed.

(** X6: /logout does not cancel a login in progress.  [logout] never
    writes [USER_STATES]: a user who holds a pending code request and
    sends /logout still holds it, and the code submitted afterwards logs
    the user in with the pending connection. *)
Theorem logout_keeps_pending_login (P : platform) (ADMINS : list Z) (u : Z) (otp : string)
    (w : world) (phone sent_code : string) (c : client) :
  is_admin ADMINS u = true ->
  USER_STATES w !! u = Some (AWAITING_CODE phone sent_code c) ->
  sign_in P c phone otp = None ->
  update_one P u (session_save P c) = None ->
  exists w2,
    USER_STATES (logout P u w).2 !! u = Some (AWAITING_CODE phone sent_code c) /\
    handle_message P ADMINS u otp (logout P u w).2 = (Ok tt, w2) /\
    ACTIVE_CLIENTS w2 !! u = Some c /\
    sessions w2 !! u = Some (session_save P c) /\
    USER_STATES w2 !! u = Some STATE_NONE.
Proof.
  intros Ha Hst Hs Hu.
  assert (Hst1 : USER_STATES (logout P u w).2 !! u = Some (AWAITING_CODE phone sent_code c))
    by now rewrite logout_user_states.
  destruct (code_step_run P ADMINS u otp (logout P u w).2 phone sent_code c Ha Hst1)
    as (es & Hrun & _ & Hes).
  rewrite (Hes Hs Hu) in Hrun.
  eexists. split; [exact Hst1|]. split; [exact Hrun|].
  simpl. now rewrite !lookup_insert_eq.
Qed.

Lemma logout_keeps_pending_login_witness :
  exists w2,
    USER_STATES (logout (telethon_platform []) 1 world_awaiting_code).2 !! 1
      = Some (AWAITING_CODE "+1234567890" "code-hash" (Client 0)) /\
    handle_message (telethon_platform []) [1] 1 "12345"
      (logout (telethon_platform []) 1 world_awaiting_code).2 = (Ok tt, w2) /\
    ACTIVE_CLIENTS w2 !! 1 = Some (Client 0) /\
    sessions w2 !! 1 = Some (session_save (telethon_platform []) (Client 0)) /\
    USER_STATES w2 !! 1 = Some STATE_NONE.
Proof.
  apply (logout_keeps_pending_login (telethon_platform []) [1] 1 "12345" world_awaiting_code
           "+1234567890" "code-hash" (Client 0)); reflexivity.
Defined.


Lemma phone_step_run P ADMINS u phone w sent_code :
  is_admin ADMINS u = true ->
  USER_STATES w !! u = Some AWAITING_PHONE ->
  connect P (Client (next_client w)) = None ->
  send_code_request P (Client (next_client w)) phone = Ok sent_code ->
  exists w',
    handle_message P ADMINS u phone w = (Ok tt, w') /\
    USER_STATES w' = <[u := AWAITING_CODE phone sent_code (Client (next_client w))]>
                       (USER_STATES w) /\
    ACTIVE_CLIENTS w' = ACTIVE_CLIENTS w /\ sessions w' = sessions w /\
    PROGRESS_MESSAGES w' = PROGRESS_MESSAGES w /\
    next_client w' = S (next_client w) /\
    log w' = log w ++ [client_connect (Client (next_client w));
                       client_send_code_request (Client (next_client w)) phone;
                       set_USER_STATES u (AWAITING_CODE phone sent_code
                                            (Client (next_client w)));
                       reply_text "🔒 Enter the Telegram OTP you received:"].
Proof.
  intros Ha Hst Hc Hs. unfold handle_message. rewrite Ha. simpl.
  erewrite bind_ok by (apply USER_STATES_get_run; exact Hst).
  step. unfold new_client. rewrite Hc. simpl. rewrite Hs. simpl.
  eexists. split; [reflexivity|]. simpl. rewrite <- !app_assoc. repeat split.
Qed.

(** X7: the login conversation composes.  For an allowed user, /login,
    then a phone number for which the connection opens and the code is
    requested, then a code with which the sign-in and the upsert succeed,
    all return normally; afterwards the user's live connection is the one
    opened for the phone number, the persisted record is that connection's
    saved session, the login state is cleared, and the user has received
    exactly the three prompts. *)
Theorem login_conversation (P : platform) (ADMINS : list Z) (u : Z) (phone otp : string)
    (w : world) (sent_code : string) :
  is_admin ADMINS u = true ->
  connect P (Client (next_client w)) = None ->
  send_code_request P (Client (next_client w)) phone = Ok sent_code ->
  sign_in P (Client (next_client w)) phone otp = None ->
  update_one P u (session_save P (Client (next_client w))) = None ->
  exists w1 w2 w3,
    login ADMINS u w = (Ok tt, w1) /\
    handle_message P ADMINS u phone w1 = (Ok tt, w2) /\
    handle_message P ADMINS u otp w2 = (Ok tt, w3) /\
    ACTIVE_CLIENTS w3 !! u = Some (Client (next_client w)) /\
    sessions w3 !! u = Some (session_save P (Client (next_client w))) /\
    USER_STATES w3 !! u = Some STATE_NONE /\
    replies (added w w3) = login_prompts.
Proof.
  intros Ha Hc Hsc Hs Hu.
  set (c := Client (next_client w)) in *.
  set (w1 := (login ADMINS u w).2).
  assert (E1 : login ADMINS u w = (Ok tt, w1)).
  { unfold w1, login. rewrite Ha. reflexivity. }
  assert (Hst1 : USER_STATES w1 !! u = Some AWAITING_PHONE).
  { unfold w1, login. rewrite Ha. simpl. apply lookup_insert_eq. }
  assert (Hn1 : next_client w1 = next_client w).
  { unfold w1, login. rewrite Ha. reflexivity. }
  assert (L1 : log w1 = log w ++ [set_USER_STATES u AWAITING_PHONE;
                 reply_text "📱 Please send your phone number (e.g., +1234567890):"]).
  { unfold w1, login. rewrite Ha. simpl. now rewrite <- app_assoc. }
  destruct (phone_step_run P ADMINS u phone w1 sent_code Ha Hst1) as
    (w2 & E2 & U2 & A2 & S2 & _ & _ & L2); try (rewrite Hn1; assumption).
  rewrite Hn1 in U2, L2. fold c in U2, L2.
  assert (Hst2 : USER_STATES w2 !! u = Some (AWAITING_CODE phone sent_code c))
    by (rewrite U2; apply lookup_insert_eq).
  destruct (code_step_run P ADMINS u otp w2 phone sent_code c Ha Hst2) as (es & E3 & _ & Hes).
  rewrite (Hes Hs Hu) in E3.
  exists w1, w2. eexists. split; [exact E1|]. split; [exact E2|]. split; [exact E3|].
  simpl. rewrite !lookup_insert_eq. repeat split.
  unfold added. simpl. rewrite L2, L1. rewrite <- !app_assoc. rewrite drop_app_length.
  reflexivity.
Qed.

Lemma login_conversation_witness :
  exists w1 w2 w3,
    login [1] 1 empty_world = (Ok tt, w1) /\
    handle_message (telethon_platform []) [1] 1 "+1234567890" w1 = (Ok tt, w2) /\
    handle_message (telethon_platform []) [1] 1 "12345" w2 = (Ok tt, w3) /\
    ACTIVE_CLIENTS w3 !! 1 = Some (Client (next_client empty_world)) /\
    sessions w3 !! 1
      = Some (session_save (telethon_platform []) (Client (next_client empty_world))) /\
    USER_STATES w3 !! 1 = Some STATE_NONE /\
    replies (added empty_world w3) = login_prompts.
Proof.
  apply (login_conversation (telethon_platform []) [1] 1 "+1234567890" "12345" empty_world
           "code-hash"); reflexivity.
Defined.

(** ** Requests outside the login conversation *)

Lemma USER_STATES_get_bind {B} u (k : user_state -> M B) w :
  (USER_STATES_get u ≫= k) w = k (default STATE_NONE (USER_STATES w !! u)) w.
Proof. reflexivity. Qed.

Lemma get_bind {A B} (f : world -> A) (k : A -> M B) w : (get f ≫= k) w = k (f w) w.
Proof. reflexivity. Qed.

(** Turns a goal about one run into a goal about the computation. *)
Ltac as_preserves :=
  lazymatch goal with
  | |- ?R ?w (?c ?w).2 => generalize w; change (preserves R c)
  end.

(** X8: a message handled outside the login conversation leaves the login
    state, the live connections and the persisted records as they are,
    whatever it contains and however the enumeration and the downloads
    end. *)
Theorem range_request_keeps_login_tables (P : platform) (ADMINS : list Z) (u : Z)
    (text : string) (w : world) :
  default STATE_NONE (USER_STATES w !! u) = STATE_NONE ->
  same_login_tables w (handle_message P ADMINS u text w).2.
Proof.
  intros Hst. unfold handle_message.
  destruct (is_admin ADMINS u); cbn [negb]; [|reflexivity].
  rewrite USER_STATES_get_bind, Hst.
  destruct (startswith link_prefix text); [|reflexivity].
  as_preserves. apply handle_links_same_login_tables.
Qed.

Lemma range_request_keeps_login_tables_witness :
  same_login_tables world_logged_in
    (handle_message (telethon_platform three_documents) [1] 1 range_10_12 world_logged_in).2.
Proof.
  apply (range_request_keeps_login_tables (telethon_platform three_documents) [1] 1
           range_10_12 world_logged_in).
  reflexivity.
Defined.

#[export] Instance same_sessions_preorder : PreOrder same_sessions.
Proof.
  split.
  - intros w. now split.
  - intros w1 w2 w3 [A1 B1] [A2 B2]. split; congruence.
Qed.

Lemma same_sessions_event e w :
  match e with
  | set_ACTIVE_CLIENTS _ _ | del_ACTIVE_CLIENTS _
  | sessions_update_one _ _ | sessions_delete_one _ => False
  | _ => True
  end ->
  same_sessions w (record e (apply_event e w)).
Proof. destruct e; simpl; intros H; try contradiction; now split. Qed.

Ltac same_sessions_event_tac := apply same_sessions_event; exact I.

Lemma new_client_same_sessions : preserves same_sessions new_client.
Proof. intros w. now split. Qed.

(** X2: [start], [login] and [handle_message] never end a session.
    Whatever the platform answers, the run adds no disconnect, no removal
    from [ACTIVE_CLIENTS] and no delete on the collection.  [start] and
    [login] leave the live connections and the persisted records exactly
    as they are.  So does [handle_message], with one exception: the step
    that completes a login replaces the user's live connection by the
    pending one and the user's record by its saved session, and the
    connection it replaces is not disconnected. *)
Theorem messages_never_end_a_session (P : platform) (ADMINS : list Z) (u : Z)
    (text : string) (w : world) :
  (same_sessions w (start ADMINS u w).2 /\
   adds_only (fun e => ~ ends_session e) w (start ADMINS u w).2) /\
  (same_sessions w (login ADMINS u w).2 /\
   adds_only (fun e => ~ ends_session e) w (login ADMINS u w).2) /\
  ((same_sessions w (handle_message P ADMINS u text w).2 \/
    login_completed P u w (handle_message P ADMINS u text w).2) /\
   adds_only (fun e => ~ ends_session e) w (handle_message P ADMINS u text w).2).
Proof.
  destruct (messages_keep_sessions P ADMINS u text) as (K1 & K2 & K3).
  split; [|split]; (split; [|first [apply K1|apply K2|apply K3]]).
  - as_preserves. unfold start. preserve same_sessions_event_tac.
  - as_preserves. unfold login. preserve same_sessions_event_tac.
  - unfold handle_message.
    destruct (is_admin ADMINS u); cbn [negb]; [|left; reflexivity].
    rewrite USER_STATES_get_bind.
    destruct (default STATE_NONE (USER_STATES w !! u)) as [|phone sent_code c|] eqn:Hst.
    + left. as_preserves. preserve same_sessions_event_tac. apply new_client_same_sessions.
    + assert (Hu : USER_STATES w !! u = Some (AWAITING_CODE phone sent_code c)).
      { destruct (USER_STATES w !! u); simpl in Hst; [now subst|discriminate]. }
      step. destruct (sign_in P c phone text); simpl; [left; now split|].
      destruct (update_one P u (session_save P c)); simpl; [left; now split|].
      right. exists phone, sent_code, c. now split.
    + left. destruct (startswith link_prefix text); [|reflexivity].
      destruct (handle_links_same_login_tables P u text w) as (_ & A & B). now split.
Qed.

(** X9: the enumeration is not guarded.  When [iter_messages] raises, the
    handler raises the same exception: the user gets no reply, nothing is
    downloaded, and no table changes. *)
Theorem enumeration_failure_propagates (P : platform) (ADMINS : list Z) (u : Z)
    (text l0 l1 : string) (w : world) (c : client) (chat_id start_id chat_id' end_id : option Z)
    (e : pyexn) :
  is_admin ADMINS u = true ->
  default STATE_NONE (USER_STATES w !! u) = STATE_NONE ->
  startswith link_prefix text = true ->
  split (ascii_of_nat 10) (strip text) = [l0; l1] ->
  parse_tg_link l0 = Ok (chat_id, start_id) ->
  parse_tg_link l1 = Ok (chat_id', end_id) ->
  ACTIVE_CLIENTS w !! u = Some c ->
  iter_messages P c chat_id start_id end_id = Raise e ->
  exists w',
    handle_message P ADMINS u text w = (Raise e, w') /\
    same_tables w w' /\
    replies (added w w') = [] /\
    downloads (added w w') = [] /\
    enumerations (added w w') = [(chat_id, start_id, end_id)].
Proof.
  intros Ha Hst Hp Hs H0 H1 Hc Hi.
  rewrite (handle_message_links P ADMINS u text w Ha Hst Hp).
  rewrite (handle_links_enumerates P u text w l0 l1 c _ _ _ _ Hs H0 H1 Hc).
  step. rewrite Hi. simpl.
  eexists. split; [reflexivity|]. split; [repeat split|].
  unfold added. simpl. rewrite drop_app_length. repeat split.
Qed.

Lemma enumeration_failure_propagates_witness :
  exists w',
    handle_message unreachable_platform [1] 1 range_10_12 world_logged_in
      = (Raise unreachable, w') /\
    same_tables world_logged_in w' /\
    replies (added world_logged_in w') = [] /\
    downloads (added world_logged_in w') = [] /\
    enumerations (added world_logged_in w') = [(Some 5, Some 10, Some 12)].
Proof.
  apply (enumeration_failure_propagates unreachable_platform [1] 1 range_10_12
           "https://t.me/c/5/10" "https://t.me/c/5/12" world_logged_in (Client 0)
           (Some 5) (Some 10) (Some 5) (Some 12) unreachable);
    reflexivity.
Defined.

#[export] Instance fetches_nothing_preorder : PreOrder fetches_nothing.
Proof. unfold fetches_nothing. apply _. Qed.

Lemma fetches_nothing_event e w :
  ~ fetches e -> fetches_nothing w (record e (apply_event e w)).
Proof. intros H. now apply adds_only_event. Qed.

Ltac fetches_nothing_event_tac := apply fetches_nothing_event; simpl; tauto.

Lemma new_client_fetches_nothing : preserves fetches_nothing new_client.
Proof. intros w. exists []. simpl. now rewrite app_nil_r. Qed.

Lemma fetches_nothing_added w w' :
  fetches_nothing w w' ->
  enumerations (added w w') = [] /\ downloads (added w w') = [] /\
  documents (added w w') = [].
Proof.
  intros (es & Hl & Hes). rewrite (added_app _ _ _ Hl). clear Hl.
  induction Hes as [|e es He _ IH]; [easy|].
  destruct IH as (H1 & H2 & H3).
  destruct e; simpl in *; rewrite ?H1, ?H2, ?H3; try tauto.
Qed.

(** X10: nothing is read from a chat and no file is forwarded unless the
    sender is on the allow-list, is in no login step, sent a text that
    starts with the link prefix and strips to exactly two lines, and has a
    live connection. *)
Theorem fetch_requires_login (P : platform) (ADMINS : list Z) (u : Z) (text : string)
    (w : world) :
  is_admin ADMINS u = false \/
  default STATE_NONE (USER_STATES w !! u) <> STATE_NONE \/
  startswith link_prefix text = false \/
  length (split (ascii_of_nat 10) (strip text)) <> 2%nat \/
  ACTIVE_CLIENTS w !! u = None ->
  fetches_nothing w (handle_message P ADMINS u text w).2 /\
  enumerations (added w (handle_message P ADMINS u text w).2) = [] /\
  downloads (added w (handle_message P ADMINS u text w).2) = [] /\
  documents (added w (handle_message P ADMINS u text w).2) = [].
Proof.
  intros H.
  assert (G : fetches_nothing w (handle_message P ADMINS u text w).2);
    [|split; [exact G|now apply fetches_nothing_added]].
  unfold handle_message.
  destruct (is_admin ADMINS u) eqn:Ha; cbn [negb]; [|reflexivity].
  rewrite USER_STATES_get_bind.
  destruct (default STATE_NONE (USER_STATES w !! u)) eqn:Hst.
  - as_preserves. preserve fetches_nothing_event_tac. apply new_client_fetches_nothing.
  - as_preserves. preserve fetches_nothing_event_tac.
  - destruct (startswith link_prefix text) eqn:Hp; [|reflexivity].
    destruct H as [H|[H|[H|[H|H]]]]; try congruence.
    + rewrite handle_links_rejects by exact H. simpl.
      exists [reply_text "❌ Send exactly 2 message links (start and end)."].
      split; [reflexivity|]. repeat constructor. simpl. tauto.
    + unfold handle_links.
      destruct (negb _).
      * as_preserves. preserve fetches_nothing_event_tac.
      * destruct (parse_tg_link (nth 0 _ _)) as [[chat_id start_id]|e]; [|reflexivity].
        erewrite bind_ok by reflexivity. cbv beta iota.
        destruct (parse_tg_link (nth 1 _ _)) as [[x end_id]|e]; [|reflexivity].
        erewrite bind_ok by reflexivity. cbv beta iota.
        rewrite get_bind, H.
        exists [reply_text "❌ Not logged in! Use /login first."].
        split; [reflexivity|]. repeat constructor. simpl. tauto.
Qed.

Lemma fetch_requires_login_witness :
  fetches_nothing world_awaiting_code
    (handle_message (telethon_platform three_documents) [1] 1 range_10_12
       world_awaiting_code).2 /\
  enumerations (added world_awaiting_code
    (handle_message (telethon_platform three_documents) [1] 1 range_10_12
       world_awaiting_code).2) = [] /\
  downloads (added world_awaiting_code
    (handle_message (telethon_platform three_documents) [1] 1 range_10_12
       world_awaiting_code).2) = [] /\
  documents (added world_awaiting_code
    (handle_message (telethon_platform three_documents) [1] 1 range_10_12
       world_awaiting_code).2) = [].
Proof.
  apply (fetch_requires_login (telethon_platform three_documents) [1] 1 range_10_12
           world_awaiting_code).
  right. left. simpl. discriminate.
Defined.

(** ** The progress message of a download *)

Lemma replay_app es1 es2 w : replay (es1 ++ es2) w = replay es2 (replay es1 w).
Proof. unfold replay. apply fold_left_app. Qed.

Lemma replay_log es : forall w, log (replay es w) = log w ++ es.
Proof.
  induction es as [|e es IH]; intros w; simpl; [now rewrite app_nil_r|].
  change (log (replay es (record e (apply_event e w))) = log w ++ e :: es).
  rewrite IH. simpl. destruct e; simpl; now rewrite <- app_assoc.
Qed.

Lemma replay_edits u i texts : forall w,
  PROGRESS_MESSAGES (replay (map (edit_message_text u i) texts) w) = PROGRESS_MESSAGES w /\
  next_message_id (replay (map (edit_message_text u i) texts) w) = next_message_id w.
Proof.
  induction texts as [|t texts IH]; intros w; [easy|].
  change (replay (map (edit_message_text u i) (t :: texts)) w)
    with (replay (map (edit_message_text u i) texts) (record (edit_message_text u i t) w)).
  destruct (IH (record (edit_message_text u i t) w)) as [-> ->]. easy.
Qed.

Lemma progress_callback_raises P current total u start now w e :
  progress_message P current total start now = Raise e ->
  progress_callback P current total u start now w = (Raise e, w).
Proof. intros H. unfold progress_callback. rewrite H. reflexivity. Qed.

Lemma progress_callback_edits P current total u start now w text i :
  progress_message P current total start now = Ok text ->
  PROGRESS_MESSAGES w !! u = Some (Some i) ->
  progress_callback P current total u start now w
    = (Ok tt, record (edit_message_text u i text) w).
Proof. intros H Hk. unfold progress_callback. rewrite H. step. now rewrite Hk. Qed.

Lemma progress_callback_sends P current total u start now w text :
  progress_message P current total start now = Ok text ->
  PROGRESS_MESSAGES w !! u = Some None ->
  progress_callback P current total u start now w
    = (Ok tt, replay [send_message u text (next_message_id w);
                      set_PROGRESS_MESSAGES u (Some (next_message_id w))] w).
Proof. intros H Hk. unfold progress_callback. rewrite H. step. now rewrite Hk. Qed.

(** Reports made once the progress message is known only edit it. *)
Lemma progress_edits_run P u start i ticks : forall w,
  PROGRESS_MESSAGES w !! u = Some (Some i) ->
  for_each ticks (fun t => progress_callback P (tick_current t) (tick_total t) u start
                             (tick_now t)) w
  = (match first_tick_error P start ticks with None => Ok tt | Some e => Raise e end,
     replay (map (edit_message_text u i) (tick_texts P start ticks)) w).
Proof.
  induction ticks as [|t ticks IH]; intros w Hk; [reflexivity|].
  cbn [for_each first_tick_error tick_texts].
  destruct (progress_message P (tick_current t) (tick_total t) start (tick_now t))
    as [text|e] eqn:Hm.
  - erewrite bind_ok by (apply progress_callback_edits; eassumption).
    rewrite IH by exact Hk. reflexivity.
  - erewrite bind_raise by (apply progress_callback_raises; eassumption). reflexivity.
Qed.

(** The reports of a download that starts with no progress message. *)
Lemma progress_reports_exact P u start ticks w :
  PROGRESS_MESSAGES w !! u = Some None ->
  for_each ticks (fun t => progress_callback P (tick_current t) (tick_total t) u start
                             (tick_now t)) w
  = (match first_tick_error P start ticks with None => Ok tt | Some e => Raise e end,
     replay (progress_reports u (next_message_id w) (tick_texts P start ticks)) w).
Proof.
  intros Hk. destruct ticks as [|t ticks]; [reflexivity|].
  cbn [for_each first_tick_error tick_texts].
  destruct (progress_message P (tick_current t) (tick_total t) start (tick_now t))
    as [text|e] eqn:Hm.
  - erewrite bind_ok by (apply progress_callback_sends; eassumption).
    rewrite (progress_edits_run P u start (next_message_id w)); [reflexivity|].
    simpl. apply lookup_insert_eq.
  - erewrite bind_raise by (apply progress_callback_raises; eassumption). reflexivity.
Qed.

Lemma progress_reports_tables u i texts w :
  PROGRESS_MESSAGES (replay (progress_reports u i texts) w)
    = match texts with
      | [] => PROGRESS_MESSAGES w
      | _ :: _ => <[u := Some i]> (PROGRESS_MESSAGES w)
      end.
Proof.
  destruct texts as [|t texts]; [reflexivity|].
  unfold progress_reports.
  change (replay (?a :: ?b :: ?l) w) with (replay l (replay [a; b] w)).
  now destruct (replay_edits u i texts
                  (replay [send_message u t i; set_PROGRESS_MESSAGES u (Some i)] w)) as [-> _].
Qed.

Lemma sent_messages_app a b : sent_messages (a ++ b) = sent_messages a ++ sent_messages b.
Proof. apply flat_map_app. Qed.
Lemma edited_messages_app a b :
  edited_messages (a ++ b) = edited_messages a ++ edited_messages b.
Proof. apply flat_map_app. Qed.
Lemma deleted_messages_app a b :
  deleted_messages (a ++ b) = deleted_messages a ++ deleted_messages b.
Proof. apply flat_map_app. Qed.

Lemma progress_reports_messages u i texts :
  sent_messages (progress_reports u i texts)
    = match texts with [] => [] | _ :: _ => [(u, i)] end /\
  edited_messages (progress_reports u i texts) = replicate (length texts - 1) (u, i) /\
  deleted_messages (progress_reports u i texts) = [].
Proof.
  destruct texts as [|t texts]; [easy|]. simpl. rewrite Nat.sub_0_r.
  induction texts as [|t' texts (IH1 & IH2 & IH3)]; [easy|].
  simpl in *. rewrite IH2, IH3. split; [|easy].
  injection IH1 as IH1. now rewrite IH1.
Qed.

Lemma dismiss_progress_exact u w :
  dismiss_progress u w
  = (Ok tt, replay match PROGRESS_MESSAGES w !! u with
                   | Some (Some i) =>
                       if i =? 0 then [] else [delete_message u i; del_PROGRESS_MESSAGES u]
                   | _ => []
                   end w).
Proof.
  unfold dismiss_progress. rewrite get_bind.
  destruct (PROGRESS_MESSAGES w !! u) as [[i|]|]; try reflexivity.
  destruct (i =? 0); reflexivity.
Qed.

(** A download that starts with no progress message, event by event. *)
Lemma download_exact P c msg u w :
  PROGRESS_MESSAGES w !! u = Some None ->
  download P c msg u (start_time P msg) w
  = (download_outcome P c msg,
     replay (client_download_media c msg
               :: progress_reports u (next_message_id w)
                    (tick_texts P (start_time P msg) (download_media P c msg).1)) w).
Proof.
  intros Hk. unfold download, download_outcome.
  rewrite (bind_ok _ _ _ _ _ (emit_run _ _)).
  set (w1 := record _ (apply_event (client_download_media c msg) w)).
  change (replay (?a :: ?l) w) with (replay l w1).
  change (next_message_id w) with (next_message_id w1).
  pose proof (progress_reports_exact P u (start_time P msg) (download_media P c msg).1 w1 Hk)
    as Hr.
  destruct (first_tick_error P (start_time P msg) (download_media P c msg).1) as [e|].
  - now rewrite (bind_raise _ _ _ _ _ Hr).
  - rewrite (bind_ok _ _ _ _ _ Hr). reflexivity.
Qed.

(** What one turn of the loop adds to the log, event by event, when the
    file name can be computed. *)
Lemma process_item_exact P u c msg w filename :
  item_filename P msg = Ok filename ->
  let texts := tick_texts P (start_time P msg) (download_media P c msg).1 in
  let i := next_message_id w in
  process_item P u c msg w
  = (Ok tt,
     replay (set_PROGRESS_MESSAGES u None :: client_download_media c msg
               :: progress_reports u i texts
               ++ match download_outcome P c msg with
                  | Ok file_path =>
                      match texts with
                      | [] => []
                      | _ :: _ => if i =? 0 then []
                                  else [delete_message u i; del_PROGRESS_MESSAGES u]
                      end
                      ++ [reply_text ("✅ Saved: " ++ filename);
                          send_document u file_path filename]
                  | Raise e =>
                      [reply_text ("❌ Failed to download " ++ filename ++ ": "
                                   ++ exn_str e)]
                  end) w).
Proof.
  intros Hf texts i. unfold process_item. fold (item_filename P msg). rewrite Hf.
  erewrite bind_ok by reflexivity. cbv zeta.
  rewrite (bind_ok _ _ _ _ _ (emit_run _ _)).
  set (w0 := record _ (apply_event (set_PROGRESS_MESSAGES u None) w)).
  assert (H0 : PROGRESS_MESSAGES w0 !! u = Some None) by apply lookup_insert_eq.
  change (replay (?a :: ?l) w) with (replay l w0).
  change (replay (?a :: ?l ++ ?r) w0) with (replay ((a :: l) ++ r) w0).
  rewrite replay_app.
  pose proof (download_exact P c msg u w0 H0) as Hd.
  change (next_message_id w0) with i in Hd. fold texts in Hd.
  pose proof (progress_reports_tables u i texts
                (record (client_download_media c msg) w0)) as Ht.
  change (record (client_download_media c msg) w0)
    with (replay [client_download_media c msg] w0) in Ht.
  rewrite <- replay_app in Ht. simpl app in Ht.
  set (w2 := replay (client_download_media c msg :: progress_reports u i texts) w0) in *.
  unfold try_except.
  destruct (download_outcome P c msg) as [file_path|e].
  - rewrite (bind_ok _ _ _ _ _ Hd). rewrite replay_app.
    rewrite (bind_ok _ _ _ _ _ (dismiss_progress_exact _ _)), Ht.
    destruct texts as [|t texts'].
    + change (PROGRESS_MESSAGES (replay [client_download_media c msg] w0))
        with (PROGRESS_MESSAGES w0).
      rewrite H0. reflexivity.
    + rewrite lookup_insert_eq. destruct (i =? 0); reflexivity.
  - rewrite (bind_raise _ _ _ _ _ Hd). reflexivity.
Qed.

(** X11: the life of a progress message.  One turn of the loop sends at most
    one progress message, with the id the bot API hands out next, and every
    later report edits that message.  When the download succeeds the
    message is deleted and the user's entry is removed from
    [PROGRESS_MESSAGES]; when the download fails, or one of its reports
    raises, the message is never deleted and the entry still names it.  A
    download without a report leaves the entry [None].  A turn whose file
    name cannot be computed raises before all that and changes nothing. *)
Theorem progress_message_lifecycle (P : platform) (u : Z) (c : client) (msg : message)
    (w : world) :
  next_message_id w <> 0 ->
  let texts := tick_texts P (start_time P msg) (download_media P c msg).1 in
  let i := next_message_id w in
  let w' := (process_item P u c msg w).2 in
  match item_filename P msg with
  | Ok _ =>
      sent_messages (added w w') = match texts with [] => [] | _ :: _ => [(u, i)] end /\
      edited_messages (added w w') = replicate (length texts - 1) (u, i) /\
      deleted_messages (added w w')
        = match download_outcome P c msg, texts with
          | Ok _, _ :: _ => [(u, i)]
          | _, _ => []
          end /\
      PROGRESS_MESSAGES w' !! u
        = match download_outcome P c msg, texts with
          | _, [] => Some None
          | Ok _, _ :: _ => None
          | Raise _, _ :: _ => Some (Some i)
          end
  | Raise e => process_item P u c msg w = (Raise e, w)
  end.
Proof.
  intros Hi texts i w'.
  destruct (item_filename P msg) as [filename|e0] eqn:Hf.
  2: { pose proof (process_item_run P u c msg w) as H. now rewrite Hf in H. }
  unfold w'. rewrite (process_item_exact P u c msg w filename Hf). fold texts. fold i.
  cbn [snd].
  rewrite (added_app _ _ _ (replay_log _ _)).
  destruct (progress_reports_messages u i texts) as (S1 & S2 & S3).
  apply Z.eqb_neq in Hi. fold i in Hi.
  change (?a :: ?b :: ?l ++ ?r) with ([a; b] ++ l ++ r).
  rewrite !sent_messages_app, !edited_messages_app, !deleted_messages_app, S1, S2, S3.
  rewrite !replay_app.
  pose proof (progress_reports_tables u i texts
                (replay [set_PROGRESS_MESSAGES u None; client_download_media c msg] w)) as Ht.
  set (w2 := replay (progress_reports u i texts) _) in *.
  clearbody w2.
  destruct (download_outcome P c msg) as [file_path|e].
  - rewrite replay_app, !sent_messages_app, !edited_messages_app, !deleted_messages_app.
    destruct texts as [|t texts']; cbn [app].
    + simpl. rewrite Ht. simpl. now rewrite lookup_insert_eq.
    + rewrite Hi. simpl. rewrite app_nil_r, Ht, lookup_delete_eq. easy.
  - simpl. rewrite !app_nil_r, Ht.
    destruct texts as [|t texts']; simpl; now rewrite !lookup_insert_eq.
Qed.

Lemma progress_message_lifecycle_witness :
  sent_messages (added world_logged_in
                   (process_item reporting_platform 1 (Client 0) (document 11 "b.bin")
                      world_logged_in).2)
    = match tick_texts reporting_platform
              (start_time reporting_platform (document 11 "b.bin"))
              (download_media reporting_platform (Client 0) (document 11 "b.bin")).1 with
      | [] => []
      | _ :: _ => [(1, next_message_id world_logged_in)]
      end /\
  edited_messages (added world_logged_in
                     (process_item reporting_platform 1 (Client 0) (document 11 "b.bin")
                        world_logged_in).2)
    = replicate
        (length (tick_texts reporting_platform
                   (start_time reporting_platform (document 11 "b.bin"))
                   (download_media reporting_platform (Client 0) (document 11 "b.bin")).1) - 1)
        (1, next_message_id world_logged_in) /\
  deleted_messages (added world_logged_in
                      (process_item reporting_platform 1 (Client 0) (document 11 "b.bin")
                         world_logged_in).2)
    = match download_outcome reporting_platform (Client 0) (document 11 "b.bin"),
            tick_texts reporting_platform
              (start_time reporting_platform (document 11 "b.bin"))
              (download_media reporting_platform (Client 0) (document 11 "b.bin")).1 with
      | Ok _, _ :: _ => [(1, next_message_id world_logged_in)]
      | _, _ => []
      end /\
  PROGRESS_MESSAGES (process_item reporting_platform 1 (Client 0) (document 11 "b.bin")
                       world_logged_in).2 !! 1
    = match download_outcome reporting_platform (Client 0) (document 11 "b.bin"),
            tick_texts reporting_platform
              (start_time reporting_platform (document 11 "b.bin"))
              (download_media reporting_platform (Client 0) (document 11 "b.bin")).1 with
      | _, [] => Some None
      | Ok _, _ :: _ => None
      | Raise _, _ :: _ => Some (Some (next_message_id world_logged_in))
      end.
Proof.
  apply (progress_message_lifecycle reporting_platform 1 (Client 0) (document 11 "b.bin")
           world_logged_in).
  simpl. lia.
Defined.

(** The three reports of [reporting_platform], and what is left of a
    download that fails after one report. *)
Example three_reports_one_message :
  sent_messages (added world_logged_in
                   (process_item reporting_platform 1 (Client 0) (document 11 "b.bin")
                      world_logged_in).2) = [(1, 1)] /\
  edited_messages (added world_logged_in
                     (process_item reporting_platform 1 (Client 0) (document 11 "b.bin")
                        world_logged_in).2) = [(1, 1); (1, 1)] /\
  deleted_messages (added world_logged_in
                      (process_item reporting_platform 1 (Client 0) (document 11 "b.bin")
                         world_logged_in).2) = [(1, 1)] /\
  deleted_messages (added world_logged_in
                      (process_item flaky_platform 1 (Client 0) (document 11 "b.bin")
                         world_logged_in).2) = [] /\
  PROGRESS_MESSAGES (process_item flaky_platform 1 (Client 0) (document 11 "b.bin")
                       world_logged_in).2 !! 1 = Some (Some 1).
Proof. vm_compute. repeat split. Qed.

(** ** The range of the percentage *)

(** X12: the printed percentage stays within its range.  For byte counts of
    at most [2^41] with [0 <= current <= total], the percentage is
    computed and prints as [d / 10] with [0 <= d <= 1000]: nothing before
    the first byte prints [0.0], a complete download prints [100.0], and no
    report prints more than [100.0]. *)
Theorem percentage_within_range (current total : Z) :
  0 <= current <= total -> 0 < total <= 2 ^ 41 ->
  exists p d,
    progress current total = Ok p /\
    format_1f p = format_tenths false d /\
    0 <= d <= 1000 /\
    (current = 0 -> format_1f p = "0.0"%string) /\
    (current = total -> format_1f p = "100.0"%string).
Proof.
  intros Hc Ht.
  destruct (percentage_nearest_tenth current total ltac:(lia) Ht) as (p & d & Hp & Hf & Hd).
  exists p, d. split; [exact Hp|]. split; [exact Hf|].
  assert (Hr : 0 <= d <= 1000) by nia.
  split; [exact Hr|]. split.
  - intros ->. assert (d = 0) as -> by nia. now rewrite Hf.
  - intros ->. assert (d = 1000) as -> by nia. now rewrite Hf.
Qed.

Lemma percentage_within_range_witness :
  exists p d,
    progress 1024000 1024000 = Ok p /\
    format_1f p = format_tenths false d /\
    0 <= d <= 1000 /\
    (1024000 = 0 -> format_1f p = "0.0"%string) /\
    (1024000 = 1024000 -> format_1f p = "100.0"%string).
Proof.
  apply (percentage_within_range 1024000 1024000); [lia|].
  split; [lia|]. vm_compute. discriminate.
Defined.

(** ** Links *)

Lemma decimal_value_range cp d : decimal_value cp = Some d -> 0 <= d <= 9.
Proof.
  unfold decimal_value.
  destruct (List.find _ decimal_zeros) as [z|] eqn:Hz; [|discriminate].
  apply find_some in Hz as [_ Hz]. intros [= <-]. lia.
Qed.

Lemma decimal_at_ascii c s :
  isdigit c = true -> decimal_at (String c s) = Some (byte c - 48, 1%nat).
Proof.
  destruct c as [[] [] [] [] [] [] [] []]; intros H; try discriminate H; reflexivity.
Qed.

Lemma span_digits_nonneg s : forall skip,
  Forall (fun d => 0 <= d) (span_digits_from skip s).1.
Proof.
  induction s as [|c s IH]; intros skip; [constructor|].
  cbn [span_digits_from]. destruct skip as [|k]; [|apply IH].
  unfold decimal_at.
  destruct (head_code_point (String c s)) as [[cp n]|]; [|constructor].
  destruct (decimal_value cp) as [d|] eqn:Hd; [|constructor].
  specialize (IH (Nat.pred n)). destruct (span_digits_from (Nat.pred n) s) as [ds r].
  constructor; [|exact IH]. apply decimal_value_range in Hd. lia.
Qed.

Lemma int_of_digits_acc_nonneg ds : forall acc,
  0 <= acc -> Forall (fun d => 0 <= d) ds -> 0 <= int_of_digits_acc acc ds.
Proof.
  induction ds as [|d ds IH]; intros acc Ha Hd; [exact Ha|].
  inversion Hd; subst. simpl. apply IH; [lia|assumption].
Qed.

Lemma int_of_digits_acc_pos d : forall acc,
  int_of_digits_acc (Zpos acc) (uint_digits d) = Zpos (Pos.of_uint_acc d acc).
Proof.
  induction d; intros acc; simpl; try reflexivity; rewrite <- IHd; f_equal; lia.
Qed.

Lemma int_of_digits_acc_zero d :
  int_of_digits_acc 0 (uint_digits d) = Z.of_N (Pos.of_uint d).
Proof.
  induction d; simpl; try reflexivity; try exact IHd; apply int_of_digits_acc_pos.
Qed.

Lemma uint_digits_length d :
  length (uint_digits d) = String.length (NilEmpty.string_of_uint d).
Proof. induction d; simpl; congruence. Qed.

Lemma str_of_Z_digits n :
  0 <= n -> exists d, d <> Decimal.Nil /\ str_of_Z n = NilEmpty.string_of_uint d /\
                      Z.of_N (Pos.of_uint d) = n.
Proof.
  intros Hn. destruct n as [|p|p]; [| |lia].
  - exists (Decimal.D0 Decimal.Nil). repeat split. discriminate.
  - exists (Pos.to_uint p). split; [apply DecimalPos.Unsigned.to_uint_nonnil|].
    split; [|now rewrite DecimalPos.Unsigned.of_to].
    simpl. unfold NilZero.string_of_uint.
    pose proof (DecimalPos.Unsigned.to_uint_nonnil p). now destruct (Pos.to_uint p).
Qed.

Lemma span_digits_uint d rest :
  no_leading_digit rest ->
  span_digits (NilEmpty.string_of_uint d ++ rest) = (uint_digits d, rest).
Proof.
  unfold no_leading_digit, span_digits. intros Hr.
  induction d; cbn [NilEmpty.string_of_uint uint_digits];
    try (change (String ?c ?s ++ rest)%string with (String c (s ++ rest));
         cbn [span_digits_from]; rewrite decimal_at_ascii by reflexivity;
         cbn [Nat.pred]; rewrite IHd; reflexivity).
  change (EmptyString ++ rest)%string with rest.
  destruct rest as [|c rest]; [reflexivity|].
  cbn [span_digits_from]. now rewrite Hr.
Qed.

(** The ten ASCII digits followed by the UTF-8 of an Arabic-Indic digit
    three: [\d+] takes it and [int] reads it. *)
Example digits_of_other_scripts :
  utf8 1635 = "٣"%string /\
  parse_tg_link ("https://t.me/c/5/10" ++ utf8 1635) = Ok (Some 5, Some 103).
Proof. split; vm_compute; reflexivity. Qed.

(** X13: [parse_tg_link] reads back the two ids of a link.  For a chat id
    and a message id that are not negative and have at most 4300 digits,
    the link made of the prefix, the chat id, a slash and the message id
    parses to these two ids, whatever follows the message id, as long as
    it does not go on with a decimal digit of any script: the match is
    anchored at the start only. *)
Theorem parse_tg_link_round_trip (chat_id message_id : Z) (rest : string) :
  0 <= chat_id -> 0 <= message_id ->
  (String.length (str_of_Z chat_id) <= int_max_str_digits)%nat ->
  (String.length (str_of_Z message_id) <= int_max_str_digits)%nat ->
  no_leading_digit rest ->
  parse_tg_link ("https://t.me/c/" ++ str_of_Z chat_id ++ "/" ++ str_of_Z message_id ++ rest)
    = Ok (Some chat_id, Some message_id).
Proof.
  intros Hc Hm Lc Lm Hr. unfold parse_tg_link.
  change (strip_prefix "https://t.me/c/" ("https://t.me/c/" ++ ?s)) with (Some s).
  destruct (str_of_Z_digits chat_id Hc) as (d1 & N1 & E1 & V1).
  destruct (str_of_Z_digits message_id Hm) as (d2 & N2 & E2 & V2).
  rewrite E1, E2 in *.
  rewrite span_digits_uint by reflexivity.
  change ("/" ++ ?s)%string with (String "/" s). cbn [Ascii.eqb Bool.eqb].
  rewrite span_digits_uint by exact Hr.
  destruct (uint_digits d1) as [|x1 ds1] eqn:D1; [now destruct d1|].
  destruct (uint_digits d2) as [|x2 ds2] eqn:D2; [now destruct d2|].
  rewrite <- D1, <- D2. unfold int_of_digits.
  rewrite !uint_digits_length.
  destruct (Nat.ltb_spec int_max_str_digits (String.length (NilEmpty.string_of_uint d1)));
    [lia|].
  destruct (Nat.ltb_spec int_max_str_digits (String.length (NilEmpty.string_of_uint d2)));
    [lia|].
  rewrite !int_of_digits_acc_zero, V1, V2. reflexivity.
Qed.

Lemma parse_tg_link_round_trip_witness :
  parse_tg_link ("https://t.me/c/" ++ str_of_Z 1234567890 ++ "/" ++ str_of_Z 42
                   ++ "?single")
    = Ok (Some 1234567890, Some 42).
Proof.
  apply (parse_tg_link_round_trip 1234567890 42 "?single");
    [lia | lia | vm_compute; lia | vm_compute; lia | reflexivity].
Defined.

Lemma strip_prefix_startswith p s : forall t,
  strip_prefix p s = Some t -> startswith p s = true.
Proof.
  revert s. induction p as [|a p IH]; intros s t H.
  - now destruct s.
  - destruct s as [|b s]; [discriminate|]. simpl in *.
    unfold startswith in *. simpl.
    destruct (Ascii.eqb_spec a b) as [->|Hne]; [|discriminate].
    destruct (ascii_dec b b); [|contradiction]. eapply IH; eauto.
Qed.

(** X14: what [parse_tg_link] can return.  It returns both ids or neither;
    ids are never negative; and it returns ids only for a string that
    starts with the prefix the message handler tests for.  When it does
    not return, it is [int] that raises [ValueError], on a string that
    starts with that prefix. *)
Theorem parse_tg_link_shape (link : string) :
  match parse_tg_link link with
  | Ok (Some chat_id, Some message_id) =>
      0 <= chat_id /\ 0 <= message_id /\ startswith link_prefix link = true
  | Ok (None, None) => True
  | Ok _ => False
  | Raise e => exn_class e = "ValueError"%string /\ startswith link_prefix link = true
  end.
Proof.
  unfold parse_tg_link.
  destruct (strip_prefix "https://t.me/c/" link) as [after|] eqn:Hp; [|exact I].
  apply strip_prefix_startswith in Hp.
  pose proof (span_digits_nonneg after 0) as H1. fold (span_digits after) in H1.
  destruct (span_digits after) as [[|d1 ds1] [|sep after_sep]]; try exact I.
  destruct (Ascii.eqb sep "/"); [|exact I].
  pose proof (span_digits_nonneg after_sep 0) as H2. fold (span_digits after_sep) in H2.
  destruct (span_digits after_sep) as [[|d2 ds2] r]; try exact I.
  unfold int_of_digits.
  destruct (_ <? length (d1 :: ds1))%nat; [now split|].
  destruct (_ <? length (d2 :: ds2))%nat; [now split|].
  cbn -[int_of_digits_acc]. split; [|split].
  - apply int_of_digits_acc_nonneg; [lia|exact H1].
  - apply int_of_digits_acc_nonneg; [lia|exact H2].
  - exact Hp.
Qed.

(** ** Whitespace around a request *)








(** ** File names *)

(** X16: a declared file name is used as it is.  For a document whose
    first file-name attribute declares [name], [get_filename] returns
    [name], whatever the clock reads and however timestamps print; the
    other attributes before it and everything after it are ignored. *)
Theorem declared_name_is_used (P : platform) (others rest : list DocumentAttribute)
    (name : string) (now : Z) :
  Forall (fun a => a = DocumentAttributeOther) others ->
  get_filename P
    (Some (MessageMediaDocument
             (Some (DocumentOf (others ++ DocumentAttributeFilename name :: rest))))) now
  = Ok name.
Proof.
  intros H. unfold get_filename, document_attributes.
  assert (E : first_file_name (others ++ DocumentAttributeFilename name :: rest) = Some name).
  { induction H as [|a others -> _ IH]; [reflexivity|exact IH]. }
  cbn [mbind result_bind]. now rewrite E.
Qed.

Lemma declared_name_is_used_witness :
  get_filename flaky_platform
    (Some (MessageMediaDocument
             (Some (DocumentOf
                      ([DocumentAttributeOther]
                         ++ DocumentAttributeFilename "a.bin"
                              :: [DocumentAttributeFilename "b.bin"])))))
    7
  = Ok "a.bin"%string.
Proof.
  apply (declared_name_is_used flaky_platform [DocumentAttributeOther]
           [DocumentAttributeFilename "b.bin"] "a.bin" 7).
  repeat constructor.
Defined.

(** ** Startup *)

#[export] Instance only_live_connections_preorder : PreOrder only_live_connections.
Proof.
  split.
  - intros w. repeat split.
  - intros w1 w2 w3 (A1 & B1 & C1) (A2 & B2 & C2). repeat split; congruence.
Qed.

Lemma only_live_connections_event e w :
  match e with
  | set_USER_STATES _ _ | set_PROGRESS_MESSAGES _ _ | del_PROGRESS_MESSAGES _
  | sessions_update_one _ _ | sessions_delete_one _ => False
  | _ => True
  end ->
  only_live_connections w (record e (apply_event e w)).
Proof. destruct e; simpl; intros H; try contradiction; repeat split. Qed.

Ltac only_live_connections_event_tac := apply only_live_connections_event; exact I.

Lemma new_client_only_live_connections : preserves only_live_connections new_client.
Proof. intros w. repeat split. Qed.

(** Restoring one document, by what it meets. *)
Lemma restore_one_run P St u s w :
  restore_one P St (u, s) w
  = (Ok tt,
     match string_session St s with
     | Some _ => w
     | None =>
         replay (client_connect (Client (next_client w))
                   :: match restored P St s (next_client w) with
                      | Some c => [set_ACTIVE_CLIENTS u c]
                      | None => []
                      end) (new_client w).2
     end).
Proof.
  unfold restore_one, restored.
  destruct (string_session St s) as [e|]; [reflexivity|].
  step. destruct (connect P (Client (next_client w))) as [e|]; [reflexivity|].
  simpl. destruct (is_user_authorized St (Client (next_client w))) as [[|]|e]; reflexivity.
Qed.

Lemma restore_one_facts P St u s w :
  let w' := (restore_one P St (u, s) w).2 in
  (next_client w <= next_client w')%nat /\
  ACTIVE_CLIENTS w'
    = match restored P St s (next_client w) with
      | Some c => <[u := c]> (ACTIVE_CLIENTS w)
      | None => ACTIVE_CLIENTS w
      end /\
  sessions w' = sessions w.
Proof.
  rewrite restore_one_run. unfold restored. cbn [snd].
  destruct (string_session St s) as [e|]; [now split|].
  destruct (connect P (Client (next_client w))) as [e|]; [simpl; split; [lia|now split]|].
  destruct (is_user_authorized St (Client (next_client w))) as [[|]|e];
    simpl; split; try lia; now split.
Qed.

Lemma restore_loop_run P St docs : forall w,
  exists w',
    for_each docs (restore_one P St) w = (Ok tt, w') /\
    (next_client w <= next_client w')%nat /\
    sessions w' = sessions w /\
    (forall u c, ACTIVE_CLIENTS w' !! u = Some c ->
       ACTIVE_CLIENTS w !! u = Some c \/
       exists s next, In (u, s) docs /\ (next_client w <= next)%nat /\
                      restored P St s next = Some c) /\
    (forall u s, In (u, s) docs ->
       (forall next, is_Some (restored P St s next)) ->
       is_Some (ACTIVE_CLIENTS w' !! u)) /\
    (forall u, is_Some (ACTIVE_CLIENTS w !! u) -> is_Some (ACTIVE_CLIENTS w' !! u)).
Proof.
  induction docs as [|[u0 s0] docs IH]; intros w.
  - exists w. split; [reflexivity|]. split; [lia|]. split; [reflexivity|].
    split; [auto|]. split; [intros ? ? []|auto].
  - destruct (restore_one_facts P St u0 s0 w) as (N1 & A1 & S1).
    pose proof (restore_one_run P St u0 s0 w) as R1.
    set (w1 := (restore_one P St (u0, s0) w).2) in *.
    assert (E1 : restore_one P St (u0, s0) w = (Ok tt, w1)).
    { unfold w1. now rewrite R1. }
    destruct (IH w1) as (w' & E & N & Ss & Hin & Hall & Hkeep).
    exists w'. split; [|split; [lia|split; [congruence|split; [|split]]]].
    + cbn [for_each]. now rewrite (bind_ok _ _ _ _ _ E1).
    + intros u c Hc. destruct (Hin u c Hc) as [H|(s & next & H1 & H2 & H3)].
      * rewrite A1 in H.
        destruct (restored P St s0 (next_client w)) as [c0|] eqn:Hr; [|now left].
        destruct (decide (u = u0)) as [->|Hne].
        -- rewrite lookup_insert_eq in H. injection H as ->.
           right. exists s0, (next_client w). split; [now left|]. split; [lia|exact Hr].
        -- rewrite lookup_insert_ne in H by congruence. now left.
      * right. exists s, next. split; [now right|]. split; [lia|exact H3].
    + intros u s [Heq|Hi] Hok.
      * injection Heq as -> ->. apply Hkeep. rewrite A1.
        destruct (Hok (next_client w)) as [c ->]. rewrite lookup_insert_eq. eauto.
      * eapply Hall; eauto.
    + intros u Hu. apply Hkeep. rewrite A1.
      destruct (restored P St s0 (next_client w)) as [c0|]; [|exact Hu].
      destruct (decide (u = u0)) as [->|Hne].
      * rewrite lookup_insert_eq. eauto.
      * now rewrite lookup_insert_ne by congruence.
Qed.

Lemma restore_one_only_live_connections P St doc :
  preserves only_live_connections (restore_one P St doc).
Proof.
  destruct doc as [u s]. unfold restore_one.
  preserve only_live_connections_event_tac. apply new_client_only_live_connections.
Qed.

(** X17: startup registers authorized sessions only, and one bad record
    does not stop it.  [restore_sessions] returns normally unless the
    cursor itself fails; it writes neither the login states nor the
    progress table nor the collection; and a user has a live connection
    afterwards only if the user had it before or a record of the user was
    read whose session string is a session, whose connection opened and
    whose connection is authorized. *)
Theorem restore_sessions_registers_authorized (P : platform) (St : startup) (w : world) :
  exists w',
    restore_sessions P St w
      = (match (find St).2 with None => Ok tt | Some e => Raise e end, w') /\
    only_live_connections w w' /\
    forall u c, ACTIVE_CLIENTS w' !! u = Some c ->
      ACTIVE_CLIENTS w !! u = Some c \/
      exists s, In (u, s) (find St).1 /\
                string_session St s = None /\ connect P c = None /\
                is_user_authorized St c = Ok true.
Proof.
  destruct (restore_loop_run P St (find St).1 w) as (w' & E & _ & _ & Hin & _).
  exists w'. split; [|split].
  - unfold restore_sessions. rewrite (bind_ok _ _ _ _ _ E).
    now destruct (find St).2.
  - replace w' with (for_each (find St).1 (restore_one P St) w).2 by now rewrite E.
    generalize w. change (preserves only_live_connections
                            (for_each (find St).1 (restore_one P St))).
    apply preserves_for_each; [apply _|]. intros doc.
    apply restore_one_only_live_connections.
  - intros u c Hc. destruct (Hin u c Hc) as [H|(s & next & H1 & _ & H3)]; [now left|].
    right. exists s. split; [exact H1|]. unfold restored in H3.
    destruct (string_session St s); [discriminate|].
    destruct (connect P (Client next)) eqn:Hcon; [discriminate|].
    destruct (is_user_authorized St (Client next)) as [[|]|] eqn:Ha; try discriminate.
    injection H3 as <-. auto.
Qed.

(** X18: every restorable record is restored.  When the cursor yields a
    record of user [u] whose session string is a session, and connections
    open and are authorized, the user has a live connection after startup,
    whatever the other records are and whether or not the cursor fails
    later; and no user loses a live connection. *)
Theorem restore_sessions_restores (P : platform) (St : startup) (w : world) (u : Z)
    (s : string) :
  In (u, s) (find St).1 ->
  string_session St s = None ->
  (forall c, connect P c = None) ->
  (forall c, is_user_authorized St c = Ok true) ->
  is_Some (ACTIVE_CLIENTS (restore_sessions P St w).2 !! u) /\
  forall u', is_Some (ACTIVE_CLIENTS w !! u') ->
             is_Some (ACTIVE_CLIENTS (restore_sessions P St w).2 !! u').
Proof.
  intros Hi Hs Hc Ha.
  destruct (restore_loop_run P St (find St).1 w) as (w' & E & _ & _ & _ & Hall & Hkeep).
  assert (Ew : (restore_sessions P St w).2 = w').
  { unfold restore_sessions. rewrite (bind_ok _ _ _ _ _ E). now destruct (find St).2. }
  rewrite Ew. split; [|exact Hkeep].
  apply (Hall u s Hi). intros next. unfold restored. rewrite Hs, Hc, Ha. eauto.
Qed.

Lemma restore_sessions_restores_witness :
  is_Some (ACTIVE_CLIENTS
             (restore_sessions (telethon_platform [])
                (Startup ([(2, "garbage"); (1, "session-1")]%string, None)
                         (string_session three_records) (fun _ => Ok true))
                empty_world).2 !! 1) /\
  forall u', is_Some (ACTIVE_CLIENTS empty_world !! u') ->
             is_Some (ACTIVE_CLIENTS
                        (restore_sessions (telethon_platform [])
                           (Startup ([(2, "garbage"); (1, "session-1")]%string, None)
                                    (string_session three_records) (fun _ => Ok true))
                           empty_world).2 !! u').
Proof.
  apply (restore_sessions_restores (telethon_platform [])
           (Startup ([(2, "garbage"); (1, "session-1")]%string, None)
                    (string_session three_records) (fun _ => Ok true))
           empty_world 1 "session-1"); try reflexivity.
  simpl. auto.
Defined.

(** X19: startup keeps "every live connection has a persisted record" when
    the cursor yields records of the collection. *)
Theorem restore_sessions_keeps_persisted (P : platform) (St : startup) (w : world) :
  (forall u s, In (u, s) (find St).1 -> is_Some (sessions w !! u)) ->
  live_implies_persisted w ->
  live_implies_persisted (restore_sessions P St w).2.
Proof.
  intros Hf Hw.
  destruct (restore_loop_run P St (find St).1 w) as (w' & E & _ & Ss & Hin & _).
  assert (Ew : (restore_sessions P St w).2 = w').
  { unfold restore_sessions. rewrite (bind_ok _ _ _ _ _ E). now destruct (find St).2. }
  rewrite Ew. intros u c Hc. rewrite Ss.
  destruct (Hin u c Hc) as [H|(s & next & H1 & _)]; eauto.
Qed.

Lemma restore_sessions_keeps_persisted_witness :
  live_implies_persisted
    (restore_sessions (telethon_platform [])
       (Startup ([(999, "session-7")]%string, None) (fun _ => None) (fun _ => Ok true))
       world_with_restored_session).2.
Proof.
  apply (restore_sessions_keeps_persisted (telethon_platform [])
           (Startup ([(999, "session-7")]%string, None) (fun _ => None) (fun _ => Ok true))
           world_with_restored_session).
  - intros u s [H|[]]. injection H as <- <-. simpl. rewrite lookup_singleton_eq. eauto.
  - intros u c H. simpl in H. apply lookup_singleton_Some in H as [<- _].
    simpl. rewrite lookup_singleton_eq. eauto.
Defined.

(** Three records at startup: the valid one is registered, the garbage is
    skipped without a connection, the revoked one is connected and left
    unregistered. *)
Example startup_with_three_records :
  (restore_sessions (telethon_platform []) three_records empty_world).1 = Ok tt /\
  ACTIVE_CLIENTS (restore_sessions (telethon_platform []) three_records empty_world).2
    = {[ 1 := Client 0 ]} /\
  log (restore_sessions (telethon_platform []) three_records empty_world).2
    = [client_connect (Client 0); set_ACTIVE_CLIENTS 1 (Client 0); client_connect (Client 1)].
Proof. repeat split. Qed.

(** ** Requests after a logout *)

(** X20: /logout ends access at once, even when the collection refuses the
    delete.  The live connection is unregistered before the collection is
    asked, so a well-formed range request sent after /logout (two lines
    whose ids can be read) is answered with "Not logged in" and reads
    nothing, whether /logout returned or raised. *)
Theorem logout_ends_access (P : platform) (ADMINS : list Z) (u : Z) (text l0 l1 : string)
    (p0 p1 : option Z * option Z) (w : world) :
  is_admin ADMINS u = true ->
  default STATE_NONE (USER_STATES w !! u) = STATE_NONE ->
  startswith link_prefix text = true ->
  split (ascii_of_nat 10) (strip text) = [l0; l1] ->
  parse_tg_link l0 = Ok p0 ->
  parse_tg_link l1 = Ok p1 ->
  handle_message P ADMINS u text (logout P u w).2
    = (Ok tt, record (reply_text "❌ Not logged in! Use /login first.") (logout P u w).2).
Proof.
  intros Ha Hst Hp Hs H0 H1.
  assert (HA : ACTIVE_CLIENTS (logout P u w).2 !! u = None).
  { destruct (logout_disconnect_tables u w) as (_ & B & _).
    rewrite logout_run. destruct (delete_one P u); cbn [snd].
    - rewrite B. apply lookup_delete_eq.
    - rewrite replay_app. simpl. rewrite B. apply lookup_delete_eq. }
  rewrite handle_message_links; [|exact Ha|now rewrite logout_user_states|exact Hp].
  now apply (handle_links_not_logged_in P u text _ l0 l1 p0 p1).
Qed.

Lemma logout_ends_access_witness :
  handle_message failing_store_platform [1] 1 range_10_12
    (logout failing_store_platform 1 world_logged_in).2
  = (Ok tt, record (reply_text "❌ Not logged in! Use /login first.")
              (logout failing_store_platform 1 world_logged_in).2).
Proof.
  apply (logout_ends_access failing_store_platform [1] 1 range_10_12
           "https://t.me/c/5/10" "https://t.me/c/5/12" (Some 5, Some 10) (Some 5, Some 12)
           world_logged_in);
    reflexivity.
Defined.
